(** * mdg-polls: the poll pipeline and the trend smoother

    A shallow embedding of the write path of the repository
    (scripts/update-polls.js, scripts/poll-fetcher.js,
    scripts/fix-poll-classification.js) and of the rolling average used by
    the charts (calculateRollingAverage), followed by the properties the
    specification states about them.

    Conventions of the embedding:
    - JavaScript numbers that hold percentages are IEEE binary64 values
      ([float]); numbers that hold identifiers, day counts and millisecond
      time stamps are integers ([Z]), which binary64 represents exactly in
      the ranges the program reaches.
    - Strings are byte strings (UTF-8 for the few Norwegian letters).
    - A fetched HTML page is the record [Page] of the texts that the cheerio
      selectors of the scripts read from it.
    - The JSON data file is the [Dataset] it encodes: a finite map from the
      election year to the election's record. *)

From Stdlib Require Import ZArith QArith Qcanon Floats.
From Stdlib Require Import String Ascii List Bool Lia.
From stdpp Require Import gmap strings list fin_maps pretty sorting.

Set Warnings "-inexact-float".

Close Scope Qc_scope.
Close Scope Q_scope.
Local Open Scope string_scope.
Local Open Scope Z_scope.

(** ** JavaScript strings *)

Module Str.

Fixpoint take (n : nat) (s : string) : string :=
  match n, s with
  | S n', String c s' => String c (take n' s')
  | _, _ => EmptyString
  end.

Fixpoint drop (n : nat) (s : string) : string :=
  match n, s with
  | S n', String _ s' => drop n' s'
  | _, _ => s
  end.

(** [String.prototype.startsWith]. *)
Fixpoint startsWith (p s : string) : bool :=
  match p, s with
  | EmptyString, _ => true
  | String a p', String b s' => Ascii.eqb a b && startsWith p' s'
  | String _ _, EmptyString => false
  end.

(** [hay.includes(needle)]. *)
Fixpoint includes (needle hay : string) : bool :=
  startsWith needle hay ||
  match hay with
  | EmptyString => false
  | String _ hay' => includes needle hay'
  end.

Definition byte (c : ascii) : N := N_of_ascii c.

Definition in_range (lo hi : N) (c : ascii) : bool :=
  (lo <=? byte c)%N && (byte c <=? hi)%N.

Definition is_digit : ascii -> bool := in_range 48 57.
Definition is_upper : ascii -> bool := in_range 65 90.
Definition is_lower : ascii -> bool := in_range 97 122.

(** The regular-expression class [\w] (without the unicode flag). *)
Definition is_word (c : ascii) : bool :=
  is_digit c || is_upper c || is_lower c || (byte c =? 95)%N.

(** The white space of [\s] and of [trim] (WhiteSpace and LineTerminator of
    ECMAScript), in UTF-8.  One byte: tab, line feed, vertical tab, form
    feed, carriage return, space. *)
Definition is_white (c : ascii) : bool :=
  (byte c =? 32)%N || in_range 9 13 c.

(** Two bytes: U+00A0, the no-break space. *)
Definition is_white2 (c d : ascii) : bool :=
  (byte c =? 194)%N && (byte d =? 160)%N.

(** Three bytes: U+1680, U+2000 to U+200A, U+2028, U+2029, U+202F, U+205F,
    U+3000 and U+FEFF. *)
Definition is_white3 (c d e : ascii) : bool :=
  ((byte c =? 225)%N && (byte d =? 154)%N && (byte e =? 128)%N)
  || ((byte c =? 226)%N && (byte d =? 128)%N
      && (in_range 128 138 e || in_range 168 169 e || (byte e =? 175)%N))
  || ((byte c =? 226)%N && (byte d =? 129)%N && (byte e =? 159)%N)
  || ((byte c =? 227)%N && (byte d =? 128)%N && (byte e =? 128)%N)
  || ((byte c =? 239)%N && (byte d =? 187)%N && (byte e =? 191)%N).

(** The number of bytes of the white-space character at the head of the
    string, 0 when the string does not start with one. *)
Definition white_len (s : string) : nat :=
  match s with
  | String c s1 =>
      if is_white c then 1
      else
        match s1 with
        | String d s2 =>
            if is_white2 c d then 2
            else
              match s2 with
              | String e _ => if is_white3 c d e then 3 else 0
              | EmptyString => 0
              end
        | EmptyString => 0
        end
  | EmptyString => 0
  end.

Definition shift (d : Z) (c : ascii) : ascii :=
  ascii_of_N (Z.to_N (Z.of_N (byte c) + d)).

(** [toLowerCase] on ASCII and on the two-byte UTF-8 form of the Latin-1
    capitals (U+00C0 .. U+00DE except U+00D7), which covers the
    Norwegian alphabet; other bytes are kept. *)
Fixpoint toLowerCase (s : string) : string :=
  match s with
  | EmptyString => EmptyString
  | String c s' =>
      if is_upper c then String (shift 32 c) (toLowerCase s')
      else if (byte c =? 195)%N then
        match s' with
        | String d s'' =>
            if in_range 128 158 d && negb (byte d =? 151)%N
            then String c (String (shift 32 d) (toLowerCase s''))
            else String c (String d (toLowerCase s''))
        | EmptyString => String c EmptyString
        end
      else String c (toLowerCase s')
  end.

(** [s.charAt(0).toUpperCase() + s.slice(1)], same alphabet. *)
Definition capitalize (s : string) : string :=
  match s with
  | EmptyString => EmptyString
  | String c s' =>
      if is_lower c then String (shift (-32) c) s'
      else if (byte c =? 195)%N then
        match s' with
        | String d s'' =>
            if in_range 160 190 d && negb (byte d =? 183)%N
            then String c (String (shift (-32) d) s'')
            else s
        | EmptyString => s
        end
      else s
  end.

Fixpoint trimStart (s : string) : string :=
  match s with
  | String c s1 =>
      if is_white c then trimStart s1
      else
        match s1 with
        | String d s2 =>
            if is_white2 c d then trimStart s2
            else
              match s2 with
              | String e s3 => if is_white3 c d e then trimStart s3 else s
              | EmptyString => s
              end
        | EmptyString => s
        end
  | EmptyString => EmptyString
  end.

(** Without the white space at its end: a suffix that is white space only
    is dropped. *)
Fixpoint trimEnd (s : string) : string :=
  match s with
  | String c s' =>
      match trimStart s with
      | EmptyString => EmptyString
      | _ => String c (trimEnd s')
      end
  | EmptyString => EmptyString
  end.

(** [s.trim()]. *)
Definition trim (s : string) : string := trimEnd (trimStart s).

(** Length of the longest prefix of [s] whose bytes are in the class. *)
Fixpoint span (c : ascii -> bool) (s : string) : nat :=
  match s with
  | String a s' => if c a then S (span c s') else O
  | EmptyString => O
  end.

Fixpoint repeat_char (c : ascii) (n : nat) : string :=
  match n with
  | O => EmptyString
  | S n' => String c (repeat_char c n')
  end.

(** [s.padStart(n, '0')]. *)
Definition padStart0 (n : nat) (s : string) : string :=
  repeat_char "0"%char (n - String.length s) +:+ s.

(** The value of a string of decimal digits. *)
Fixpoint digits_value (acc : Z) (s : string) : Z :=
  match s with
  | EmptyString => acc
  | String c s' => digits_value (10 * acc + (Z.of_N (byte c) - 48)) s'
  end.

(** Truthiness of a string: only the empty string is falsy. *)
Definition truthy (s : string) : bool :=
  match s with EmptyString => false | _ => true end.

End Str.

(** ** The regular expressions of the scripts

    Every pattern the scripts use is a sequence of greedy repetitions of a
    character class, some of them capture groups.  [search] is
    [String.prototype.match] for such a pattern without the global flag: the
    leftmost match, each repetition as long as backtracking allows, and the
    capture groups of that match. *)

Module Regex.

(** A repetition of a character class.  [cls s] is the number of bytes of
    the character at the head of [s] when that character is in the class,
    and 0 otherwise (also at the end of the string). *)
Record item := Item {
  cls : string -> nat;
  rmin : nat;
  rmax : option nat;   (* None: unbounded *)
  capt : bool
}.

Definition pattern := list item.

(** A class of one-byte characters, and [\s]. *)
Definition bytes (c : ascii -> bool) : string -> nat :=
  fun s => match s with
           | String a _ => if c a then 1%nat else O
           | EmptyString => O
           end.

Definition white : string -> nat := Str.white_len.

(** Number of characters of the longest run of the class at the head of
    [s], at most [limit]; a character has at least one byte, so the length
    of [s] is fuel enough. *)
Fixpoint span (c : string -> nat) (limit : option nat) (fuel : nat)
    (s : string) : nat :=
  match fuel with
  | O => O
  | S fuel' =>
      match limit with
      | Some O => O
      | _ =>
          match c s with
          | O => O
          | S k => S (span c (pred <$> limit) fuel' (Str.drop (S k) s))
          end
      end
  end.

(** Number of bytes of the first [n] characters of such a run. *)
Fixpoint width (c : string -> nat) (n : nat) (s : string) : nat :=
  match n with
  | O => O
  | S n' => (c s + width c n' (Str.drop (c s) s))%nat
  end.

Fixpoint match_here (p : pattern) (s : string) : option (list string) :=
  match p with
  | [] => Some []
  | it :: p' =>
      (fix back (n : nat) : option (list string) :=
         let attempt :=
           if (rmin it <=? n)%nat then
             let w := width (cls it) n s in
             match match_here p' (Str.drop w s) with
             | Some caps =>
                 Some (if capt it then Str.take w s :: caps else caps)
             | None => None
             end
           else None in
         match attempt, n with
         | Some r, _ => Some r
         | None, O => None
         | None, S n' => back n'
         end) (span (cls it) (rmax it) (String.length s) s)
  end.

Fixpoint search (p : pattern) (s : string) : option (list string) :=
  match match_here p s with
  | Some caps => Some caps
  | None =>
      match s with
      | EmptyString => None
      | String _ s' => search p s'
      end
  end.

Definition lit (c : ascii) : item :=
  Item (bytes (Ascii.eqb c)) 1 (Some 1%nat) false.
Definition lits (s : string) : pattern := lit <$> list_ascii_of_string s.
Definition group (c : string -> nat) (lo : nat) (hi : option nat) : item :=
  Item c lo hi true.
Definition skip (c : string -> nat) (lo : nat) (hi : option nat) : item :=
  Item c lo hi false.

Definition digit : string -> nat := bytes Str.is_digit.

(** [\w]: without the unicode flag it is [[A-Za-z0-9_]], also under [/i]. *)
Definition word : string -> nat := bytes Str.is_word.

(** [/(\d{1,2})\.(\d{1,2})\.(\d{4})/] *)
Definition numeric_date : pattern :=
  [group digit 1 (Some 2%nat); lit "."; group digit 1 (Some 2%nat);
   lit "."; group digit 4 (Some 4%nat)].

(** [/(\d{1,2})\.\s*(\w+)\s*(\d{4})/i] *)
Definition norwegian_date : pattern :=
  [group digit 1 (Some 2%nat); lit "."; skip white 0 None;
   group word 1 None; skip white 0 None;
   group digit 4 (Some 4%nat)].

(** [/MDG=([0-9.]+)/] *)
Definition mdg_value : pattern :=
  (lits "MDG="
   ++ [group (bytes (fun c => Str.is_digit c || Ascii.eqb c ".")) 1 None])%list.

(** [/^([^,]+)/], used anchored with [match_here]. *)
Definition up_to_comma : pattern :=
  [group (bytes (fun c => negb (Ascii.eqb c ","))) 1 None].

(** [/gallupid=(\d+)/] *)
Definition gallupid : pattern :=
  (lits "gallupid=" ++ [group digit 1 None])%list.

End Regex.

(** ** JavaScript numbers and dates *)

Module Num.

(** The binary64 value nearest to the quotient [n / d] of two integers,
    [0 <= n] and [0 < d], ties to even; infinity when the quotient is too
    large.  The quotient is computed with a remainder and rounded once, as
    a division of the format is. *)
Definition of_ratio (n d : Z) : float :=
  if n =? 0 then PrimFloat.zero
  else
    let '(q, e, l) := SFdiv_core_binary prec emax n 0 d 0 in
    SF2Prim (binary_round_aux prec emax false q e l).

(** The binary64 value nearest to an integer. *)
Definition of_Z (z : Z) : float :=
  if z <? 0 then PrimFloat.opp (of_ratio (- z) 1) else of_ratio z 1.

(** [!x] for a number: zero (of either sign) and NaN are falsy. *)
Definition falsy (x : float) : bool := PrimFloat.is_zero x || PrimFloat.is_nan x.

(** [parseFloat] on a string of digits and dots (what [[0-9.]+] captures):
    the longest prefix of the form digits, digits.digits or .digits, read
    as a decimal numeral and rounded to the nearest binary64 value; NaN
    when that prefix has no digit. *)
Definition parseFloat (s : string) : float :=
  let n := Str.span Str.is_digit s in
  let int_part := Str.take n s in
  let frac_part :=
    match Str.drop n s with
    | String "."%char r => Str.take (Str.span Str.is_digit r) r
    | _ => EmptyString
    end in
  if Str.truthy (int_part +:+ frac_part) then
    of_ratio (Str.digits_value 0 (int_part +:+ frac_part))
             (10 ^ Z.of_nat (String.length frac_part))
  else PrimFloat.nan.

End Num.

Module JSDate.

Definition msPerDay : Z := 1000 * 3600 * 24.

(** Days from 1970-01-01 to the civil date y-m-d of the proleptic
    Gregorian calendar; a day past the end of the month runs into the
    next one, as in V8. *)
Definition days_from_civil (y m d : Z) : Z :=
  let y' := if m <=? 2 then y - 1 else y in
  let era := y' / 400 in
  let yoe := y' - era * 400 in
  let doy := (153 * (if 2 <? m then m - 3 else m + 9) + 2) / 5 + d - 1 in
  let doe := yoe * 365 + yoe / 4 - yoe / 100 + doy in
  era * 146097 + doe - 719468.

(** A [Date] object: its time value in milliseconds, or Invalid Date (time
    value NaN). *)
Inductive t :=
| Valid (ms : Z)
| Invalid.

(** [new Date("YYYY-MM-DD")]: midnight UTC of that day; invalid when the
    month is not 1..12 or the day not 1..31. *)
Definition of_ymd (y m d : Z) : t :=
  if (1 <=? m) && (m <=? 12) && (1 <=? d) && (d <=? 31)
  then Valid (days_from_civil y m d * msPerDay)
  else Invalid.

(** [new Date(`${year}-${month}-${day}`)] for strings of digits. *)
Definition of_strings (year month day : string) : t :=
  of_ymd (Str.digits_value 0 year) (Str.digits_value 0 month)
         (Str.digits_value 0 day).

(** [d.toISOString().split('T')[0]], the UTC calendar day of a time value.
    An ISO date string is represented by its day number since 1970-01-01,
    so [new Date(s)] for such a string is [day * msPerDay]. *)
Definition isoDay (ms : Z) : Z := ms / msPerDay.

End JSDate.

(** ** The data model (the Poll, Election and ElectionData interfaces) *)

Inductive Scope := national | regional | unknown.

Global Instance Scope_eq_dec : EqDecision Scope.
Proof. solve_decision. Defined.

Record Poll := mkPoll {
  date : Z;                       (* ISO date, as its day number *)
  mdgPercentage : float;
  pollster : string;
  daysUntilElection : Z;
  rssTitle : option string;
  url : string;
  scope : option Scope;
  region : option string
}.

Record Election := mkElection {
  electionDate : Z;               (* ISO date, as its day number *)
  polls : list Poll;
  actualResult : option float
}.

(** [data.elections]: the object keyed by election year. *)
Abbreviation Dataset := (gmap Z Election).

(** What the cheerio selectors of the scripts read from a fetched page. *)
Record Page := mkPage {
  bodyText : string;              (* $('body').text() *)
  blockquoteText : string;        (* $('blockquote').first().text() *)
  titleText : string;             (* $('title').text() *)
  anchors : list string;          (* href of every a[href], document order *)
  scripts : list string;          (* html() of every script element *)
  factRows : list (list string);  (* td texts of each row of the facts table *)
  thText : string                 (* $('th').text() *)
}.

(** The site: what [axios.get(url)] returns, [None] when the request throws. *)
Definition Web := string -> option Page.

(** ** Array.prototype.sort with a numeric key

    [xs.sort((a, b) => key(a) - key(b))] is a stable sort by the key; the
    result of a stable sort does not depend on the algorithm, and insertion
    from the right is the simplest one. *)

Section SortBy.
Context {A : Type} (key : A -> Z).

Fixpoint insert_by (a : A) (l : list A) : list A :=
  match l with
  | [] => [a]
  | b :: l' => if key a <=? key b then a :: l else b :: insert_by a l'
  end.

Definition sort_by (l : list A) : list A := foldr insert_by [] l.

(** The order the specification asks for: for all i < j, the key at i is
    at most the key at j. *)
Definition ascending (l : list A) : Prop :=
  forall (i j : nat) (a b : A),
    (i < j)%nat -> l !! i = Some a -> l !! j = Some b -> key a <= key b.

Fixpoint ascendingb (l : list A) : bool :=
  match l with
  | a :: (b :: _) as l' => (key a <=? key b) && ascendingb l'
  | _ => true
  end.
End SortBy.

(** ** The data file on disk *)

Module Fs.

(** What a path holds: the JSON text of a dataset, whole, or only its
    first [written] bytes (fewer than the whole text). *)
Inductive content :=
| Whole (d : Dataset)
| Partial (d : Dataset) (written : nat).

Abbreviation state := (gmap string content).

(** The calls of the fs module that the specification speaks of. *)
Inductive call :=
| WriteFileSync (path : string) (d : Dataset)
| RenameSync (src dst : string).

(** How a call ends; the environment decides. *)
Inductive fate :=
| Completes
| FailsAtOnce                   (* nothing was written or moved *)
| FailsAfter (written : nat).   (* a write that stops part way *)

Inductive result := Returned | Thrown.

(** [writeFileSync] truncates the file and then writes; [renameSync]
    replaces the target in one step. *)
Definition exec (c : call) (f : fate) (fs : state) : state * result :=
  match c, f with
  | WriteFileSync path d, Completes => (<[path := Whole d]> fs, Returned)
  | WriteFileSync path d, FailsAfter n => (<[path := Partial d n]> fs, Thrown)
  | RenameSync src dst, Completes =>
      match fs !! src with
      | Some c => (<[dst := c]> (delete src fs), Returned)
      | None => (fs, Thrown)
      end
  | _, _ => (fs, Thrown)
  end.

(** A straight-line block of calls inside [try]: the first call that
    throws ends it. *)
Fixpoint exec_all (cs : list call) (fates : list fate) (fs : state)
  : state * result :=
  match cs, fates with
  | c :: cs', f :: fates' =>
      match exec c f fs with
      | (fs', Returned) => exec_all cs' fates' fs'
      | (fs', Thrown) => (fs', Thrown)
      end
  | c :: cs', [] =>
      match exec c Completes fs with
      | (fs', Returned) => exec_all cs' [] fs'
      | (fs', Thrown) => (fs', Thrown)
      end
  | [], _ => (fs, Returned)
  end.

End Fs.

Definition dataFile : string := "data/polling-data.json".

(** ** scripts/update-polls.js *)

Module PollUpdater.

Definition baseUrl : string := "https://www.pollofpolls.no".

(** [ELECTION_DATES]: year and time value, in the order [Object.entries]
    lists the integer keys. *)
Definition ELECTION_DATES : list (Z * Z) :=
  [ (2013, JSDate.days_from_civil 2013 9 9 * JSDate.msPerDay);
    (2017, JSDate.days_from_civil 2017 9 11 * JSDate.msPerDay);
    (2021, JSDate.days_from_civil 2021 9 13 * JSDate.msPerDay);
    (2025, JSDate.days_from_civil 2025 9 8 * JSDate.msPerDay) ].

Definition electionDateOf (year : Z) : option Z :=
  snd <$> List.find (fun e => fst e =? year) ELECTION_DATES.

Definition norwegianMonths (name : string) : option string :=
  snd <$> List.find (fun kv => String.eqb (fst kv) name)
    [ ("januar", "01"); ("februar", "02"); ("mars", "03"); ("april", "04");
      ("mai", "05"); ("juni", "06"); ("juli", "07"); ("august", "08");
      ("september", "09"); ("oktober", "10"); ("november", "11");
      ("desember", "12") ].

(** The result of [fetchPollDetails] when it is not [null]. *)
Record PollDetails := mkDetails {
  d_date : option JSDate.t;     (* pollDate: null or a Date *)
  d_mdgPercentage : option float;
  d_pollster : string;
  d_url : string;
  d_scope : Scope
}.

(** Method 1: the date in the first blockquote. *)
Definition dateFromBlockquote (page : Page) : option JSDate.t :=
  match Regex.search Regex.numeric_date (blockquoteText page) with
  | Some [day; month; year] =>
      Some (JSDate.of_strings year (Str.padStart0 2 month) (Str.padStart0 2 day))
  | _ => None
  end.

(** Methods 2 and 3 run the same code on the body text and on the title:
    the first match of the pattern, and a date only if its word is a month
    name.  [norwegianMonths] is a plain object, so the two lower-case
    property names it inherits are found as well and give an Invalid
    Date. *)
Definition dateFromNorwegianText (text : string) : option JSDate.t :=
  match Regex.search Regex.norwegian_date text with
  | Some [day; monthName; year] =>
      let key := Str.toLowerCase monthName in
      match norwegianMonths key with
      | Some monthNum =>
          Some (JSDate.of_strings year monthNum (Str.padStart0 2 day))
      | None =>
          if bool_decide (key = "constructor" \/ key = "__proto__")
          then Some JSDate.Invalid
          else None
      end
  | _ => None
  end.

(** Lines 38-86: [pollDate] starts as [null]; a method runs only while it
    is still [null] (a Date object, valid or not, is truthy). *)
Definition extractPollDate (page : Page) : option JSDate.t :=
  let pollDate := dateFromBlockquote page in
  let pollDate :=
    match pollDate with
    | None => dateFromNorwegianText (bodyText page)
    | Some _ => pollDate
    end in
  let pollDate :=
    match pollDate with
    | None => dateFromNorwegianText (titleText page)
    | Some _ => pollDate
    end in
  pollDate.

(** [!mdgPercentage]. *)
Definition unset (mdgPercentage : option float) : bool :=
  match mdgPercentage with
  | None => true
  | Some x => Num.falsy x
  end.

(** Lines 91-99: the links whose href contains "MDG=", in document order;
    a link assigns only while the value is still falsy. *)
Definition fromMandateLinks (page : Page) : option float :=
  fold_left
    (fun mdgPercentage href =>
       match Regex.search Regex.mdg_value href with
       | Some [v] => if unset mdgPercentage then Some (Num.parseFloat v)
                     else mdgPercentage
       | _ => mdgPercentage
       end)
    (List.filter (Str.includes "MDG=") (anchors page)) None.

(** Lines 102-112: every script that matches assigns. *)
Definition fromScripts (page : Page) (mdgPercentage : option float)
  : option float :=
  fold_left
    (fun mdgPercentage scriptContent =>
       if Str.truthy scriptContent && Str.includes "MDG=" scriptContent then
         match Regex.search Regex.mdg_value scriptContent with
         | Some [v] => Some (Num.parseFloat v)
         | _ => mdgPercentage
         end
       else mdgPercentage)
    (scripts page) mdgPercentage.

Definition extractPercentage (page : Page) : option float :=
  let mdgPercentage := fromMandateLinks page in
  if unset mdgPercentage then fromScripts page mdgPercentage
  else mdgPercentage.

Definition extractPollster (page : Page) : string :=
  match Regex.match_here Regex.up_to_comma (titleText page) with
  | Some [p] => Str.trim p
  | _ => "Unknown"
  end.

(** Lines 120-136: the "Område" row of the facts table. *)
Definition extractScope (page : Page) : Scope :=
  fold_left
    (fun scope cells =>
       match cells with
       | c0 :: c1 :: _ =>
           if bool_decide (Str.trim c0 = "Område") then
             if bool_decide (Str.trim c1 = "Hele landet") then national
             else regional
           else scope
       | _ => scope
       end)
    (factRows page) unknown.

Definition notInDatabase : string :=
  "Meningsmålingen eksisterer ikke i databasen".

Definition fetchPollDetails (web : Web) (pollUrl : string)
  : option PollDetails :=
  match web pollUrl with
  | None => None                                   (* catch: return null *)
  | Some page =>
      if Str.includes notInDatabase (bodyText page) then None
      else Some {| d_date := extractPollDate page;
                   d_mdgPercentage := extractPercentage page;
                   d_pollster := extractPollster page;
                   d_url := pollUrl;
                   d_scope := extractScope page |}
  end.

(** [Math.ceil((electionDate - pollDate) / msPerDay)]. *)
Definition calculateDaysUntilElection (pollDate electionDate : Z) : Z :=
  - ((pollDate - electionDate) / JSDate.msPerDay).

(** The distances of [determineElectionYear], in days; [Infinity] is the
    initial [closestDistance]. *)
Inductive distance :=
| Days (q : Q)
| Infinity.

Definition dist_lt (a b : distance) : bool :=
  match a, b with
  | Days x, Days y => negb (Qle_bool y x)
  | Days _, Infinity => true
  | Infinity, _ => false
  end.

Definition dist_le (a b : distance) : bool :=
  match a, b with
  | Days x, Days y => Qle_bool x y
  | _, Infinity => true
  | Infinity, Days _ => false
  end.

(** Lines 196-227.  With an Invalid Date every comparison is false, so no
    year is ever the closest and the result is [null]. *)
Definition determineElectionYear (pollDate : JSDate.t) : option Z :=
  match pollDate with
  | JSDate.Invalid => None
  | JSDate.Valid t =>
      if (t <? default 0 (electionDateOf 2013)) then None
      else
        let distances :=
          List.map (fun '(year, electionDate) =>
                      (* timeDiff / (1000 * 3600 * 24) *)
                      (year, Days (Z.abs (electionDate - t) # 86400000)))
                   ELECTION_DATES in
        let '(closestYear, closestDistance) :=
          fold_left
            (fun '(closestYear, closestDistance) '(year, distance) =>
               if dist_lt distance closestDistance
               then (Some year, distance)
               else (closestYear, closestDistance))
            distances (None, Infinity) in
        if dist_le closestDistance (Days 730) then closestYear else None
  end.

(** Lines 247-275, the body of the loop of [fetchNewPolls] for a page that
    exists: the entry pushed on [newPolls], if any. *)
Definition acceptPoll (pollDetails : PollDetails) : option (Z * Poll) :=
  match d_date pollDetails, d_mdgPercentage pollDetails with
  | Some pollDate, Some mdgPercentage =>
      match determineElectionYear pollDate, pollDate with
      | Some electionYear, JSDate.Valid t =>
          match electionDateOf electionYear with
          | Some electionDate =>
              let daysUntilElection :=
                calculateDaysUntilElection t electionDate in
              if (0 <=? daysUntilElection) && (daysUntilElection <=? 730)
              then Some (electionYear,
                         {| date := JSDate.isoDay t;
                            mdgPercentage := mdgPercentage;
                            pollster := d_pollster pollDetails;
                            daysUntilElection := daysUntilElection;
                            rssTitle := None;
                            url := d_url pollDetails;
                            scope := Some (d_scope pollDetails);
                            region := None |})
              else None
          | None => None
          end
      | _, _ => None
      end
  | _, _ => None
  end.

Definition pollUrlOf (id : Z) : string :=
  baseUrl +:+ "/?cmd=Maling&gallupid=" +:+ pretty id.

Definition maxConsecutiveNonExistent : nat := 30.

(** The loop of [fetchNewPolls]: [remaining] ids are left up to
    [startId + maxChecks]. *)
Fixpoint fetchLoop (web : Web) (remaining : nat) (id : Z)
    (consecutiveNonExistent : nat) (newPolls : list (Z * Poll))
  : list (Z * Poll) :=
  match remaining with
  | O => newPolls
  | S remaining' =>
      if (consecutiveNonExistent <? maxConsecutiveNonExistent)%nat then
        match fetchPollDetails web (pollUrlOf id) with
        | None =>
            fetchLoop web remaining' (id + 1) (S consecutiveNonExistent)
                      newPolls
        | Some pollDetails =>
            fetchLoop web remaining' (id + 1) O
                      (newPolls ++ option_list (acceptPoll pollDetails))
        end
      else newPolls
  end.

Definition fetchNewPolls (web : Web) (startId maxChecks : Z)
  : list (Z * Poll) :=
  fetchLoop web (Z.to_nat (maxChecks + 1)) startId O [].

(** Lines 156-166: the parsed file, or the empty dataset when the file is
    missing or [JSON.parse] throws. *)
Definition loadExistingData (fs : Fs.state) : Dataset :=
  match fs !! dataFile with
  | Some (Fs.Whole d) => d
  | _ => ∅
  end.

(** Lines 168-176: one call of [fs.writeFileSync] on the data file itself;
    the [catch] logs and throws the error again. *)
Definition saveData (data : Dataset) : list Fs.call :=
  [Fs.WriteFileSync dataFile data].

(** [parseInt(match[1])]: the number that the digits write.  It is kept as
    an integer; [parseInt] gives that integer itself as long as it is below
    2^53, and the nearest binary64 beyond. *)
Definition pollId (poll : Poll) : option Z :=
  match Regex.search Regex.gallupid (url poll) with
  | Some [digits] => Some (Str.digits_value 0 digits)
  | _ => None
  end.

Definition findHighestPollId (existingData : Dataset) : Z :=
  fold_left
    (fun highestId poll =>
       match pollId poll with
       | Some id => if highestId <? id then id else highestId
       | None => highestId
       end)
    (flat_map (fun e => polls (snd e)) (map_to_list existingData)) 0.

Definition actualResults (year : Z) : option float :=
  if year =? 2013 then Some 2.8%float
  else if year =? 2017 then Some 3.2%float
  else if year =? 2021 then Some 3.9%float
  else None.

(** Lines 313-324.  [ELECTION_DATES[electionYear].toISOString()] throws
    for a year that is not in the table. *)
Definition ensureElection (elections : Dataset) (electionYear : Z)
  : option Dataset :=
  match elections !! electionYear with
  | Some _ => Some elections
  | None =>
      match electionDateOf electionYear with
      | Some electionDate =>
          Some (<[electionYear :=
                   {| electionDate := JSDate.isoDay electionDate;
                      polls := [];
                      actualResult := actualResults electionYear |}]>
                  elections)
      | None => None
      end
  end.

(** Lines 312-332, one entry of [newPolls]; [None] is a thrown error. *)
Definition addPoll (state : Dataset * nat) (entry : Z * Poll)
  : option (Dataset * nat) :=
  let '(elections, addedCount) := state in
  let '(electionYear, poll) := entry in
  match ensureElection elections electionYear with
  | None => None
  | Some elections =>
      match elections !! electionYear with
      | None => None
      | Some election =>
          let exists_ :=
            existsb (fun p => String.eqb (url p) (url poll)) (polls election) in
          if exists_ then Some (elections, addedCount)
          else Some (<[electionYear :=
                        {| electionDate := electionDate election;
                           polls := polls election ++ [poll];
                           actualResult := actualResult election |}]>
                       elections,
                     S addedCount)
      end
  end.

Fixpoint addPolls (state : Dataset * nat) (newPolls : list (Z * Poll))
  : option (Dataset * nat) :=
  match newPolls with
  | [] => Some state
  | entry :: rest =>
      match addPoll state entry with
      | Some state' => addPolls state' rest
      | None => None
      end
  end.

(** Line 337: [polls.sort((a, b) => new Date(a.date) - new Date(b.date))]. *)
Definition sortPolls (election : Election) : Election :=
  {| electionDate := electionDate election;
     polls := sort_by date (polls election);
     actualResult := actualResult election |}.

(** How the merge of [run] (lines 305-346) ends. *)
Inductive outcome :=
| UpToDate                             (* no new polls: return *)
| Saved (data : Dataset) (addedCount : nat)
| AllDuplicates                        (* nothing added: no save *)
| Crashed.                             (* catch: process.exit(1) *)

Definition mergeNewPolls (existingData : Dataset)
    (newPolls : list (Z * Poll)) : outcome :=
  match newPolls with
  | [] => UpToDate
  | _ =>
      match addPolls (existingData, O) newPolls with
      | None => Crashed
      | Some (elections, addedCount) =>
          if (0 <? addedCount)%nat
          then Saved (sortPolls <$> elections) addedCount
          else AllDuplicates
      end
  end.

(** The dataset in the data file after the merge: what was saved, and the
    old one when nothing was. *)
Definition persisted (existingData : Dataset) (o : outcome) : Dataset :=
  match o with
  | Saved data _ => data
  | _ => existingData
  end.

Definition merge (existingData : Dataset) (newPolls : list (Z * Poll))
  : Dataset :=
  persisted existingData (mergeNewPolls existingData newPolls).

(** Lines 286-352, [run]: the calls on the file system it makes. *)
Definition run (web : Web) (fs : Fs.state) : list Fs.call :=
  let existingData := loadExistingData fs in
  let highestId := findHighestPollId existingData in
  if highestId =? 0 then []
  else
    match mergeNewPolls existingData
            (fetchNewPolls web (highestId + 1) 100) with
    | Saved data _ => saveData data
    | _ => []
    end.

End PollUpdater.

(** ** scripts/poll-fetcher.js *)

Module PollFetcher.

(** Lines 209-217, the same as [PollUpdater.saveData]. *)
Definition saveData (data : Dataset) : list Fs.call :=
  [Fs.WriteFileSync dataFile data].

(** [ELECTION_DATES] of this script, which also lists 2011. *)
Definition ELECTION_DATES : list (Z * Z) :=
  [ (2011, JSDate.days_from_civil 2011 9 12 * JSDate.msPerDay);
    (2013, JSDate.days_from_civil 2013 9 9 * JSDate.msPerDay);
    (2017, JSDate.days_from_civil 2017 9 11 * JSDate.msPerDay);
    (2021, JSDate.days_from_civil 2021 9 13 * JSDate.msPerDay);
    (2025, JSDate.days_from_civil 2025 9 8 * JSDate.msPerDay) ].

Definition electionDateOf (year : Z) : option Z :=
  snd <$> List.find (fun e => fst e =? year) ELECTION_DATES.

(** An item of the parsed RSS feed. *)
Record RssItem := mkItem {
  title : string;
  link : string
}.

(** The result of [fetchPollDetails] (lines 129-134): no scope here. *)
Record Details := mkDetails {
  f_date : option JSDate.t;
  f_mdgPercentage : option float;
  f_pollster : string;
  f_url : string
}.

(** Lines 43-139.  The code that reads the date, the percentage and the
    pollster is the text of [PollUpdater.fetchPollDetails]; this script does
    not look for the "not in the database" message. *)
Definition fetchPollDetails (web : Web) (pollUrl : string) : option Details :=
  match web pollUrl with
  | None => None
  | Some page =>
      Some {| f_date := PollUpdater.extractPollDate page;
              f_mdgPercentage := PollUpdater.extractPercentage page;
              f_pollster := PollUpdater.extractPollster page;
              f_url := pollUrl |}
  end.

(** Lines 141-144. *)
Definition calculateDaysUntilElection (pollDate electionDate : Z) : Z :=
  - ((pollDate - electionDate) / JSDate.msPerDay).

(** Lines 163-192, one item of the feed: the poll pushed, if any.  With an
    Invalid Date the day count is NaN and both comparisons are false. *)
Definition processItem (web : Web) (electionDate : Z) (rssItem : RssItem)
  : option Poll :=
  if negb (Str.includes "stortingsvalg" (title rssItem))
     || negb (Str.includes "hele landet" (title rssItem))
  then None
  else
    match fetchPollDetails web (link rssItem) with
    | Some pollDetails =>
        match f_date pollDetails, f_mdgPercentage pollDetails with
        | Some (JSDate.Valid t), Some mdgPercentage =>
            let daysUntilElection :=
              calculateDaysUntilElection t electionDate in
            if (0 <=? daysUntilElection) && (daysUntilElection <=? 730)
            then Some {| date := JSDate.isoDay t;
                         mdgPercentage := mdgPercentage;
                         pollster := f_pollster pollDetails;
                         daysUntilElection := daysUntilElection;
                         rssTitle := Some (title rssItem);
                         url := f_url pollDetails;
                         scope := None;
                         region := None |}
            else None
        | _, _ => None
        end
    | None => None
    end.

(** Lines 155-195. *)
Definition processPollsForElection (web : Web) (allPolls : list RssItem)
    (electionYear : Z) : list Poll :=
  match electionDateOf electionYear with
  | None => []
  | Some electionDate =>
      sort_by date (omap (processItem web electionDate) allPolls)
  end.

(** [Math.ceil(currentYear / 4) * 4 + 1]. *)
Definition nextElection (currentYear : Z) : Z :=
  - ((- currentYear) / 4) * 4 + 1.

(** Lines 230-237. *)
Definition electionYears (currentYear : Z) : list Z :=
  ([2021; 2025] ++
   (if 2025 <? currentYear then [nextElection currentYear] else []))%list.

(** Lines 242-256, one election year of the loop of [run]: the cycle is
    replaced as a whole when the feed gave a poll for it.  (A year without
    a date gives no poll, so the date is there when it is read.) *)
Definition updateElection (web : Web) (rssItems : list RssItem)
    (existingData : Dataset) (electionYear : Z) : Dataset :=
  let polls := processPollsForElection web rssItems electionYear in
  if (0 <? length polls)%nat then
    match electionDateOf electionYear with
    | Some electionDate =>
        <[electionYear := {| electionDate := JSDate.isoDay electionDate;
                             polls := polls;
                             actualResult := None |}]> existingData
    | None => existingData
    end
  else existingData.

(** Lines 219-262: the dataset that [run] hands to [saveData]. *)
Definition updatedData (web : Web) (rssItems : list RssItem)
    (currentYear : Z) (existingData : Dataset) : Dataset :=
  fold_left (updateElection web rssItems) (electionYears currentYear)
            existingData.

(** Lines 219-267, [run]: the calls on the file system.  [feed] is what
    [fetchRSSFeed] returns, [None] when it throws (the run then exits). *)
Definition run (feed : option (list RssItem)) (web : Web) (currentYear : Z)
    (fs : Fs.state) : list Fs.call :=
  match feed with
  | None => []
  | Some rssItems =>
      saveData (updatedData web rssItems currentYear
                            (PollUpdater.loadExistingData fs))
  end.

End PollFetcher.

(** ** scripts/fix-poll-classification.js *)

Module PollClassificationFixer.

Definition regions : list string :=
  [ "oslo"; "akershus"; "østfold"; "vestfold"; "telemark"; "buskerud";
    "oppland"; "hedmark"; "vest-agder"; "aust-agder"; "agder"; "rogaland";
    "hordaland"; "bergen"; "sogn og fjordane"; "møre og romsdal";
    "sør-trøndelag"; "trøndelag"; "trondheim"; "nord-trøndelag"; "nordland";
    "troms"; "finnmark"; "stavanger"; "kristiansand"; "tromsø";
    "drammen"; "fredrikstad"; "sarpsborg"; "skien"; "ålesund"; "bodø";
    "molde"; "haugesund"; "sandnes"; "tønsberg"; "moss"; "arendal" ].

(** [new RegExp(`, ${region} /`, 'i').test(pageText)]: the region names
    hold no special character, so this is a search that ignores case. *)
Definition regionPattern (region pageText : string) : bool :=
  Str.includes (", " +:+ region +:+ " /") (Str.toLowerCase pageText).

(** Lines 25-64. *)
Definition analyzePollScope (web : Web) (pollUrl : string)
  : Scope * option string :=
  match web pollUrl with
  | None => (unknown, None)                      (* catch *)
  | Some page =>
      let pageText := bodyText page in
      let title := Str.toLowerCase (titleText page) in
      if Str.includes ", hele landet /" pageText
         || Str.includes "hele landet" title
      then (national, None)
      else
        match List.find
                (fun region =>
                   regionPattern region pageText
                   || Str.includes (Str.toLowerCase region) title)
                regions with
        | Some region => (regional, Some (Str.capitalize region))
        | None =>
            let tableHeaders := Str.toLowerCase (thText page) in
            if Str.includes "hele landet" tableHeaders
            then (national, None)
            else (unknown, None)
        end
  end.

(** Lines 92-106, one poll of the loop: only a poll marked national is
    analysed again; [delete poll.region] when the new region is falsy. *)
Definition fixPoll (web : Web) (poll : Poll) : Poll :=
  match scope poll with
  | Some national =>
      let correctScope := analyzePollScope web (url poll) in
      {| date := date poll;
         mdgPercentage := mdgPercentage poll;
         pollster := pollster poll;
         daysUntilElection := daysUntilElection poll;
         rssTitle := rssTitle poll;
         url := url poll;
         scope := Some (fst correctScope);
         region := match snd correctScope with
                   | Some r => if Str.truthy r then Some r else None
                   | None => None
                   end |}
  | _ => poll
  end.

(** Lines 66-137: the data it returns (and saves on the way). *)
Definition fixExistingClassification (web : Web) (data : Dataset) : Dataset :=
  (fun election =>
     {| electionDate := electionDate election;
        polls := fixPoll web <$> polls election;
        actualResult := actualResult election |}) <$> data.

(** Lines 174-181. *)
Definition saveData (data : Dataset) : list Fs.call :=
  [Fs.WriteFileSync dataFile data].

Definition publicDataFile : string := "public/data/polling-data.json".
Definition srcDataFile : string := "src/data/polling-data.json".

(** Lines 145-156: the national polls of each election, and only the
    elections that have one. *)
Definition nationalOnly (data : Dataset) : Dataset :=
  omap (fun election =>
          let nationalPolls :=
            List.filter (fun poll => bool_decide (scope poll = Some national))
                        (polls election) in
          if (0 <? length nationalPolls)%nat
          then Some {| electionDate := electionDate election;
                       polls := nationalPolls;
                       actualResult := actualResult election |}
          else None)
       data.

(** Lines 139-172: the two files written with the national-only data. *)
Definition createNationalOnlyDataset (data : Dataset) : list Fs.call :=
  [ Fs.WriteFileSync publicDataFile (nationalOnly data);
    Fs.WriteFileSync srcDataFile (nationalOnly data) ].

End PollClassificationFixer.

(** ** The historical fetcher (fix-poll-classification.js, lines 207-489) *)

Module HistoricalFetcher.

Definition ELECTION_DATES : list (Z * Z) :=
  [ (2011, JSDate.days_from_civil 2011 9 12 * JSDate.msPerDay);
    (2013, JSDate.days_from_civil 2013 9 9 * JSDate.msPerDay);
    (2017, JSDate.days_from_civil 2017 9 11 * JSDate.msPerDay);
    (2021, JSDate.days_from_civil 2021 9 13 * JSDate.msPerDay);
    (2025, JSDate.days_from_civil 2025 9 8 * JSDate.msPerDay) ].

Definition electionDateOf (year : Z) : option Z :=
  snd <$> List.find (fun e => fst e =? year) ELECTION_DATES.

(** Lines 235-351: the text of [PollUpdater.fetchPollDetails] without the
    test for the "not in the database" message. *)
Definition fetchPollDetails (web : Web) (pollUrl : string)
  : option PollUpdater.PollDetails :=
  match web pollUrl with
  | None => None
  | Some page =>
      Some {| PollUpdater.d_date := PollUpdater.extractPollDate page;
              PollUpdater.d_mdgPercentage := PollUpdater.extractPercentage page;
              PollUpdater.d_pollster := PollUpdater.extractPollster page;
              PollUpdater.d_url := pollUrl;
              PollUpdater.d_scope := PollUpdater.extractScope page |}
  end.

(** Lines 353-356. *)
Definition calculateDaysUntilElection (pollDate electionDate : Z) : Z :=
  - ((pollDate - electionDate) / JSDate.msPerDay).

(** Lines 375-397, one id: the poll pushed, if any.
    [twentyFourMonthsBefore] is the time value of the election date after
    [setMonth(getMonth() - 24)]. *)
Definition processId (web : Web) (electionDate twentyFourMonthsBefore : Z)
    (batchId : Z) : option Poll :=
  match fetchPollDetails web (PollUpdater.pollUrlOf batchId) with
  | Some pollDetails =>
      match PollUpdater.d_date pollDetails,
            PollUpdater.d_mdgPercentage pollDetails with
      | Some (JSDate.Valid t), Some mdgPercentage =>
          let daysUntilElection :=
            calculateDaysUntilElection t electionDate in
          if (0 <=? daysUntilElection) && (daysUntilElection <=? 730)
             && (twentyFourMonthsBefore <=? t) && (t <=? electionDate)
          then Some {| date := JSDate.isoDay t;
                       mdgPercentage := mdgPercentage;
                       pollster := PollUpdater.d_pollster pollDetails;
                       daysUntilElection := daysUntilElection;
                       rssTitle := None;
                       url := PollUpdater.d_url pollDetails;
                       scope := Some (PollUpdater.d_scope pollDetails);
                       region := None |}
          else None
      | _, _ => None
      end
  | None => None
  end.

Definition batchSize : nat := 10.

(** Lines 374-401, the inner loop: [n] ids are left of the batch. *)
Fixpoint batch (process : Z -> option Poll) (n : nat) (batchId endId : Z)
    (polls : list Poll) : list Poll :=
  match n with
  | O => polls
  | S n' =>
      if batchId <=? endId
      then batch process n' (batchId + 1) endId
                 (polls ++ option_list (process batchId))
      else polls
  end.

(** Lines 370-405, the outer loop, with a bound on its iterations. *)
Fixpoint batches (process : Z -> option Poll) (fuel : nat) (id endId : Z)
    (polls : list Poll) : list Poll :=
  match fuel with
  | O => polls
  | S fuel' =>
      if id <=? endId
      then batches process fuel' (id + Z.of_nat batchSize) endId
                   (batch process batchSize id endId polls)
      else polls
  end.

(** Lines 358-408.  [setMonthBack24] stands for the date arithmetic of
    lines 364-365, which runs in the time zone of the machine.  A batch
    holds at least one id, so [endId - startId + 1] batches are more than
    the loop ever makes. *)
Definition fetchHistoricalPolls (setMonthBack24 : Z -> Z) (web : Web)
    (electionYear startId endId : Z) : list Poll :=
  match electionDateOf electionYear with
  | None => []
  | Some electionDate =>
      let twentyFourMonthsBefore := setMonthBack24 electionDate in
      sort_by date
        (batches (processId web electionDate twentyFourMonthsBefore)
                 (Z.to_nat (endId - startId + 1)) startId endId [])
  end.

(** Lines 422-430. *)
Definition saveData (data : Dataset) : list Fs.call :=
  [Fs.WriteFileSync dataFile data].

(** [electionRanges], in the order [Object.entries] lists its integer
    keys. *)
Definition electionRanges : list (Z * (Z * Z)) :=
  [ (2013, (1614, 2110)); (2017, (2900, 3315));
    (2021, (4041, 4532)); (2025, (5240, 5600)) ].

(** Lines 448-472, one election of the loop of [run]: the data and the
    calls on the file system so far. *)
Definition processElection (setMonthBack24 : Z -> Z) (web : Web)
    (state : Dataset * list Fs.call) (entry : Z * (Z * Z))
  : Dataset * list Fs.call :=
  let '(existingData, calls) := state in
  let '(electionYear, (startId, endId)) := entry in
  if match existingData !! electionYear with
     | Some election => (5 <? length (polls election))%nat
     | None => false
     end
  then state
  else
    let polls :=
      fetchHistoricalPolls setMonthBack24 web electionYear startId endId in
    if (0 <? length polls)%nat then
      match electionDateOf electionYear with
      | Some electionDate =>
          let existingData :=
            <[electionYear := {| electionDate := JSDate.isoDay electionDate;
                                 polls := polls;
                                 actualResult := None |}]> existingData in
          (existingData, (calls ++ saveData existingData)%list)
      | None => state
      end
    else state.

(** Lines 432-480, [run]: the calls on the file system it makes. *)
Definition run (setMonthBack24 : Z -> Z) (web : Web) (fs : Fs.state)
  : list Fs.call :=
  snd (fold_left (processElection setMonthBack24 web) electionRanges
                 (PollUpdater.loadExistingData fs, [])).

End HistoricalFetcher.

(** ** The donation fetcher (fix-poll-classification.js, lines 491-1005):
    the pages of the API *)

Module RealApiDonationFetcher.

(** [response.data] of the API, as far as [fetchPartyDonations] reads it:
    [PageEntries], when it is there, is an array ([None] also stands for a
    response without data); [TotalResults], when it is there, is a count. *)
Record Response (Entry : Type) := mkResponse {
  PageEntries : option (list Entry);
  TotalResults : option Z
}.

Arguments mkResponse {Entry} _ _.
Arguments PageEntries {Entry} _.
Arguments TotalResults {Entry} _.

(** Lines 580-635, the [while] loop: [api pageNumber] is what
    [axios.post] returns for that page of the party, [None] when it throws.
    [pageNumber] grows with every further iteration and the loop ends when
    it passes 20, so [fuel] counts the iterations that are left. *)
Fixpoint pages {Entry : Type} (api : Z -> option (Response Entry))
    (fuel : nat) (pageNumber : Z) (donations : list Entry) : list Entry :=
  match fuel with
  | O => donations
  | S fuel' =>
      if pageNumber <=? 20 then
        match api pageNumber with
        | Some response =>
            match PageEntries response with
            | Some pageEntries =>
                let donations := (donations ++ pageEntries)%list in
                let totalResults := default 0 (TotalResults response) in
                let currentResults := pageNumber * 100 in
                let hasMorePages :=
                  (currentResults <? totalResults)
                  && (0 <? length pageEntries)%nat in
                if hasMorePages
                then pages api fuel' (pageNumber + 1) donations
                else donations
            | None => donations
            end
        | None => donations                          (* catch *)
        end
      else donations
  end.

(** Lines 575-638. *)
Definition fetchPartyDonations {Entry : Type}
    (api : Z -> option (Response Entry)) : list Entry :=
  pages api 20 1 [].

End RealApiDonationFetcher.

(** ** utils/rollingAverage (calculateRollingAverage)

    The function takes [any[]] and reads two fields of each element; the
    charts call it with several record shapes.  The section is generic in
    the element type and in the arithmetic of the values, so that the same
    definition runs on binary64 (what the program does) and on exact
    rationals.  The days are integers; the width of the window and the
    bounds computed from it are binary64 numbers in either case. *)

Section RollingAverage.
Context {poll num : Type}.
Variable daysUntilElectionOf : poll -> Z.
Variable mdgPercentageOf : poll -> num.
Variable zero : num.
Variable add div : num -> num -> num.
Variable of_nat : nat -> num.

Record AveragePoint := mkPoint { x : Z; y : num }.

(** [polls.reduce((sum, poll) => sum + poll.mdgPercentage, 0) / polls.length] *)
Definition average (pollsInWindow : list poll) : num :=
  div (fold_left (fun sum p => add sum (mdgPercentageOf p)) pollsInWindow zero)
      (of_nat (length pollsInWindow)).

(** Lines 20-26: the bounds of the window are computed, and compared with
    the sample's day, in binary64. *)
Definition inWindow (windowDays : float) (day : Z) (p : poll) : bool :=
  let windowStart :=
    PrimFloat.sub (Num.of_Z day) (PrimFloat.div windowDays 2%float) in
  let windowEnd :=
    PrimFloat.add (Num.of_Z day) (PrimFloat.div windowDays 2%float) in
  PrimFloat.leb windowStart (Num.of_Z (daysUntilElectionOf p))
  && PrimFloat.leb (Num.of_Z (daysUntilElectionOf p)) windowEnd.

(** The [for] loop of lines 19-35, with a bound on its iterations. *)
Fixpoint averagesFrom (fuel : nat) (sortedPolls : list poll)
    (windowDays : float) (maxDays step day : Z) : list AveragePoint :=
  match fuel with
  | O => []
  | S fuel' =>
      if day <=? maxDays then
        let pollsInWindow := List.filter (inWindow windowDays day) sortedPolls in
        let rest :=
          averagesFrom fuel' sortedPolls windowDays maxDays step (day + step) in
        if (0 <? length pollsInWindow)%nat
        then {| x := day; y := average pollsInWindow |} :: rest
        else rest
      else []
  end.

Definition minOf (l : list Z) : Z :=
  match l with
  | [] => 0
  | d :: l' => fold_left Z.min l' d
  end.

Definition maxOf (l : list Z) : Z :=
  match l with
  | [] => 0
  | d :: l' => fold_left Z.max l' d
  end.

(** The step is at least 3, so [maxDays - minDays + 1] iterations are
    more than the loop ever makes. *)
Definition calculateRollingAverage (polls : list poll) (windowDays : float)
  : list AveragePoint :=
  if (length polls <? 2)%nat then []
  else
    let sortedPolls := sort_by daysUntilElectionOf polls in
    let minDays := minOf (daysUntilElectionOf <$> sortedPolls) in
    let maxDays := maxOf (daysUntilElectionOf <$> sortedPolls) in
    let step := Z.max 3 ((maxDays - minDays) / 100) in
    averagesFrom (Z.to_nat (maxDays - minDays + 1)) sortedPolls windowDays
                 maxDays step minDays.

End RollingAverage.

Arguments mkPoint {num} x y.
Arguments x {num} _.
Arguments y {num} _.

(** The smoother as the program runs it: on polls, in binary64. *)
Definition calculateRollingAverage_js (polls : list Poll) (windowDays : float)
  : list (@AveragePoint float) :=
  calculateRollingAverage daysUntilElection mdgPercentage
    0%float PrimFloat.add PrimFloat.div (fun n => Num.of_Z (Z.of_nat n))
    polls windowDays.

(** ** Vocabulary of the specification *)

(** The stable id of a record is its url; the record with this url is
    already in the cycle of that year. *)
Definition present (data : Dataset) (year : Z) (u : string) : Prop :=
  exists election,
    data !! year = Some election /\
    existsb (fun p => String.eqb (url p) u) (polls election) = true.

(** Within every cycle the polls are in ascending order of date. *)
Definition cycles_sorted (data : Dataset) : Prop :=
  map_Forall (fun _ election => ascending date (polls election)) data.

(** Sample records, after the sample data of the repository. *)
Definition samplePoll (day : Z) (pct : float) (who : string) (days : Z)
    (id : string) (sc : Scope) : Poll :=
  {| date := day; mdgPercentage := pct; pollster := who;
     daysUntilElection := days; rssTitle := None;
     url := "http://www.pollofpolls.no/?cmd=Maling&gallupid=" +:+ id;
     scope := Some sc; region := None |}.

(** 2021-07-20 and 2021-08-30. *)
Definition poll5080 : Poll :=
  samplePoll 18828 3.8%float "Opinion for Dagbladet" 55 "5080" national.
Definition poll5180 : Poll :=
  samplePoll 18869 3.2%float "Kantar for TV2" 14 "5180" national.
(** 2021-09-01. *)
Definition poll5190 : Poll :=
  samplePoll 18871 4.1%float "Norstat for NRK" 12 "5190" national.

(** A data file whose 2021 cycle is not in order of date. *)
Definition unsortedData : Dataset :=
  {[ 2021 := {| electionDate := 18883; polls := [poll5180; poll5080];
                actualResult := Some 3.9%float |} ]}.

(** An election's day number, the distance in days between a poll and an
    election, and the election closest to a poll: strictly closer than every
    earlier election and at least as close as every later one (the loop of
    [determineElectionYear] keeps the first of two equally close ones). *)
Definition electionDay (year : Z) : option Z :=
  JSDate.isoDay <$> PollUpdater.electionDateOf year.

Definition dayDistance (pollDay electionDay : Z) : Z :=
  Z.abs (electionDay - pollDay).

Definition closestElection (pollDay year : Z) : Prop :=
  exists e,
    electionDay year = Some e /\
    forall year' e',
      electionDay year' = Some e' ->
      (year' < year -> dayDistance pollDay e < dayDistance pollDay e') /\
      (year < year' -> dayDistance pollDay e <= dayDistance pollDay e').

(** 2013-09-09, the election day before which [determineElectionYear]
    tracks nothing. *)
Definition firstTrackedDay : Z := JSDate.days_from_civil 2013 9 9.

(** What [fetchPollDetails] returns for a page dated [pollDay] (midnight
    UTC, as every date it builds) with a percentage. *)
Definition detailsOn (pollDay : Z) (pct : float) (sc : Scope) : PollUpdater.PollDetails :=
  {| PollUpdater.d_date := Some (JSDate.Valid (pollDay * JSDate.msPerDay));
     PollUpdater.d_mdgPercentage := Some pct;
     PollUpdater.d_pollster := "Norstat for NRK";
     PollUpdater.d_url := "https://www.pollofpolls.no/?cmd=Maling&gallupid=5200";
     PollUpdater.d_scope := sc |}.

(** Region and scope of a record agree: a region is present exactly when the
    scope is regional; and the half of it that every script keeps. *)
Definition coherent (poll : Poll) : Prop :=
  is_Some (region poll) <-> scope poll = Some regional.

Definition region_only_if_regional (poll : Poll) : Prop :=
  is_Some (region poll) -> scope poll = Some regional.

Definition all_polls (P : Poll -> Prop) (data : Dataset) : Prop :=
  map_Forall (fun _ election => Forall P (polls election)) data.

(** Two pages of the site.  The first is a national poll: the facts table
    says "Hele landet", and the title names the newspaper that ordered it.
    The second is a poll of Oslo. *)
Definition nationalPage : Page :=
  {| bodyText := "Norstat for Avisa Oslo Fakta om meningsmålingen Område Hele landet";
     blockquoteText := "Intervjuperiode: 16.8.2021 - 20.8.2021";
     titleText := "pollofpolls.no - Norstat for Avisa Oslo 20. august 2021";
     anchors := ["/?cmd=Mandatfordeling&Ap=24.1&MDG=4.6&R=5.2"];
     scripts := [];
     factRows := [["Område"; "Hele landet"]; ["Antall spurte"; "1000"]];
     thText := "Parti Oppslutning" |}.

Definition osloPage : Page :=
  {| bodyText := "Norstat for NRK Fakta om meningsmålingen Område Oslo";
     blockquoteText := "Intervjuperiode: 16.8.2021 - 20.8.2021";
     titleText := "pollofpolls.no - Norstat for NRK 20. august 2021";
     anchors := ["/?cmd=Mandatfordeling&Ap=24.1&MDG=5.8&R=5.2"];
     scripts := [];
     factRows := [["Område"; "Oslo"]; ["Antall spurte"; "600"]];
     thText := "Parti Oppslutning" |}.

Definition url5200 : string :=
  "https://www.pollofpolls.no/?cmd=Maling&gallupid=5200".
Definition url5201 : string :=
  "https://www.pollofpolls.no/?cmd=Maling&gallupid=5201".

Definition sampleWeb : Web :=
  fun pollUrl =>
    if String.eqb pollUrl url5200 then Some nationalPage
    else if String.eqb pollUrl url5201 then Some osloPage
    else None.

(** The records that extraction makes of the two pages. *)
Definition stored5200 : Poll :=
  {| date := 18855; mdgPercentage := 4.6%float;
     pollster := "pollofpolls.no - Norstat for Avisa Oslo 20. august 2021";
     daysUntilElection := 28; rssTitle := None; url := url5200;
     scope := Some national; region := None |}.

Definition stored5201 : Poll :=
  {| date := 18855; mdgPercentage := 5.8%float;
     pollster := "pollofpolls.no - Norstat for NRK 20. august 2021";
     daysUntilElection := 28; rssTitle := None; url := url5201;
     scope := Some regional; region := None |}.

(** The data file after these two records were merged into an empty one. *)
Definition sampleData : Dataset :=
  {[ 2021 := {| electionDate := 18883; polls := [stored5200; stored5201];
                actualResult := Some 3.9%float |} ]}.

(** A page without mandate links and with two scripts that carry a value,
    and a page whose first mandate link carries the value 0. *)
Definition twoScriptsPage : Page :=
  {| bodyText := "Norstat for NRK";
     blockquoteText := "Intervjuperiode: 16.8.2021 - 20.8.2021";
     titleText := "pollofpolls.no - Norstat for NRK 20. august 2021";
     anchors := ["/?cmd=Maling&gallupid=5199"];
     scripts := ["var forrige = '/?cmd=Mandat&Ap=25.0&MDG=3.1&R=4.0';";
                 "var snitt = '/?cmd=Mandat&Ap=24.0&MDG=4.2&R=5.0';"];
     factRows := [["Område"; "Hele landet"]];
     thText := EmptyString |}.

Definition zeroLinkPage : Page :=
  {| bodyText := "Norstat for NRK";
     blockquoteText := "Intervjuperiode: 16.8.2021 - 20.8.2021";
     titleText := "pollofpolls.no - Norstat for NRK 20. august 2021";
     anchors := ["/?cmd=Mandat&Ap=25.0&MDG=0.0&R=4.0";
                 "/?cmd=Mandat&Ap=24.0&MDG=4.2&R=5.0"];
     scripts := [];
     factRows := [["Område"; "Hele landet"]];
     thText := EmptyString |}.

(** The average that the smoother computes of [k] samples of value [c]:
    the sum from the left, starting at zero, divided by [k]. *)
Definition meanOfCopies {num : Type} (zero : num) (add div : num -> num -> num)
    (of_nat : nat -> num) (c : num) (k : nat) : num :=
  div (Nat.iter k (fun sum => add sum c) zero) (of_nat k).

(** Three polls of 3.2 percent, 12, 11 and 10 days before the election. *)
Definition flatPolls : list Poll :=
  [ samplePoll 18871 3.2%float "Norstat for NRK" 12 "5190" national;
    samplePoll 18872 3.2%float "Kantar for TV2" 11 "5191" national;
    samplePoll 18873 3.2%float "Opinion for Dagbladet" 10 "5192" national ].

(** The smoother on exact rationals. *)
Definition Qc_of_nat (n : nat) : Qc := Q2Qc (inject_Z (Z.of_nat n)).

Definition calculateRollingAverage_exact {poll : Type}
    (daysUntilElectionOf : poll -> Z) (mdgPercentageOf : poll -> Qc)
    (polls : list poll) (windowDays : float) : list (@AveragePoint Qc) :=
  calculateRollingAverage daysUntilElectionOf mdgPercentageOf
    (Q2Qc 0) Qcplus Qcdiv Qc_of_nat polls windowDays.

(** The point that the smoother makes on the [k]-th day of its grid, if the
    window of that day holds a sample. *)
Definition pointOn {poll num : Type} (daysUntilElectionOf : poll -> Z)
    (mdgPercentageOf : poll -> num) (zero : num) (add div : num -> num -> num)
    (of_nat : nat -> num) (sortedPolls : list poll) (windowDays : float)
    (minDays step k : Z) : option (@AveragePoint num) :=
  let day := minDays + k * step in
  let pollsInWindow :=
    List.filter (inWindow daysUntilElectionOf windowDays day) sortedPolls in
  if (0 <? length pollsInWindow)%nat
  then Some {| x := day;
               y := average mdgPercentageOf zero add div of_nat pollsInWindow |}
  else None.

(** A page whose only date is in its title, and a page without any date. *)
Definition titleOnlyPage : Page :=
  {| bodyText := "Norstat for NRK. Oppslutning i prosent.";
     blockquoteText := EmptyString;
     titleText := "pollofpolls.no - Norstat for NRK 27. august 2025";
     anchors := ["/?cmd=Mandatfordeling&Ap=27.3&MDG=4.6&R=5.9"];
     scripts := [];
     factRows := [["Område"; "Hele landet"]];
     thText := EmptyString |}.

Definition undatedPage : Page :=
  {| bodyText := "Norstat for NRK. Oppslutning i prosent.";
     blockquoteText := EmptyString;
     titleText := "pollofpolls.no - Norstat for NRK";
     anchors := ["/?cmd=Mandatfordeling&Ap=27.3&MDG=4.6&R=5.9"];
     scripts := [];
     factRows := [["Område"; "Hele landet"]];
     thText := EmptyString |}.

(** What the merge keeps of the data file. *)
Definition kept_in (data data' : Dataset) : Prop :=
  forall year election,
    data !! year = Some election ->
    exists election',
      data' !! year = Some election'
      /\ electionDate election' = electionDate election
      /\ actualResult election' = actualResult election
      /\ polls election ⊆+ polls election'.


(** No url twice within a cycle. *)
Definition urls_unique (data : Dataset) : Prop :=
  map_Forall (fun _ election => NoDup (url <$> polls election)) data.

(** Everything of a poll that re-classification must leave alone. *)
Definition unclassified (poll : Poll)
  : Z * float * string * Z * option string * string :=
  (date poll, mdgPercentage poll, pollster poll, daysUntilElection poll,
   rssTitle poll, url poll).

(** A page whose text carries the line of the RSS feed, with its record and
    a data file that holds it together with the record of Oslo. *)
Definition url5202 : string :=
  "https://www.pollofpolls.no/?cmd=Maling&gallupid=5202".

Definition confirmedWeb : Web :=
  fun pollUrl =>
    if String.eqb pollUrl url5202
    then Some {| bodyText := "Norstat for NRK, hele landet / stortingsvalg";
                 blockquoteText := "Intervjuperiode: 23.8.2021 - 27.8.2021";
                 titleText := "pollofpolls.no - Norstat for NRK 27. august 2021";
                 anchors := ["/?cmd=Mandatfordeling&Ap=24.1&MDG=4.4&R=5.2"];
                 scripts := [];
                 factRows := [["Område"; "Hele landet"]];
                 thText := EmptyString |}
    else sampleWeb pollUrl.

Definition stored5202 : Poll :=
  {| date := 18862; mdgPercentage := 4.4%float;
     pollster := "pollofpolls.no - Norstat for NRK 27. august 2021";
     daysUntilElection := 21; rssTitle := None; url := url5202;
     scope := Some national; region := None |}.

Definition confirmedData : Dataset :=
  {[ 2021 := {| electionDate := 18883; polls := [stored5201; stored5202];
                actualResult := Some 3.9%float |} ]}.

(** A row of the facts table that names the area, and the scope it
    states. *)
Definition areaRow (cells : list string) : bool :=
  match cells with
  | c0 :: _ :: _ => bool_decide (Str.trim c0 = "Område")
  | _ => false
  end.

Definition areaValue (cells : list string) : Scope :=
  match cells with
  | _ :: c1 :: _ =>
      if bool_decide (Str.trim c1 = "Hele landet") then national else regional
  | _ => unknown
  end.

(** A mandate link or script that gives a value, and whether that value is
    one that [!mdgPercentage] lets stand. *)
Definition mdgValueOf (text : string) : option float :=
  match Regex.search Regex.mdg_value text with
  | Some [v] => Some (Num.parseFloat v)
  | _ => None
  end.

(** Every byte of [p] is a character of the class by itself, whatever
    follows it; no byte of [p] starts a character of the class. *)
Fixpoint run_of (cls : string -> nat) (p : string) : Prop :=
  match p with
  | EmptyString => True
  | String a p' => (forall rest, cls (String a rest) = 1%nat) /\ run_of cls p'
  end.


(** U+00A0, the no-break space, as its two bytes. *)
Definition nbsp : string := String "194" (String "160" EmptyString).


(** Every gallupid of the data file is below 2^53, so that [parseInt]
    reads it exactly. *)
Definition exactIds (existingData : Dataset) : bool :=
  forallb (fun poll => match PollUpdater.pollId poll with
                       | Some id => id <? 2 ^ 53
                       | None => true
                       end)
          (flat_map (fun e => polls (snd e)) (map_to_list existingData)).

(** The class [[^,]] of the pattern of the pollster. *)
Definition notComma (c : ascii) : bool := negb (Ascii.eqb c ",").

(** The item of the feed for the first page of [sampleWeb]. *)
Definition sampleItem : PollFetcher.RssItem :=
  {| PollFetcher.title := "Norstat for Avisa Oslo, stortingsvalg, hele landet";
     PollFetcher.link := url5200 |}.

(** The entries of a page of the donation API, and whether the page asks
    for the next one. *)
Definition entriesOf {Entry : Type}
    (api : Z -> option (RealApiDonationFetcher.Response Entry))
    (pageNumber : Z) : list Entry :=
  match api pageNumber with
  | Some response => default [] (RealApiDonationFetcher.PageEntries response)
  | None => []
  end.

Definition hasMore {Entry : Type}
    (api : Z -> option (RealApiDonationFetcher.Response Entry))
    (pageNumber : Z) : bool :=
  match api pageNumber with
  | Some response =>
      match RealApiDonationFetcher.PageEntries response with
      | Some pageEntries =>
          (pageNumber * 100
             <? default 0 (RealApiDonationFetcher.TotalResults response))
          && (0 <? length pageEntries)%nat
      | None => false
      end
  | None => false
  end.

(** * Properties *)

(** ** Sorting *)

Section SortFacts.
Context {A : Type} (key : A -> Z).

Lemma insert_by_perm (a : A) (l : list A) : insert_by key a l ≡ₚ a :: l.
Proof.
  induction l as [|b l IH]; simpl; [done|].
  destruct (key a <=? key b); [done|].
  rewrite IH. apply Permutation_swap.
Qed.

Lemma sort_by_perm (l : list A) : sort_by key l ≡ₚ l.
Proof.
  induction l as [|a l IH]; simpl; [done|].
  unfold sort_by in IH |- *. simpl.
  rewrite insert_by_perm. by rewrite IH.
Qed.

(** The order by indices, cell by cell. *)
Lemma ascending_cons (a : A) (l : list A) :
  ascending key (a :: l) <->
  Forall (fun b => key a <= key b) l /\ ascending key l.
Proof.
  split.
  - intros H. split.
    + apply Forall_lookup. intros i b Hb.
      apply (H O (S i) a b); [lia|done|done].
    + intros i j x z Hij Hx Hz.
      apply (H (S i) (S j) x z); [lia|done|done].
  - intros [Hall Hl] i j x z Hij Hx Hz.
    destruct j as [|j]; [lia|]. simpl in Hz.
    destruct i as [|i]; simpl in Hx.
    + injection Hx as <-.
      rewrite Forall_lookup in Hall. by apply (Hall j).
    + apply (Hl i j); [lia|done|done].
Qed.

Lemma ascending_nil : ascending key [].
Proof. intros i j a b _ Ha. by rewrite lookup_nil in Ha. Qed.

Lemma insert_by_ascending (a : A) (l : list A) :
  ascending key l -> ascending key (insert_by key a l).
Proof.
  induction l as [|b l IH]; intros Hl; simpl.
  - apply ascending_cons. split; [constructor | apply ascending_nil].
  - destruct (Z.leb_spec (key a) (key b)) as [Hab|Hab].
    + apply ascending_cons. split; [|done].
      apply ascending_cons in Hl as [Hall _].
      constructor; [done|].
      eapply Forall_impl; [exact Hall|]. simpl. intros; lia.
    + apply ascending_cons in Hl as [Hall Hl].
      apply ascending_cons. split; [|by apply IH].
      rewrite insert_by_perm. constructor; [lia | done].
Qed.

Lemma sort_by_ascending (l : list A) : ascending key (sort_by key l).
Proof.
  induction l as [|a l IH]; simpl.
  - apply ascending_nil.
  - by apply insert_by_ascending.
Qed.

Lemma ascendingb_spec (l : list A) :
  ascendingb key l = true <-> ascending key l.
Proof.
  induction l as [|a l IH].
  - split; [intros _; apply ascending_nil | done].
  - rewrite ascending_cons. destruct l as [|b l].
    + simpl. split; [intros _; split; [constructor | apply ascending_nil] | done].
    + change (ascendingb key (a :: b :: l))
        with ((key a <=? key b) && ascendingb key (b :: l)).
      rewrite andb_true_iff, IH, Z.leb_le. split.
      * intros [Hab Hl]. split; [|done].
        pose proof Hl as Hl'. apply ascending_cons in Hl' as [Hall _].
        constructor; [done|].
        eapply Forall_impl; [exact Hall|]. simpl. intros; lia.
      * intros [Hall Hl]. split; [|done]. by inversion Hall.
Qed.

(** A list already in order is left as it is. *)
Lemma insert_by_head (a : A) (l : list A) :
  Forall (fun b => key a <= key b) l -> insert_by key a l = a :: l.
Proof.
  intros Hall. destruct l as [|b l]; simpl; [done|].
  inversion Hall; subst.
  destruct (Z.leb_spec (key a) (key b)); [done | lia].
Qed.

Lemma sort_by_sorted (l : list A) : ascending key l -> sort_by key l = l.
Proof.
  induction l as [|a l IH]; intros Hl; [done|].
  apply ascending_cons in Hl as [Hall Hl].
  unfold sort_by in *. simpl. rewrite (IH Hl). by apply insert_by_head.
Qed.
End SortFacts.

(** ** The merge of update-polls.js *)

Section MergeFacts.
Import PollUpdater.

Lemma present_insert_other (data : Dataset) (year year' : Z) (e : Election) (u : string) :
  data !! year' = None -> present data year u -> present (<[year' := e]> data) year u.
Proof.
  intros Hnone (el & Hl & Hex). exists el. split; [|done].
  rewrite lookup_insert_ne; [done|]. intros ->. congruence.
Qed.

Lemma ensureElection_present (data data' : Dataset) (year' year : Z) (u : string) :
  ensureElection data year' = Some data' ->
  present data year u -> present data' year u.
Proof.
  unfold ensureElection. intros H Hp.
  destruct (data !! year') as [e|] eqn:Hl.
  - by injection H as <-.
  - destruct (electionDateOf year'); [|done].
    injection H as <-. by apply present_insert_other.
Qed.

Lemma ensureElection_lookup (data data' : Dataset) (year : Z) :
  ensureElection data year = Some data' -> is_Some (data' !! year).
Proof.
  unfold ensureElection. intros H.
  destruct (data !! year) as [e|] eqn:Hl.
  - injection H as <-. by rewrite Hl.
  - destruct (electionDateOf year); [|done].
    injection H as <-. rewrite lookup_insert_eq. by eexists.
Qed.

(** A record whose url is in its cycle is skipped. *)
Lemma addPoll_present (data : Dataset) (n : nat) (year : Z) (poll : Poll) :
  present data year (url poll) ->
  addPoll (data, n) (year, poll) = Some (data, n).
Proof.
  intros (el & Hl & Hex). unfold addPoll, ensureElection.
  rewrite Hl. by rewrite Hl, Hex.
Qed.

Lemma addPoll_mono (data data' : Dataset) (n n' : nat) (entry : Z * Poll)
    (year : Z) (u : string) :
  addPoll (data, n) entry = Some (data', n') ->
  present data year u -> present data' year u.
Proof.
  destruct entry as [year' poll]. unfold addPoll. intros H Hp.
  destruct (ensureElection data year') as [d1|] eqn:He; [|done].
  pose proof (ensureElection_present _ _ _ _ _ He Hp) as Hp1.
  destruct (d1 !! year') as [el|] eqn:Hl; [|done].
  destruct (existsb _ (polls el)) eqn:Hex.
  - by injection H as <- <-.
  - injection H as <- <-.
    destruct Hp1 as (e & Hle & Hexe).
    destruct (decide (year = year')) as [->|Hne].
    + exists {| electionDate := electionDate el;
                polls := polls el ++ [poll];
                actualResult := actualResult el |}.
      rewrite lookup_insert_eq. split; [done|]. simpl.
      rewrite existsb_app. replace el with e by congruence. by rewrite Hexe.
    + exists e. by rewrite lookup_insert_ne.
Qed.

Lemma addPoll_adds (data data' : Dataset) (n n' : nat) (year : Z) (poll : Poll) :
  addPoll (data, n) (year, poll) = Some (data', n') ->
  present data' year (url poll).
Proof.
  unfold addPoll. intros H.
  destruct (ensureElection data year) as [d1|] eqn:He; [|done].
  destruct (d1 !! year) as [el|] eqn:Hl; [|done].
  destruct (existsb _ (polls el)) eqn:Hex.
  - injection H as <- <-. by exists el.
  - injection H as <- <-. eexists. rewrite lookup_insert_eq. split; [done|].
    simpl. rewrite existsb_app. simpl. rewrite String.eqb_refl.
    by rewrite orb_true_r.
Qed.

Lemma addPolls_cons (state : Dataset * nat) (entry : Z * Poll)
    (rest : list (Z * Poll)) :
  addPolls state (entry :: rest) =
  match addPoll state entry with
  | Some state' => addPolls state' rest
  | None => None
  end.
Proof. reflexivity. Qed.

Lemma addPolls_mono (newPolls : list (Z * Poll)) (data data' : Dataset)
    (n n' : nat) (year : Z) (u : string) :
  addPolls (data, n) newPolls = Some (data', n') ->
  present data year u -> present data' year u.
Proof.
  revert data n. induction newPolls as [|entry rest IH]; intros data n H Hp.
  - by injection H as <- <-.
  - rewrite addPolls_cons in H.
    destruct (addPoll (data, n) entry) as [[d1 n1]|] eqn:Ha; [|done].
    eapply IH; [exact H|]. eapply addPoll_mono; [exact Ha | exact Hp].
Qed.

(** After a batch went through, each of its records is in its cycle. *)
Lemma addPolls_present_after (newPolls : list (Z * Poll)) (data data' : Dataset)
    (n n' : nat) :
  addPolls (data, n) newPolls = Some (data', n') ->
  Forall (fun entry => present data' (fst entry) (url (snd entry))) newPolls.
Proof.
  revert data n. induction newPolls as [|[year poll] rest IH]; intros data n H.
  - constructor.
  - rewrite addPolls_cons in H.
    destruct (addPoll (data, n) (year, poll)) as [[d1 n1]|] eqn:Ha; [|done].
    constructor; [|by eapply IH].
    simpl. eapply addPolls_mono; [exact H|]. eapply addPoll_adds; exact Ha.
Qed.

(** A batch whose records are all there changes nothing and counts none. *)
Lemma addPolls_all_present (newPolls : list (Z * Poll)) (data : Dataset) (n : nat) :
  Forall (fun entry => present data (fst entry) (url (snd entry))) newPolls ->
  addPolls (data, n) newPolls = Some (data, n).
Proof.
  induction 1 as [|[year poll] rest Hp _ IH]; [done|].
  rewrite addPolls_cons. by rewrite (addPoll_present _ _ _ _ Hp).
Qed.

Lemma existsb_perm {A : Type} (f : A -> bool) (l l' : list A) :
  l ≡ₚ l' -> existsb f l = existsb f l'.
Proof.
  induction 1 as [|a l l' _ IH|a b l|l1 l2 l3 _ IH1 _ IH2]; simpl.
  - done.
  - by rewrite IH.
  - destruct (f a), (f b); done.
  - congruence.
Qed.

Lemma present_sorted (data : Dataset) (year : Z) (u : string) :
  present data year u -> present (sortPolls <$> data) year u.
Proof.
  intros (el & Hl & Hex). exists (sortPolls el).
  rewrite lookup_fmap, Hl. split; [done|]. simpl.
  by rewrite (existsb_perm _ _ _ (sort_by_perm date (polls el))).
Qed.

Lemma cycles_sorted_after_sort (data : Dataset) : cycles_sorted (sortPolls <$> data).
Proof.
  intros year el Hl. rewrite lookup_fmap in Hl.
  destruct (data !! year) as [e|]; [|done].
  injection Hl as <-. simpl. apply sort_by_ascending.
Qed.

Lemma mergeNewPolls_cons (data : Dataset) (entry : Z * Poll)
    (rest : list (Z * Poll)) :
  mergeNewPolls data (entry :: rest) =
  match addPolls (data, O) (entry :: rest) with
  | None => Crashed
  | Some (elections, addedCount) =>
      if (0 <? addedCount)%nat
      then Saved (sortPolls <$> elections) addedCount
      else AllDuplicates
  end.
Proof. reflexivity. Qed.

End MergeFacts.

(** ** C1 and C2: idempotence and order *)

(** C1. Merging a batch a second time leaves the dataset that the first merge
    produced; the second merge saves nothing; and a record whose url is
    already in its cycle is skipped without a change. *)
Theorem merge_idempotent (existingData : Dataset) (newPolls : list (Z * Poll)) :
  PollUpdater.merge (PollUpdater.merge existingData newPolls) newPolls
    = PollUpdater.merge existingData newPolls
  /\ (forall data n,
        PollUpdater.mergeNewPolls (PollUpdater.merge existingData newPolls) newPolls
          <> PollUpdater.Saved data n)
  /\ (forall n year poll,
        present existingData year (url poll) ->
        PollUpdater.addPoll (existingData, n) (year, poll)
          = Some (existingData, n)).
Proof.
  assert (Hsecond : forall data n,
    PollUpdater.mergeNewPolls (PollUpdater.merge existingData newPolls) newPolls
      <> PollUpdater.Saved data n).
  { intros data n. unfold PollUpdater.merge.
    destruct newPolls as [|entry rest]; [done|].
    rewrite (mergeNewPolls_cons existingData).
    destruct (PollUpdater.addPolls (existingData, O) (entry :: rest))
      as [[d1 n1]|] eqn:Hfirst.
    - destruct (0 <? n1)%nat eqn:Hn1; unfold PollUpdater.persisted;
        rewrite mergeNewPolls_cons.
      + pose proof (addPolls_present_after _ _ _ _ _ Hfirst) as Hall.
        rewrite (addPolls_all_present (entry :: rest)
                   (PollUpdater.sortPolls <$> d1) O).
        * done.
        * eapply Forall_impl; [exact Hall|]. intros e. apply present_sorted.
      + rewrite Hfirst, Hn1. done.
    - unfold PollUpdater.persisted. rewrite mergeNewPolls_cons, Hfirst. done. }
  split; [|split].
  - unfold PollUpdater.merge at 1.
    destruct (PollUpdater.mergeNewPolls (PollUpdater.merge existingData newPolls)
                newPolls) as [|data n| |] eqn:Hout; try done.
    exfalso. by apply (Hsecond data n).
  - exact Hsecond.
  - intros n year poll. apply addPoll_present.
Qed.

(** Re-running ingestion over a record that is there: nothing is added and
    nothing is saved. *)
Example duplicate_reingestion :
  PollUpdater.addPoll (sampleData, O) (2021, stored5200) = Some (sampleData, O)
  /\ PollUpdater.mergeNewPolls sampleData [(2021, stored5200)]
     = PollUpdater.AllDuplicates.
Proof. split; vm_compute; reflexivity. Qed.

(** C2. After a merge every cycle of the data file is in ascending order of
    date: a merge that inserts a record sorts every cycle before it saves,
    whatever their order was, and a merge that inserts nothing leaves the
    data file, whose cycles are in order, as it is. *)
Theorem merge_cycles_sorted (existingData : Dataset) (newPolls : list (Z * Poll)) :
  (exists n,
     PollUpdater.mergeNewPolls existingData newPolls
       = PollUpdater.Saved (PollUpdater.merge existingData newPolls) n)
  \/ cycles_sorted existingData ->
  cycles_sorted (PollUpdater.merge existingData newPolls).
Proof.
  unfold PollUpdater.merge.
  intros [[n Hsaved] | Hsorted].
  - unfold PollUpdater.mergeNewPolls in *.
    destruct newPolls as [|entry rest]; [done|].
    destruct (PollUpdater.addPolls _ _) as [[d1 n1]|]; [|done].
    destruct (0 <? n1)%nat; [|done].
    simpl. apply cycles_sorted_after_sort.
  - destruct (PollUpdater.mergeNewPolls existingData newPolls) eqn:Hout;
      try exact Hsorted.
    unfold PollUpdater.mergeNewPolls in Hout.
    destruct newPolls as [|entry rest]; [done|].
    destruct (PollUpdater.addPolls _ _) as [[d1 n1]|]; [|done].
    destruct (0 <? n1)%nat; [|done].
    injection Hout as <- _. simpl. apply cycles_sorted_after_sort.
Qed.

(** The data file of the two sample records, in order, and one new poll. *)
Lemma merge_cycles_sorted_witness :
  cycles_sorted (PollUpdater.merge sampleData [(2021, poll5190)]).
Proof.
  apply (merge_cycles_sorted sampleData [(2021, poll5190)]).
  right. apply map_Forall_singleton. simpl.
  apply (ascendingb_spec date). reflexivity.
Defined.

(** ** C3: cycle assignment *)

Section CycleFacts.
Import PollUpdater.

Lemma ELECTION_DATES_values :
  ELECTION_DATES =
  [ (2013, 15957 * JSDate.msPerDay); (2017, 17420 * JSDate.msPerDay);
    (2021, 18883 * JSDate.msPerDay); (2025, 20339 * JSDate.msPerDay) ].
Proof. reflexivity. Qed.

Lemma dist_lt_days (a b : Z) :
  dist_lt (Days (a # 86400000)) (Days (b # 86400000)) = (a <? b).
Proof.
  unfold dist_lt, Qle_bool. simpl.
  destruct (Z.leb_spec (b * 86400000) (a * 86400000)), (Z.ltb_spec a b); simpl; lia.
Qed.

Lemma dist_le_730 (a : Z) :
  dist_le (Days (a # 86400000)) (Days 730) = (a <=? 730 * 86400000).
Proof.
  unfold dist_le, Qle_bool. simpl.
  destruct (Z.leb_spec (a * 1) 63072000000), (Z.leb_spec a 63072000000); simpl; lia.
Qed.


Lemma electionDay_eq (year : Z) :
  electionDay year =
  if 2013 =? year then Some 15957 else if 2017 =? year then Some 17420
  else if 2021 =? year then Some 18883 else if 2025 =? year then Some 20339
  else None.
Proof.
  unfold electionDay, electionDateOf. rewrite ELECTION_DATES_values.
  cbn [List.find fst snd].
  repeat (destruct (_ =? year); [reflexivity|]). reflexivity.
Qed.

Lemma electionDay_cases (year e : Z) :
  electionDay year = Some e <->
  (year = 2013 /\ e = 15957) \/ (year = 2017 /\ e = 17420) \/
  (year = 2021 /\ e = 18883) \/ (year = 2025 /\ e = 20339).
Proof.
  rewrite electionDay_eq.
  destruct (Z.eqb_spec 2013 year); [split; [intros [= <-]|intros H; f_equal]; lia|].
  destruct (Z.eqb_spec 2017 year); [split; [intros [= <-]|intros H; f_equal]; lia|].
  destruct (Z.eqb_spec 2021 year); [split; [intros [= <-]|intros H; f_equal]; lia|].
  destruct (Z.eqb_spec 2025 year); [split; [intros [= <-]|intros H; f_equal]; lia|].
  split; [done | lia].
Qed.




Lemma closestElection_cases (d year : Z) :
  closestElection d year <->
  (year = 2013 /\ Z.abs (15957 - d) <= Z.abs (17420 - d)
     /\ Z.abs (15957 - d) <= Z.abs (18883 - d)
     /\ Z.abs (15957 - d) <= Z.abs (20339 - d)) \/
  (year = 2017 /\ Z.abs (17420 - d) < Z.abs (15957 - d)
     /\ Z.abs (17420 - d) <= Z.abs (18883 - d)
     /\ Z.abs (17420 - d) <= Z.abs (20339 - d)) \/
  (year = 2021 /\ Z.abs (18883 - d) < Z.abs (15957 - d)
     /\ Z.abs (18883 - d) < Z.abs (17420 - d)
     /\ Z.abs (18883 - d) <= Z.abs (20339 - d)) \/
  (year = 2025 /\ Z.abs (20339 - d) < Z.abs (15957 - d)
     /\ Z.abs (20339 - d) < Z.abs (17420 - d)
     /\ Z.abs (20339 - d) < Z.abs (18883 - d)).
Proof.
  unfold closestElection, dayDistance. split.
  - intros (e & He & Hall).
    pose proof (Hall 2013 15957 (proj2 (electionDay_cases 2013 15957) ltac:(lia))) as H13.
    pose proof (Hall 2017 17420 (proj2 (electionDay_cases 2017 17420) ltac:(lia))) as H17.
    pose proof (Hall 2021 18883 (proj2 (electionDay_cases 2021 18883) ltac:(lia))) as H21.
    pose proof (Hall 2025 20339 (proj2 (electionDay_cases 2025 20339) ltac:(lia))) as H25.
    clear Hall. apply electionDay_cases in He.
    destruct He as [[-> ->]|[[-> ->]|[[-> ->]|[-> ->]]]];
      revert H13 H17 H21 H25;
      generalize (Z.abs (15957 - d)) (Z.abs (17420 - d))
                 (Z.abs (18883 - d)) (Z.abs (20339 - d));
      intros; lia.
  - intros H.
    assert (exists e, electionDay year = Some e /\
              ((year = 2013 /\ e = 15957) \/ (year = 2017 /\ e = 17420) \/
               (year = 2021 /\ e = 18883) \/ (year = 2025 /\ e = 20339)))
      as (e & He & Hcase).
    { destruct H as [H|[H|[H|H]]]; destruct H as [-> _];
        [exists 15957 | exists 17420 | exists 18883 | exists 20339];
        (split; [apply electionDay_cases; lia | lia]). }
    exists e. split; [done|].
    intros year' e' He'. apply electionDay_cases in He'.
    destruct He' as [[-> ->]|[[-> ->]|[[-> ->]|[-> ->]]]];
      destruct Hcase as [[-> ->]|[[-> ->]|[[-> ->]|[-> ->]]]];
      revert H;
      generalize (Z.abs (15957 - d)) (Z.abs (17420 - d))
                 (Z.abs (18883 - d)) (Z.abs (20339 - d));
      intros; lia.
Qed.

Lemma abs_days (e d : Z) :
  Z.abs (e * JSDate.msPerDay - d * JSDate.msPerDay) = Z.abs (e - d) * 86400000.
Proof. unfold JSDate.msPerDay. lia. Qed.

Lemma dist_lt_scaled (a b : Z) :
  dist_lt (Days (a * 86400000 # 86400000)) (Days (b * 86400000 # 86400000))
  = (a <? b).
Proof.
  rewrite dist_lt_days.
  destruct (Z.ltb_spec (a * 86400000) (b * 86400000)), (Z.ltb_spec a b); lia.
Qed.

Lemma dist_le_scaled (a : Z) :
  dist_le (Days (a * 86400000 # 86400000)) (Days 730) = (a <=? 730).
Proof.
  rewrite dist_le_730.
  destruct (Z.leb_spec (a * 86400000) (730 * 86400000)), (Z.leb_spec a 730); lia.
Qed.

Lemma determineElectionYear_days (d year : Z) :
  determineElectionYear (JSDate.Valid (d * JSDate.msPerDay)) = Some year <->
  firstTrackedDay <= d /\ closestElection d year /\
  exists e, electionDay year = Some e /\ dayDistance d e <= 730.
Proof.
  assert (Hw : (exists e, electionDay year = Some e /\ dayDistance d e <= 730) <->
               (year = 2013 /\ Z.abs (15957 - d) <= 730) \/
               (year = 2017 /\ Z.abs (17420 - d) <= 730) \/
               (year = 2021 /\ Z.abs (18883 - d) <= 730) \/
               (year = 2025 /\ Z.abs (20339 - d) <= 730)).
  { unfold dayDistance. split.
    - intros (e & He & Hd). apply electionDay_cases in He.
      destruct He as [[-> ->]|[[-> ->]|[[-> ->]|[-> ->]]]]; auto 6.
    - intros H.
      destruct H as [H|[H|[H|H]]]; destruct H as [-> ?];
        [exists 15957 | exists 17420 | exists 18883 | exists 20339];
        (split; [apply electionDay_cases; lia | done]). }
  rewrite Hw, closestElection_cases. clear Hw.
  change firstTrackedDay with 15957.
  unfold determineElectionYear.
  rewrite ELECTION_DATES_values.
  change (default 0 (electionDateOf 2013)) with (15957 * JSDate.msPerDay).
  cbn [List.map fold_left].
  change (dist_lt (Days _) Infinity) with true. cbv iota.
  rewrite !abs_days.
  assert (Hguard : (d * JSDate.msPerDay <? 15957 * JSDate.msPerDay) = (d <? 15957)).
  { unfold JSDate.msPerDay.
    destruct (Z.ltb_spec (d * (1000 * 3600 * 24)) (15957 * (1000 * 3600 * 24))),
             (Z.ltb_spec d 15957); lia. }
  rewrite Hguard. clear Hguard.
  generalize (Z.abs (15957 - d)) (Z.abs (17420 - d))
             (Z.abs (18883 - d)) (Z.abs (20339 - d)).
  intros a13 a17 a21 a25.
  destruct (Z.ltb_spec d 15957); [split; [done | lia]|].
  rewrite (dist_lt_scaled a17 a13).
  destruct (Z.ltb_spec a17 a13);
    [ rewrite (dist_lt_scaled a21 a17); destruct (Z.ltb_spec a21 a17);
      [ rewrite (dist_lt_scaled a25 a21) | rewrite (dist_lt_scaled a25 a17) ]
    | rewrite (dist_lt_scaled a21 a13); destruct (Z.ltb_spec a21 a13);
      [ rewrite (dist_lt_scaled a25 a21) | rewrite (dist_lt_scaled a25 a13) ] ].
  all: match goal with
       | |- context [if ?a <? ?b then _ else _] => destruct (Z.ltb_spec a b)
       end.
  all: rewrite dist_le_scaled.
  all: match goal with
       | |- context [if ?a <=? ?b then _ else _] => destruct (Z.leb_spec a b)
       end.
  all: (split; [intros [= <-] | intros H'; try f_equal]; lia).
Qed.

Lemma calculateDays_days (d e : Z) :
  calculateDaysUntilElection (d * JSDate.msPerDay) (e * JSDate.msPerDay) = e - d.
Proof.
  unfold calculateDaysUntilElection.
  replace (d * JSDate.msPerDay - e * JSDate.msPerDay)
    with ((d - e) * JSDate.msPerDay) by lia.
  rewrite Z.div_mul; [lia | done].
Qed.

Lemma electionDateOf_day (year e : Z) :
  electionDay year = Some e -> electionDateOf year = Some (e * JSDate.msPerDay).
Proof.
  intros H. apply electionDay_cases in H.
  destruct H as [[-> ->]|[[-> ->]|[[-> ->]|[-> ->]]]]; reflexivity.
Qed.

Lemma closestElection_unique (d y1 y2 : Z) :
  closestElection d y1 -> closestElection d y2 -> y1 = y2.
Proof.
  rewrite !closestElection_cases.
  generalize (Z.abs (15957 - d)) (Z.abs (17420 - d))
             (Z.abs (18883 - d)) (Z.abs (20339 - d)).
  intros a13 a17 a21 a25 H1 H2.
  destruct H1 as [H1|[H1|[H1|H1]]]; destruct H2 as [H2|[H2|[H2|H2]]]; lia.
Qed.

(** A record dated [pollDay] with a percentage gives an entry for [year]
    exactly when it is not dated before 2013-09-09, [year] is the election
    closest to it, and it is dated on or at most 730 days before that
    election's day. *)
Lemma acceptPoll_days (details : PollDetails) (pollDay : Z) (pct : float)
    (year : Z) :
  d_date details = Some (JSDate.Valid (pollDay * JSDate.msPerDay)) ->
  d_mdgPercentage details = Some pct ->
  (exists poll, acceptPoll details = Some (year, poll)) <->
  firstTrackedDay <= pollDay /\ closestElection pollDay year /\
  exists e, electionDay year = Some e /\ 0 <= e - pollDay <= 730.
Proof.
  intros Hdate Hpct. unfold acceptPoll. rewrite Hdate, Hpct.
  destruct (determineElectionYear _) as [y0|] eqn:Hy.
  - apply determineElectionYear_days in Hy as (Hg & Hc & e & He & Hdist).
    rewrite (electionDateOf_day _ _ He), calculateDays_days.
    destruct (Z.leb_spec 0 (e - pollDay)), (Z.leb_spec (e - pollDay) 730); simpl.
    + split.
      * intros (poll & [= <- _]). eauto 6.
      * intros (_ & Hc' & _). rewrite (closestElection_unique _ _ _ Hc' Hc).
        eauto.
    + split; [by intros (? & ?)|].
      intros (_ & Hc' & e' & He' & Hr).
      rewrite (closestElection_unique _ _ _ Hc' Hc) in He'.
      assert (e' = e) by congruence. lia.
    + split; [by intros (? & ?)|].
      intros (_ & Hc' & e' & He' & Hr).
      rewrite (closestElection_unique _ _ _ Hc' Hc) in He'.
      assert (e' = e) by congruence. lia.
    + split; [by intros (? & ?)|].
      intros (_ & Hc' & e' & He' & Hr).
      rewrite (closestElection_unique _ _ _ Hc' Hc) in He'.
      assert (e' = e) by congruence. lia.
  - split; [by intros (? & ?)|].
    intros (Hg & Hc & e & He & Hr).
    assert (determineElectionYear (JSDate.Valid (pollDay * JSDate.msPerDay))
            = Some year) as Hsome.
    { apply determineElectionYear_days. split; [done|]. split; [done|].
      exists e. split; [done|]. unfold dayDistance. lia. }
    congruence.
Qed.


(** C3 (amended). A record with a percentage, dated [pollDay] on or after
    2013-09-09, is assigned to the election [year] exactly when [year] is
    the election closest to it (the earlier of two equally close ones) and
    the record is dated on or at most 730 days before that election's day;
    every other such record is discarded.  In particular such a poll dated
    exactly 730 days before its closest election is included (the polls 730
    days before the elections of 2017 and 2021 are), one dated 731 days
    before its closest election is discarded (the polls 731 days before
    the elections of 2017 and 2021 are), and a poll dated after its closest
    election is discarded whatever the distance. *)
Theorem cycle_assignment :
  (forall details pollDay pct year,
     d_date details = Some (JSDate.Valid (pollDay * JSDate.msPerDay)) ->
     d_mdgPercentage details = Some pct ->
     firstTrackedDay <= pollDay ->
     ((exists poll, acceptPoll details = Some (year, poll)) <->
      closestElection pollDay year /\
      exists e, electionDay year = Some e /\ 0 <= e - pollDay <= 730))
  /\ (forall details pollDay pct year e,
        d_date details = Some (JSDate.Valid (pollDay * JSDate.msPerDay)) ->
        d_mdgPercentage details = Some pct ->
        firstTrackedDay <= pollDay ->
        closestElection pollDay year -> electionDay year = Some e ->
        (e - pollDay = 730 ->
         exists poll, acceptPoll details = Some (year, poll))
        /\ (e - pollDay = 731 -> acceptPoll details = None)
        /\ (e < pollDay -> acceptPoll details = None))
  /\ (forall year e pct sc,
        electionDay year = Some e -> year = 2017 \/ year = 2021 ->
        closestElection (e - 730) year
        /\ (exists poll,
              acceptPoll (detailsOn (e - 730) pct sc) = Some (year, poll))
        /\ closestElection (e - 731) year
        /\ acceptPoll (detailsOn (e - 731) pct sc) = None).
Proof.
  assert (Hout : forall details pollDay pct year e,
             d_date details = Some (JSDate.Valid (pollDay * JSDate.msPerDay)) ->
             d_mdgPercentage details = Some pct ->
             closestElection pollDay year -> electionDay year = Some e ->
             ~ 0 <= e - pollDay <= 730 ->
             acceptPoll details = None).
  { intros details pollDay pct year e Hdate Hpct Hc He Hr.
    destruct (acceptPoll details) as [[y poll]|] eqn:Ha; [|done].
    assert (exists poll', acceptPoll details = Some (y, poll'))
      as Hex by (by exists poll).
    apply (acceptPoll_days details pollDay pct y Hdate Hpct)
      in Hex as (_ & Hc' & e' & He' & Hr').
    rewrite (closestElection_unique _ _ _ Hc' Hc) in He'.
    assert (e' = e) by congruence. lia. }
  assert (Hin : forall details pollDay pct year e,
             d_date details = Some (JSDate.Valid (pollDay * JSDate.msPerDay)) ->
             d_mdgPercentage details = Some pct ->
             firstTrackedDay <= pollDay ->
             closestElection pollDay year -> electionDay year = Some e ->
             0 <= e - pollDay <= 730 ->
             exists poll, acceptPoll details = Some (year, poll)).
  { intros details pollDay pct year e Hdate Hpct Hf Hc He Hr.
    apply (acceptPoll_days details pollDay pct year Hdate Hpct).
    split; [done|]. split; [done|]. by exists e. }
  split; [|split].
  - intros details pollDay pct year Hdate Hpct Hfirst.
    rewrite (acceptPoll_days details pollDay pct year Hdate Hpct). tauto.
  - intros details pollDay pct year e Hdate Hpct Hfirst Hc He.
    split; [|split].
    + intros Hd. eapply Hin; try done. lia.
    + intros Hd. eapply Hout; try done. lia.
    + intros Hd. eapply Hout; try done. lia.
  - intros year e pct sc He Hyear.
    apply electionDay_cases in He.
    destruct He as [[-> ->]|[[-> ->]|[[-> ->]|[-> ->]]]]; [lia| | |lia].
    + split; [apply closestElection_cases; lia|]. split.
      { apply (Hin (detailsOn (17420 - 730) pct sc) (17420 - 730) pct 2017
                   17420 eq_refl eq_refl);
          [done | apply closestElection_cases; lia
           | apply electionDay_cases; lia | lia]. }
      split; [apply closestElection_cases; lia|].
      apply (Hout (detailsOn (17420 - 731) pct sc) (17420 - 731) pct 2017
                  17420 eq_refl eq_refl);
        [apply closestElection_cases; lia | apply electionDay_cases; lia | lia].
    + split; [apply closestElection_cases; lia|]. split.
      { apply (Hin (detailsOn (18883 - 730) pct sc) (18883 - 730) pct 2021
                   18883 eq_refl eq_refl);
          [done | apply closestElection_cases; lia
           | apply electionDay_cases; lia | lia]. }
      split; [apply closestElection_cases; lia|].
      apply (Hout (detailsOn (18883 - 731) pct sc) (18883 - 731) pct 2021
                  18883 eq_refl eq_refl);
        [apply closestElection_cases; lia | apply electionDay_cases; lia | lia].
Qed.

(** C3 (counterexample). 2021-10-01 is 18 days from its closest election,
    2021-09-13, and 2015-09-09 is exactly 730 days from its closest, 2013-09-09;
    both lie after that election and are discarded. *)
Lemma poll_after_closest_election_discarded :
  closestElection 18901 2021 /\ dayDistance 18901 18883 = 18
  /\ acceptPoll (detailsOn 18901 4.6%float national) = None
  /\ closestElection 16687 2013 /\ dayDistance 16687 15957 = 730
  /\ acceptPoll (detailsOn 16687 4.6%float national) = None.
Proof.
  repeat split; try reflexivity; apply closestElection_cases; lia.
Qed.

(** A poll of 2021-08-20, 24 days before the election of 2021. *)
Lemma cycle_assignment_witness :
  (exists poll, acceptPoll (detailsOn 18859 4.6%float national) = Some (2021, poll))
  <-> closestElection 18859 2021 /\
      exists e, electionDay 2021 = Some e /\ 0 <= e - 18859 <= 730.
Proof.
  apply (proj1 cycle_assignment (detailsOn 18859 4.6%float national) 18859
           4.6%float 2021 eq_refl eq_refl).
  vm_compute. discriminate.
Defined.

(** Left out of C3: [determineElectionYear] returns [null] for every date
    before the election day of 2013, so a poll of the hundred days before
    that election, for which 2013 is the closest election, is discarded. *)
Example poll_before_first_election_discarded :
  closestElection (15957 - 100) 2013
  /\ acceptPoll (detailsOn (15957 - 100) 4.6%float national) = None.
Proof. split; [apply closestElection_cases; lia | reflexivity]. Qed.

(** The elections of 2021 and 2025 are 1456 days apart: a poll 730 days
    before the election of 2025 is 726 days after that of 2021, which is its
    closest election, and is discarded. *)
Example poll_730_days_before_2025 :
  closestElection (20339 - 730) 2021
  /\ acceptPoll (detailsOn (20339 - 730) 4.6%float national) = None.
Proof. split; [apply closestElection_cases; lia | reflexivity]. Qed.

(** The window boundary: 730 days before the closest election is in, 731
    days is out. *)
Example window_boundary :
  (fst <$> acceptPoll (detailsOn (17420 - 730) 4.6%float national)) = Some 2017
  /\ acceptPoll (detailsOn (17420 - 731) 4.6%float national) = None.
Proof. split; reflexivity. Qed.

(** The derived field: 2021-08-20 and the election of 2021-09-13 give 24. *)
Example derived_days :
  (daysUntilElection ∘ snd <$> acceptPoll (detailsOn (JSDate.days_from_civil 2021 8 20) 5.8%float regional))
  = Some 24.
Proof. reflexivity. Qed.

End CycleFacts.

(** ** C4 and C5: re-classification, region and scope *)

Section ClassificationFacts.
Import PollUpdater PollClassificationFixer.

Lemma fixPoll_other (web : Web) (poll : Poll) :
  scope poll <> Some national -> fixPoll web poll = poll.
Proof.
  unfold fixPoll. destruct (scope poll) as [[| |]|]; done.
Qed.

Lemma fixExistingClassification_lookup (web : Web) (data : Dataset) (year : Z) :
  fixExistingClassification web data !! year =
  (fun election =>
     {| electionDate := electionDate election;
        polls := fixPoll web <$> polls election;
        actualResult := actualResult election |}) <$> data !! year.
Proof. unfold fixExistingClassification. apply lookup_fmap. Qed.

Lemma regions_capitalized :
  forallb (fun r => Str.truthy (Str.capitalize r)) regions = true.
Proof. reflexivity. Qed.

(** What [analyzePollScope] returns has a non-empty region exactly when its
    scope is regional. *)
Lemma analyzePollScope_coherent (web : Web) (pollUrl : string) :
  match analyzePollScope web pollUrl with
  | (regional, Some r) => Str.truthy r = true
  | (regional, None) => False
  | (_, r) => r = None
  end.
Proof.
  unfold analyzePollScope. destruct (web pollUrl) as [page|]; [|done].
  destruct (_ || _); [done|].
  destruct (List.find _ regions) as [region|] eqn:Hfind.
  - apply find_some in Hfind as [Hin _].
    pose proof regions_capitalized as Hall.
    rewrite forallb_forall in Hall. by apply Hall.
  - by destruct (Str.includes _ _).
Qed.

Lemma fixPoll_coherent (web : Web) (poll : Poll) :
  scope poll = Some national -> coherent (fixPoll web poll).
Proof.
  intros Hs. unfold fixPoll, coherent. rewrite Hs. simpl.
  pose proof (analyzePollScope_coherent web (url poll)) as H.
  destruct (analyzePollScope web (url poll)) as [[| |] [r|]]; simpl;
    try discriminate H; try contradiction.
  - split; [intros [? ?]; congruence | congruence].
  - rewrite H. split; [done | by eexists].
  - split; [intros [? ?]; congruence | congruence].
Qed.

Lemma fixPoll_keeps (P : Poll -> Prop) (web : Web) (poll : Poll) :
  (forall p, scope p = Some national -> P (fixPoll web p)) ->
  P poll -> P (fixPoll web poll).
Proof.
  intros Hnat HP.
  destruct (decide (scope poll = Some national)) as [Hs|Hs].
  - by apply Hnat.
  - by rewrite fixPoll_other.
Qed.

Lemma fixExistingClassification_keeps (P : Poll -> Prop) (web : Web)
    (data : Dataset) :
  (forall p, scope p = Some national -> P (fixPoll web p)) ->
  all_polls P data -> all_polls P (fixExistingClassification web data).
Proof.
  intros Hnat Hall year election Hl.
  rewrite fixExistingClassification_lookup in Hl.
  destruct (data !! year) as [e|] eqn:He; [|done].
  injection Hl as <-. simpl. apply Forall_fmap.
  eapply Forall_impl; [exact (Hall year e He)|].
  intros p. simpl. by apply fixPoll_keeps.
Qed.

(** The merge moves records and changes none: what holds of every record of
    the data file and of the batch holds of every record afterwards. *)
Lemma addPoll_keeps (P : Poll -> Prop) (data data' : Dataset) (n n' : nat)
    (year : Z) (poll : Poll) :
  addPoll (data, n) (year, poll) = Some (data', n') ->
  all_polls P data -> P poll -> all_polls P data'.
Proof.
  unfold addPoll, ensureElection. intros H Hall HP.
  assert (forall d1, (d1 = data \/
            exists e, d1 = <[year := e]> data /\ polls e = []) ->
          all_polls P d1) as Hd1.
  { intros d1 [->|(e & -> & Hnil)]; [done|].
    apply map_Forall_insert_2; [|done]. rewrite Hnil. constructor. }
  destruct (data !! year) as [e0|] eqn:Hl0.
  - rewrite Hl0 in H. destruct (existsb _ _).
    + by injection H as <- <-.
    + injection H as <- <-. apply map_Forall_insert_2; [|done].
      simpl. apply Forall_app. split; [exact (Hall year e0 Hl0) | by constructor].
  - destruct (electionDateOf year) as [ed|]; [|done].
    rewrite lookup_insert_eq in H. simpl in H.
    injection H as <- <-.
    apply map_Forall_insert_2.
    + simpl. by constructor.
    + apply Hd1. right. eexists. split; [reflexivity | done].
Qed.

Lemma addPolls_keeps (P : Poll -> Prop) (newPolls : list (Z * Poll))
    (data data' : Dataset) (n n' : nat) :
  addPolls (data, n) newPolls = Some (data', n') ->
  all_polls P data -> Forall (fun entry => P (snd entry)) newPolls ->
  all_polls P data'.
Proof.
  revert data n. induction newPolls as [|[year poll] rest IH];
    intros data n H Hall HP.
  - by injection H as <- <-.
  - rewrite addPolls_cons in H.
    destruct (addPoll (data, n) (year, poll)) as [[d1 n1]|] eqn:Ha; [|done].
    inversion HP; subst.
    eapply IH; [exact H| |done].
    eapply addPoll_keeps; [exact Ha | done | done].
Qed.

Lemma merge_keeps (P : Poll -> Prop) (data : Dataset)
    (newPolls : list (Z * Poll)) :
  all_polls P data -> Forall (fun entry => P (snd entry)) newPolls ->
  all_polls P (merge data newPolls).
Proof.
  intros Hall HP. unfold merge.
  destruct (mergeNewPolls data newPolls) as [|saved n| |] eqn:Hout; try done.
  destruct newPolls as [|entry rest]; [done|].
  rewrite mergeNewPolls_cons in Hout.
  destruct (addPolls (data, O) (entry :: rest)) as [[d1 n1]|] eqn:Ha; [|done].
  destruct (0 <? n1)%nat; [|done].
  injection Hout as <- _. simpl.
  pose proof (addPolls_keeps P _ _ _ _ _ Ha Hall HP) as H1.
  intros year election Hl. rewrite lookup_fmap in Hl.
  destruct (d1 !! year) as [e|] eqn:He; [|done].
  injection Hl as <-. simpl.
  rewrite (sort_by_perm date (polls e)). exact (H1 year e He).
Qed.

Lemma acceptPoll_fields (details : PollDetails) (year : Z) (poll : Poll) :
  acceptPoll details = Some (year, poll) ->
  region poll = None /\ scope poll = Some (d_scope details).
Proof.
  unfold acceptPoll. intros H.
  destruct (d_date details) as [pollDate|]; [|done].
  destruct (d_mdgPercentage details) as [pct|]; [|done].
  destruct (determineElectionYear pollDate) as [y|]; [|done].
  destruct pollDate as [t|]; [|done].
  destruct (electionDateOf y) as [e|]; [|done].
  destruct (_ && _); [|done].
  by injection H as _ <-.
Qed.

(** C4 (counterexample). Poll 5200 is stored as national because the facts
    table of its page says "Hele landet"; the re-classification pass reads
    the free text of the same page and rewrites it as regional, Oslo. *)
Lemma structural_national_reclassified :
  fetchPollDetails sampleWeb url5200 ≫= acceptPoll = Some (2021, stored5200)
  /\ extractScope nationalPage = national
  /\ scope stored5200 = Some national
  /\ analyzePollScope sampleWeb url5200 = (regional, Some "Oslo")
  /\ (scope (fixPoll sampleWeb stored5200), region (fixPoll sampleWeb stored5200))
     = (Some regional, Some "Oslo")
  /\ merge ∅ [(2021, stored5200); (2021, stored5201)] = sampleData
  /\ ((fun e => (fun p => (scope p, region p)) <$> polls e)
        <$> fixExistingClassification sampleWeb sampleData !! 2021)
     = Some [(Some regional, Some "Oslo"); (Some regional, None)].
Proof. repeat split; vm_compute; reflexivity. Qed.

(** C4 (amended). The pass rewrites exactly the records stored as national:
    a record with any other scope, structural or not, is left as it is; a
    record stored as national gets the scope and the region that
    [analyzePollScope] reads from the free text of its page, whatever
    produced the stored value, and keeps everything else. *)
Theorem reclassification_only_national (web : Web) (data : Dataset)
    (year : Z) (election : Election) :
  data !! year = Some election ->
  exists election',
    fixExistingClassification web data !! year = Some election'
    /\ length (polls election') = length (polls election)
    /\ forall (i : nat) (poll : Poll),
         polls election !! i = Some poll ->
         (scope poll <> Some national -> polls election' !! i = Some poll)
         /\ (scope poll = Some national ->
             exists poll',
               polls election' !! i = Some poll'
               /\ scope poll' = Some (fst (analyzePollScope web (url poll)))
               /\ region poll' = snd (analyzePollScope web (url poll))
               /\ unclassified poll' = unclassified poll).
Proof.
  intros Hl. eexists. rewrite fixExistingClassification_lookup, Hl.
  split; [reflexivity|]. simpl. split; [by rewrite length_fmap|].
  intros i poll Hi. rewrite list_lookup_fmap, Hi. simpl. split.
  - intros Hs. by rewrite fixPoll_other.
  - intros Hs. eexists. split; [reflexivity|].
    unfold fixPoll. rewrite Hs. simpl. split; [done|]. split; [|done].
    pose proof (analyzePollScope_coherent web (url poll)) as H.
    destruct (analyzePollScope web (url poll)) as [[| |] [r|]]; simpl;
      try discriminate H; try contradiction; try done.
    by rewrite H.
Qed.

Lemma reclassification_only_national_witness :
  exists election',
    fixExistingClassification sampleWeb sampleData !! 2021 = Some election'
    /\ length (polls election') = 2%nat
    /\ forall (i : nat) (poll : Poll),
         [stored5200; stored5201] !! i = Some poll ->
         (scope poll <> Some national -> polls election' !! i = Some poll)
         /\ (scope poll = Some national ->
             exists poll',
               polls election' !! i = Some poll'
               /\ scope poll' = Some (fst (analyzePollScope sampleWeb (url poll)))
               /\ region poll' = snd (analyzePollScope sampleWeb (url poll))
               /\ unclassified poll' = unclassified poll).
Proof.
  apply (reclassification_only_national sampleWeb sampleData 2021
           {| electionDate := 18883; polls := [stored5200; stored5201];
              actualResult := Some 3.9%float |}).
  vm_compute. reflexivity.
Defined.

(** C5 (counterexample). Poll 5201 is a poll of Oslo: extraction and the
    merge store it as regional, with no region. *)
Lemma regional_record_without_region :
  fetchPollDetails sampleWeb url5201 ≫= acceptPoll = Some (2021, stored5201)
  /\ extractScope osloPage = regional
  /\ scope stored5201 = Some regional
  /\ region stored5201 = None
  /\ ((fun e => (fun p => (scope p, region p)) <$> polls e)
        <$> merge ∅ [(2021, stored5201)] !! 2021)
     = Some [(Some regional, None)].
Proof. repeat split; vm_compute; reflexivity. Qed.

(** C5 (amended). Extraction creates every record without a region, whatever
    its scope; the merge changes no record, so it keeps "a region only if
    the scope is regional" when the batch has no regions; re-classification
    keeps that too, keeps "a region if and only if the scope is regional"
    when it holds of the data file, and establishes it on every record it
    rewrites. *)
Theorem region_scope_coherence (web : Web) (data : Dataset)
    (newPolls : list (Z * Poll)) :
  (forall details year poll,
     acceptPoll details = Some (year, poll) -> region poll = None)
  /\ (Forall (fun entry => region (snd entry) = None) newPolls ->
      all_polls region_only_if_regional data ->
      all_polls region_only_if_regional (merge data newPolls))
  /\ (all_polls region_only_if_regional data ->
      all_polls region_only_if_regional (fixExistingClassification web data))
  /\ (all_polls coherent data ->
      all_polls coherent (fixExistingClassification web data))
  /\ (forall poll, scope poll = Some national -> coherent (fixPoll web poll)).
Proof.
  split; [|split; [|split; [|split]]].
  - intros details year poll H. by apply acceptPoll_fields in H as [? _].
  - intros Hnone Hall. apply merge_keeps; [done|].
    eapply Forall_impl; [exact Hnone|].
    intros [y p] Hp [r Hr]. simpl in *. congruence.
  - apply fixExistingClassification_keeps.
    intros p Hs. exact (proj1 (fixPoll_coherent web p Hs)).
  - apply fixExistingClassification_keeps.
    intros p Hs. by apply fixPoll_coherent.
  - intros poll. apply fixPoll_coherent.
Qed.

End ClassificationFacts.

(** ** The regular expressions: what a match reads *)

Section RegexFacts.

Lemma take_app (p s : string) : Str.take (String.length p) (p +:+ s) = p.
Proof.
  induction p as [|a p IH]; [by destruct s|].
  change (String a (Str.take (String.length p) (p +:+ s)) = String a p).
  by rewrite IH.
Qed.

Lemma drop_app (p s : string) : Str.drop (String.length p) (p +:+ s) = s.
Proof. induction p as [|a p IH]; [by destruct s | exact IH]. Qed.

Lemma length_app_le (p s : string) :
  (String.length p <= String.length (p +:+ s))%nat.
Proof.
  induction p as [|a p IH]; [simpl; lia|].
  change (S (String.length p) <= S (String.length (p +:+ s)))%nat. lia.
Qed.

Lemma span_stop (cls : string -> nat) (limit : option nat) (fuel : nat)
    (s : string) :
  cls s = O -> Regex.span cls limit fuel s = O.
Proof.
  intros Hs. destruct fuel as [|fuel]; [done|]. simpl.
  destruct limit as [[|m]|]; by rewrite ?Hs.
Qed.

Lemma span_run (cls : string -> nat) (p s : string) :
  run_of cls p ->
  forall (limit : option nat) (fuel : nat),
    cls s = O \/ limit = Some (String.length p) ->
    (forall m, limit = Some m -> (String.length p <= m)%nat) ->
    (String.length p <= fuel)%nat ->
    Regex.span cls limit fuel (p +:+ s) = String.length p.
Proof.
  induction p as [|a p IH]; intros Hrun limit fuel Hstop Hlimit Hfuel.
  - change (EmptyString +:+ s) with s. destruct Hstop as [Hs| ->].
    + by apply span_stop.
    + by destruct fuel.
  - destruct Hrun as [Ha Hrun]. simpl String.length in *.
    destruct fuel as [|fuel]; [lia|].
    change (String a p +:+ s) with (String a (p +:+ s)).
    cbn [Regex.span].
    destruct limit as [[|m]|].
    + specialize (Hlimit O eq_refl). lia.
    + rewrite Ha. cbn [Str.drop fmap option_fmap option_map pred]. f_equal.
      apply IH; [done| |intros m' [= <-]; specialize (Hlimit _ eq_refl); lia
                 |lia].
      destruct Hstop as [Hs|[= Hm]]; [by left | right; by rewrite Hm].
    + rewrite Ha. cbn [Str.drop fmap option_fmap option_map]. f_equal.
      apply IH; [done| |done|lia].
      destruct Hstop as [Hs|[=]]. by left.
Qed.

Lemma width_run (cls : string -> nat) (p s : string) :
  run_of cls p ->
  Regex.width cls (String.length p) (p +:+ s) = String.length p.
Proof.
  induction p as [|a p IH]; intros Hrun; [done|].
  destruct Hrun as [Ha Hrun].
  change (String a p +:+ s) with (String a (p +:+ s)).
  cbn [String.length Regex.width]. rewrite Ha.
  cbn [Str.drop]. by rewrite (IH Hrun).
Qed.

(** A repetition whose longest run is [pfx], followed by a text that the
    rest of the pattern matches, takes [pfx]. *)
Lemma match_here_run (it : Regex.item) (p' : Regex.pattern) (pfx s : string)
    (caps : list string) :
  run_of (Regex.cls it) pfx ->
  Regex.cls it s = O \/ Regex.rmax it = Some (String.length pfx) ->
  (forall m, Regex.rmax it = Some m -> (String.length pfx <= m)%nat) ->
  (Regex.rmin it <= String.length pfx)%nat ->
  Regex.match_here p' s = Some caps ->
  Regex.match_here (it :: p') (pfx +:+ s)
  = Some (if Regex.capt it then pfx :: caps else caps).
Proof.
  intros Hrun Hstop Hmax Hmin Hrest. cbn [Regex.match_here].
  rewrite (span_run _ pfx s Hrun _ _ Hstop Hmax (length_app_le pfx s)).
  pose proof (width_run _ pfx s Hrun) as Hw.
  pose proof (take_app pfx s) as Ht. pose proof (drop_app pfx s) as Hd.
  apply Nat.leb_le in Hmin.
  destruct (String.length pfx) as [|n];
    rewrite Hmin, Hw, Hd, Ht, Hrest; done.
Qed.

(** A repetition of at least one character fails where no character of its
    class stands. *)
Lemma match_here_stuck (it : Regex.item) (p' : Regex.pattern) (s : string) :
  Regex.cls it s = O -> (1 <= Regex.rmin it)%nat ->
  Regex.match_here (it :: p') s = None.
Proof.
  intros Hs Hmin. cbn [Regex.match_here]. rewrite (span_stop _ _ _ _ Hs).
  destruct (Nat.leb_spec (Regex.rmin it) 0); [lia | done].
Qed.









End RegexFacts.

(** ** C6 and C7: extraction *)

Section ExtractionFacts.
Import PollUpdater.

Lemma acceptPoll_date (details : PollDetails) (entry : Z * Poll) :
  acceptPoll details = Some entry ->
  exists t, d_date details = Some (JSDate.Valid t)
            /\ url (snd entry) = d_url details.
Proof.
  unfold acceptPoll. intros H.
  destruct (d_date details) as [pollDate|]; [|done].
  destruct (d_mdgPercentage details) as [pct|]; [|done].
  destruct (determineElectionYear pollDate) as [y|]; [|done].
  destruct pollDate as [t|]; [|done].
  destruct (electionDateOf y) as [e|]; [|done].
  destruct (_ && _); [|done].
  injection H as <-. by exists t.
Qed.

Lemma fetchPollDetails_page (web : Web) (pollUrl : string) (details : PollDetails) :
  fetchPollDetails web pollUrl = Some details ->
  exists page, web pollUrl = Some page
               /\ d_date details = extractPollDate page
               /\ d_url details = pollUrl.
Proof.
  unfold fetchPollDetails. intros H.
  destruct (web pollUrl) as [page|]; [|done].
  destruct (Str.includes _ _); [done|].
  injection H as <-. by exists page.
Qed.

(** What the loop returns holds what it was given and what [acceptPoll]
    made of a fetched page. *)
Lemma fetchLoop_from_pages (P : Z * Poll -> Prop) (web : Web) (remaining : nat) :
  (forall id details entry,
     fetchPollDetails web (pollUrlOf id) = Some details ->
     acceptPoll details = Some entry -> P entry) ->
  forall id consecutive newPolls,
    Forall P newPolls ->
    Forall P (fetchLoop web remaining id consecutive newPolls).
Proof.
  intros Hstep. induction remaining as [|n IH]; intros id c acc Hacc; [done|].
  simpl. destruct (c <? maxConsecutiveNonExistent)%nat; [|done].
  destruct (fetchPollDetails web (pollUrlOf id)) as [details|] eqn:Hf.
  - apply IH. apply Forall_app. split; [done|].
    destruct (acceptPoll details) as [entry|] eqn:Ha; simpl; [|constructor].
    constructor; [|constructor]. by eapply Hstep.
  - by apply IH.
Qed.



(** The blockquote of the first page gives 2021-08-16 although its title
    says 20 August; the second page is dated by its title; the third has no
    date and gives no record.  No-break spaces separate the parts of a date
    as well as spaces do, and a date out of the calendar is an Invalid
    Date. *)
Example date_methods_in_order :
  extractPollDate nationalPage = Some (JSDate.of_ymd 2021 8 16)
  /\ dateFromNorwegianText (titleText nationalPage) = Some (JSDate.of_ymd 2021 8 20)
  /\ extractPollDate titleOnlyPage = Some (JSDate.of_ymd 2025 8 27)
  /\ extractPollDate undatedPage = None
  /\ fetchNewPolls (fun _ => Some undatedPage) 5535 100 = []
  /\ dateFromNorwegianText ("27." +:+ nbsp +:+ "august" +:+ nbsp +:+ "2025")
     = Some (JSDate.of_ymd 2025 8 27)
  /\ dateFromNorwegianText "Publisert 3. AUGUST 2021" = Some (JSDate.of_ymd 2021 8 3)
  /\ dateFromNorwegianText "3. constructor 2021" = Some JSDate.Invalid
  /\ extractPollDate
       {| bodyText := "27. august 2025"; blockquoteText := "Dato: 40.13.2021";
          titleText := EmptyString; anchors := []; scripts := [];
          factRows := []; thText := EmptyString |}
     = Some JSDate.Invalid.
Proof. repeat split; vm_compute; reflexivity. Qed.

(** C7. On a page with two scripts that carry a value and no mandate link,
    the value of the later script replaces the earlier one; on a page whose
    first mandate link carries 0, the value of the next link replaces it. *)
Theorem percentage_later_candidate_wins :
  (Regex.search Regex.mdg_value <$> scripts twoScriptsPage)
    = [Some ["3.1"]; Some ["4.2"]]
  /\ fromMandateLinks twoScriptsPage = None
  /\ extractPercentage twoScriptsPage = Some 4.2%float
  /\ (Regex.search Regex.mdg_value <$> anchors zeroLinkPage)
    = [Some ["0.0"]; Some ["4.2"]]
  /\ extractPercentage zeroLinkPage = Some 4.2%float.
Proof. repeat split; vm_compute; reflexivity. Qed.

(** What does hold of the percentage: a value of a mandate link that is
    neither zero nor NaN is never replaced, neither by a later link nor by a
    script. *)
Lemma percentage_link_kept (page : Page) :
  unset (fromMandateLinks page) = false ->
  extractPercentage page = fromMandateLinks page.
Proof. unfold extractPercentage. by intros ->. Qed.

End ExtractionFacts.

(** ** C8 and C10: the rolling average *)

Lemma filter_perm {A : Type} (f : A -> bool) (l l' : list A) :
  l ≡ₚ l' -> List.filter f l ≡ₚ List.filter f l'.
Proof.
  induction 1 as [|a l l' _ IH|a b l|l1 l2 l3 _ IH1 _ IH2]; simpl.
  - done.
  - destruct (f a); [by constructor | done].
  - destruct (f a), (f b); try done. apply perm_swap.
  - by etrans.
Qed.

Section SmootherFacts.
Context {poll num : Type}.
Variable daysOf : poll -> Z.
Variable pctOf : poll -> num.
Variable zero : num.
Variable add div : num -> num -> num.
Variable of_nat : nat -> num.

Lemma sum_of_copies (c : num) (l : list poll) (acc : num) :
  Forall (fun p => pctOf p = c) l ->
  fold_left (fun sum p => add sum (pctOf p)) l acc
  = Nat.iter (length l) (fun sum => add sum c) acc.
Proof.
  intros Hall. revert acc.
  induction Hall as [|p l Hp _ IH]; intros acc; [done|].
  simpl fold_left. rewrite IH, Hp.
  change (length (p :: l)) with (S (length l)).
  by rewrite Nat.iter_succ_r.
Qed.

Lemma average_of_copies (c : num) (l : list poll) :
  Forall (fun p => pctOf p = c) l ->
  average pctOf zero add div of_nat l
  = meanOfCopies zero add div of_nat c (length l).
Proof.
  intros Hall. unfold average, meanOfCopies. by rewrite (sum_of_copies c).
Qed.

(** Every point of the loop is the average of the samples in the window
    of its day, and there is such a sample. *)
Lemma averagesFrom_points (fuel : nat) (sortedPolls : list poll)
    (windowDays : float) (maxDays step day : Z) :
  Forall (fun pt =>
            let pollsInWindow :=
              List.filter (inWindow daysOf windowDays (x pt)) sortedPolls in
            (0 < length pollsInWindow)%nat
            /\ y pt = average pctOf zero add div of_nat pollsInWindow)
         (averagesFrom daysOf pctOf zero add div of_nat fuel sortedPolls
                       windowDays maxDays step day).
Proof.
  revert day. induction fuel as [|fuel IH]; intros day; [constructor|].
  simpl. destruct (day <=? maxDays); [|constructor].
  destruct (Nat.ltb_spec 0 (length (List.filter (inWindow daysOf windowDays day)
                                               sortedPolls))) as [Hpos|_];
    [|apply IH].
  constructor; [|apply IH]. by split.
Qed.

(** More iterations than [maxDays - day + 1] change nothing: the loop ends
    by its own test. *)
Lemma averagesFrom_fuel (sortedPolls : list poll) (windowDays : float)
    (maxDays step : Z) (fuel1 fuel2 : nat) (day : Z) :
  1 <= step ->
  (Z.to_nat (maxDays - day + 1) <= fuel1)%nat ->
  (Z.to_nat (maxDays - day + 1) <= fuel2)%nat ->
  averagesFrom daysOf pctOf zero add div of_nat fuel1 sortedPolls windowDays
               maxDays step day
  = averagesFrom daysOf pctOf zero add div of_nat fuel2 sortedPolls windowDays
                 maxDays step day.
Proof.
  intros Hstep. revert fuel2 day.
  induction fuel1 as [|f1 IH]; intros fuel2 day H1 H2.
  - destruct fuel2 as [|f2]; [done|]. simpl.
    destruct (Z.leb_spec day maxDays); [lia | done].
  - destruct fuel2 as [|f2]; simpl.
    + destruct (Z.leb_spec day maxDays); [lia | done].
    + destruct (Z.leb_spec day maxDays); [|done].
      rewrite (IH f2 (day + step)); [done | lia | lia].
Qed.

Lemma smoother_points_are_means (polls : list poll) (windowDays : float)
    (c : num) :
  Forall (fun p => pctOf p = c) polls ->
  Forall (fun pt =>
            let k := length (List.filter (inWindow daysOf windowDays (x pt))
                                         polls) in
            (1 <= k <= length polls)%nat
            /\ y pt = meanOfCopies zero add div of_nat c k)
         (calculateRollingAverage daysOf pctOf zero add div of_nat
                                  polls windowDays).
Proof.
  intros Hall. unfold calculateRollingAverage.
  destruct (length polls <? 2)%nat; [constructor|].
  eapply Forall_impl; [apply averagesFrom_points|].
  intros pt [Hpos Hy]. cbv zeta in *.
  pose proof (filter_perm (inWindow daysOf windowDays (x pt)) _ _
                (sort_by_perm daysOf polls)) as Hperm.
  rewrite <- (Permutation_length Hperm). split.
  - split; [lia|]. rewrite (Permutation_length Hperm).
    clear. induction polls as [|p l IH]; simpl; [lia|].
    destruct (inWindow daysOf windowDays (x pt) p); simpl; lia.
  - rewrite Hy. apply average_of_copies.
    rewrite Forall_forall in Hall |- *. intros p Hp. apply Hall.
    apply list_elem_of_In, filter_In in Hp as [Hp _].
    apply list_elem_of_In in Hp. by rewrite <- (sort_by_perm daysOf polls).
Qed.

End SmootherFacts.

(** C8 (counterexample). Three polls of 3.2 percent inside one window: the
    program's point is 3.2000000000000006, not 3.2. *)
Lemma constant_series_not_constant :
  mdgPercentage <$> flatPolls = [3.2%float; 3.2%float; 3.2%float]
  /\ calculateRollingAverage_js flatPolls 7%float
     = [ {| x := 10; y := 3.2000000000000006%float |} ]
  /\ PrimFloat.eqb 3.2000000000000006%float 3.2%float = false.
Proof. repeat split; vm_compute; reflexivity. Qed.

(** C8 (amended). When every sample has the value [c], every point of the
    output is what the arithmetic gives for the sum of [k] values [c], added
    one by one to zero, divided by [k], where [k] is the number of samples
    in the window of the point's day, and is at least one; every point is
    [c] itself whenever that quotient is [c] for every such [k]. *)
Theorem smoother_constant_input {poll num : Type}
    (daysOf : poll -> Z) (pctOf : poll -> num) (zero : num)
    (add div : num -> num -> num) (of_nat : nat -> num)
    (polls : list poll) (windowDays : float) (c : num) :
  Forall (fun p => pctOf p = c) polls ->
  Forall (fun pt =>
            let k := length (List.filter (inWindow daysOf windowDays (x pt))
                                         polls) in
            (1 <= k <= length polls)%nat
            /\ y pt = meanOfCopies zero add div of_nat c k)
         (calculateRollingAverage daysOf pctOf zero add div of_nat
                                  polls windowDays)
  /\ ((forall k, (1 <= k <= length polls)%nat ->
                 meanOfCopies zero add div of_nat c k = c) ->
      Forall (fun pt => y pt = c)
             (calculateRollingAverage daysOf pctOf zero add div of_nat
                                      polls windowDays)).
Proof.
  intros Hall.
  pose proof (smoother_points_are_means daysOf pctOf zero add div of_nat
                polls windowDays c Hall) as Hmeans.
  split; [exact Hmeans|].
  intros Hexact. eapply Forall_impl; [exact Hmeans|].
  intros pt [Hk ->]. by apply Hexact.
Qed.

Lemma smoother_constant_input_witness :
  Forall (fun pt =>
            let k := length (List.filter
                               (inWindow daysUntilElection 7%float (x pt))
                               flatPolls) in
            (1 <= k <= 3)%nat
            /\ y pt = meanOfCopies 0%float PrimFloat.add PrimFloat.div
                        (fun n => Num.of_Z (Z.of_nat n)) 3.2%float k)
         (calculateRollingAverage_js flatPolls 7%float)
  /\ ((forall k, (1 <= k <= 3)%nat ->
                 meanOfCopies 0%float PrimFloat.add PrimFloat.div
                   (fun n => Num.of_Z (Z.of_nat n)) 3.2%float k = 3.2%float) ->
      Forall (fun pt => y pt = 3.2%float)
             (calculateRollingAverage_js flatPolls 7%float)).
Proof.
  apply (smoother_constant_input daysUntilElection mdgPercentage 0%float
           PrimFloat.add PrimFloat.div (fun n => Num.of_Z (Z.of_nat n))
           flatPolls 7%float 3.2%float).
  repeat constructor.
Defined.

(** One sample of 3.2 in a window gives 3.2, two give 3.2, three give
    3.2000000000000006; two samples of 1e308 give infinity. *)
Example means_of_copies :
  meanOfCopies 0%float PrimFloat.add PrimFloat.div
    (fun n => Num.of_Z (Z.of_nat n)) 3.2%float
  <$> [1; 2; 3]%nat
  = [3.2%float; 3.2%float; 3.2000000000000006%float]
  /\ meanOfCopies 0%float PrimFloat.add PrimFloat.div
       (fun n => Num.of_Z (Z.of_nat n)) 1e308%float 2 = infinity.
Proof. split; vm_compute; reflexivity. Qed.

(** C10. Fewer than two samples give the empty series, whatever the window. *)
Theorem fewer_than_two_samples {poll num : Type}
    (daysOf : poll -> Z) (pctOf : poll -> num) (zero : num)
    (add div : num -> num -> num) (of_nat : nat -> num)
    (polls : list poll) (windowDays : float) :
  (length polls < 2)%nat ->
  calculateRollingAverage daysOf pctOf zero add div of_nat polls windowDays = [].
Proof.
  intros Hlen. unfold calculateRollingAverage.
  by destruct (Nat.ltb_spec (length polls) 2); [|lia].
Qed.

Lemma fewer_than_two_samples_witness :
  calculateRollingAverage_js [poll5180] 14%float = [].
Proof.
  apply (fewer_than_two_samples daysUntilElection mdgPercentage 0%float
           PrimFloat.add PrimFloat.div (fun n => Num.of_Z (Z.of_nat n))
           [poll5180] 14%float).
  simpl. lia.
Defined.

(** On exact rationals the average of [k] samples of value [c] is [c], so
    there a constant input does give a constant output; the difference in
    binary64 is the rounding of the sum and of the quotient. *)
Lemma Qc_of_nat_S (k : nat) : Qc_of_nat (S k) = (Qc_of_nat k + 1)%Qc.
Proof.
  apply Qc_is_canon. unfold Qc_of_nat. simpl.
  rewrite !Qred_correct. unfold Qeq, Qplus, inject_Z. simpl. lia.
Qed.

Lemma Qc_of_nat_nonzero (k : nat) : (1 <= k)%nat -> Qc_of_nat k <> Q2Qc 0.
Proof.
  intros Hk H. apply (f_equal this) in H. unfold Qc_of_nat in H. simpl in H.
  assert (Qeq (inject_Z (Z.of_nat k)) 0) as Hq.
  { rewrite <- (Qred_correct (inject_Z (Z.of_nat k))). by rewrite H. }
  unfold Qeq, inject_Z in Hq. simpl in Hq. lia.
Qed.

Lemma sum_of_copies_exact (c : Qc) (k : nat) :
  Nat.iter k (fun sum => (sum + c)%Qc) (Q2Qc 0) = (Qc_of_nat k * c)%Qc.
Proof.
  induction k as [|k IH].
  - simpl. change (Qc_of_nat 0) with (Q2Qc 0). ring.
  - rewrite Qc_of_nat_S. simpl. rewrite IH. ring.
Qed.

Lemma mean_of_copies_exact (c : Qc) (k : nat) :
  (1 <= k)%nat -> meanOfCopies (Q2Qc 0) Qcplus Qcdiv Qc_of_nat c k = c.
Proof.
  intros Hk. unfold meanOfCopies. rewrite sum_of_copies_exact.
  field. by apply Qc_of_nat_nonzero.
Qed.

Lemma smoother_constant_exact {poll : Type} (daysOf : poll -> Z)
    (pctOf : poll -> Qc) (polls : list poll) (windowDays : float) (c : Qc) :
  Forall (fun p => pctOf p = c) polls ->
  Forall (fun pt => y pt = c)
         (calculateRollingAverage_exact daysOf pctOf polls windowDays).
Proof.
  intros Hall. unfold calculateRollingAverage_exact.
  eapply Forall_impl; [by apply smoother_points_are_means|].
  intros pt [Hk ->]. apply mean_of_copies_exact. lia.
Qed.

(** ** C9: saving the data file *)

(** C9 (counterexample). [saveData] is one [writeFileSync] on the data file;
    when that write stops part way, the file holds a part of the new text,
    and the next run reads an empty dataset where the old one was. *)
Lemma failed_save_leaves_partial_file :
  PollUpdater.saveData sampleData = [Fs.WriteFileSync dataFile sampleData]
  /\ PollUpdater.loadExistingData {[ dataFile := Fs.Whole unsortedData ]}
     = unsortedData
  /\ Fs.exec_all (PollUpdater.saveData sampleData) [Fs.FailsAfter 120]
                 {[ dataFile := Fs.Whole unsortedData ]}
     = ({[ dataFile := Fs.Partial sampleData 120 ]}, Fs.Thrown)
  /\ PollUpdater.loadExistingData {[ dataFile := Fs.Partial sampleData 120 ]}
     = ∅.
Proof. repeat split; vm_compute; reflexivity. Qed.

(** C9 (amended). Every script saves with one [writeFileSync] on the data
    file itself, with no temporary file and no rename.  A write that
    completes leaves the new dataset in the file; a write that fails throws
    (the error is logged and thrown again) and leaves the file as it was or
    holding a part of the new text; no other file changes. *)
Theorem save_is_one_direct_write (data : Dataset) (fs : Fs.state) (f : Fs.fate) :
  PollUpdater.saveData data = [Fs.WriteFileSync dataFile data]
  /\ PollFetcher.saveData data = [Fs.WriteFileSync dataFile data]
  /\ PollClassificationFixer.saveData data = [Fs.WriteFileSync dataFile data]
  /\ Fs.exec_all (PollUpdater.saveData data) [Fs.Completes] fs
     = (<[dataFile := Fs.Whole data]> fs, Fs.Returned)
  /\ (f <> Fs.Completes ->
      snd (Fs.exec_all (PollUpdater.saveData data) [f] fs) = Fs.Thrown
      /\ (fst (Fs.exec_all (PollUpdater.saveData data) [f] fs) !! dataFile
            = fs !! dataFile
          \/ exists written,
               fst (Fs.exec_all (PollUpdater.saveData data) [f] fs) !! dataFile
               = Some (Fs.Partial data written)))
  /\ (forall path,
        path <> dataFile ->
        fst (Fs.exec_all (PollUpdater.saveData data) [f] fs) !! path
        = fs !! path).
Proof.
  repeat split; try reflexivity.
  - destruct f; done.
  - destruct f as [| |n]; simpl; [done | by left |].
    right. exists n. by rewrite lookup_insert_eq.
  - intros path Hne. destruct f; simpl; [|done|]; by rewrite lookup_insert_ne.
Qed.

(** * Further properties of the scripts *)

(** ** update-polls.js: the records it makes and the merge *)

Section UpdaterFacts.
Import PollUpdater.

(** Every date that extraction builds is a midnight UTC, or invalid. *)
Lemma of_strings_midnight (year month day : string) (t : Z) :
  JSDate.of_strings year month day = JSDate.Valid t ->
  exists d, t = d * JSDate.msPerDay.
Proof.
  unfold JSDate.of_strings, JSDate.of_ymd.
  destruct (_ && _); [|done]. intros [= <-]. by eexists.
Qed.

Lemma dateFromNorwegianText_midnight (text : string) (t : Z) :
  dateFromNorwegianText text = Some (JSDate.Valid t) ->
  exists d, t = d * JSDate.msPerDay.
Proof.
  unfold dateFromNorwegianText.
  destruct (Regex.search _ _) as [[|day [|monthName [|year [|]]]]|]; try done.
  destruct (norwegianMonths _) as [monthNum|].
  - intros [= H]. by eapply of_strings_midnight.
  - by destruct (bool_decide _).
Qed.

Lemma extractPollDate_midnight (page : Page) (t : Z) :
  extractPollDate page = Some (JSDate.Valid t) ->
  exists d, t = d * JSDate.msPerDay.
Proof.
  unfold extractPollDate.
  destruct (dateFromBlockquote page) as [d1|] eqn:H1.
  - intros [= ->]. unfold dateFromBlockquote in H1.
    destruct (Regex.search _ _) as [[|day [|month [|year [|]]]]|]; try done.
    injection H1 as H1. by eapply of_strings_midnight.
  - destruct (dateFromNorwegianText (bodyText page)) as [d2|] eqn:H2.
    + intros [= ->]. by eapply dateFromNorwegianText_midnight.
    + apply dateFromNorwegianText_midnight.
Qed.

Lemma acceptPoll_record (details : PollDetails) (year : Z) (poll : Poll) :
  acceptPoll details = Some (year, poll) ->
  exists t e pct,
    d_date details = Some (JSDate.Valid t)
    /\ d_mdgPercentage details = Some pct
    /\ electionDateOf year = Some e
    /\ 0 <= calculateDaysUntilElection t e <= 730
    /\ poll = {| date := JSDate.isoDay t; mdgPercentage := pct;
                 pollster := d_pollster details;
                 daysUntilElection := calculateDaysUntilElection t e;
                 rssTitle := None; url := d_url details;
                 scope := Some (d_scope details); region := None |}.
Proof.
  unfold acceptPoll. intros H.
  destruct (d_date details) as [pollDate|]; [|done].
  destruct (d_mdgPercentage details) as [pct|]; [|done].
  destruct (determineElectionYear pollDate) as [y|]; [|done].
  destruct pollDate as [t|]; [|done].
  destruct (electionDateOf y) as [e|] eqn:He; [|done].
  destruct (Z.leb_spec 0 (calculateDaysUntilElection t e)); [|done].
  destruct (Z.leb_spec (calculateDaysUntilElection t e) 730); [|done].
  simpl in H. injection H as <- <-. exists t, e, pct. by rewrite He.
Qed.

(** X1. Every record that [fetchNewPolls] returns is filed under an election
    of the table, lies on or at most 730 days before that election's day,
    has as [daysUntilElection] exactly the election's day minus its own,
    carries no region and no rss title, has the url of a page of the site,
    and has the scope read from that page. *)
Theorem fetched_records_well_formed (web : Web) (startId maxChecks : Z) :
  Forall (fun entry =>
            exists e page,
              electionDay (fst entry) = Some e
              /\ daysUntilElection (snd entry) = e - date (snd entry)
              /\ 0 <= daysUntilElection (snd entry) <= 730
              /\ region (snd entry) = None
              /\ rssTitle (snd entry) = None
              /\ web (url (snd entry)) = Some page
              /\ scope (snd entry) = Some (extractScope page))
         (fetchNewPolls web startId maxChecks).
Proof.
  unfold fetchNewPolls. apply fetchLoop_from_pages; [|constructor].
  intros id details [year poll] Hf Ha.
  apply acceptPoll_record in Ha as (t & e & pct & Hd & _ & He & Hr & ->).
  unfold fetchPollDetails in Hf.
  destruct (web (pollUrlOf id)) as [page|] eqn:Hw; [|done].
  destruct (Str.includes _ _); [done|]. injection Hf as <-. simpl in *.
  apply extractPollDate_midnight in Hd as [d ->].
  assert (exists ed, electionDay year = Some ed /\ e = ed * JSDate.msPerDay)
    as (ed & Hed & ->).
  { exists (JSDate.isoDay e).
    assert (electionDay year = Some (JSDate.isoDay e)) as Hed.
    { unfold electionDay. by rewrite He. }
    split; [done|]. apply electionDateOf_day in Hed. congruence. }
  rewrite calculateDays_days in Hr |- *.
  exists ed, page.
  assert (JSDate.isoDay (d * JSDate.msPerDay) = d) as ->.
  { unfold JSDate.isoDay. by rewrite Z.div_mul. }
  repeat split; try done; lia.
Qed.

(** A batch whose entries name elections of the table is merged without a
    thrown error. *)
Lemma addPolls_known_years (newPolls : list (Z * Poll)) (data : Dataset) (n : nat) :
  Forall (fun entry => is_Some (electionDateOf (fst entry))) newPolls ->
  is_Some (addPolls (data, n) newPolls).
Proof.
  intros Hall. revert data n.
  induction Hall as [|[year poll] rest [e He] _ IH]; intros data n; [by eexists|].
  rewrite addPolls_cons.
  assert (is_Some (addPoll (data, n) (year, poll))) as [[d1 n1] ->];
    [|apply IH].
  unfold addPoll.
  destruct (ensureElection data year) as [d1|] eqn:Hens.
  - destruct (ensureElection_lookup _ _ _ Hens) as [el ->].
    destruct (existsb _ _); by eexists.
  - unfold ensureElection in Hens. simpl in He. rewrite He in Hens.
    by destruct (data !! year).
Qed.

Lemma fetched_records_gen (web : Web) (startId maxChecks : Z) :
  Forall (fun entry => is_Some (electionDateOf (fst entry)))
         (fetchNewPolls web startId maxChecks).
Proof.
  unfold fetchNewPolls. apply fetchLoop_from_pages; [|constructor].
  intros id details [year poll] _ Ha.
  apply acceptPoll_record in Ha as (t & e & pct & _ & _ & He & _).
  by exists e.
Qed.

Lemma addPoll_count (data data' : Dataset) (n n' : nat) (entry : Z * Poll) :
  addPoll (data, n) entry = Some (data', n') -> (n <= n' <= S n)%nat.
Proof.
  destruct entry as [year poll]. unfold addPoll. intros H.
  destruct (ensureElection data year) as [d1|]; [|done].
  destruct (d1 !! year) as [el|]; [|done].
  destruct (existsb _ _); injection H as _ <-; lia.
Qed.

Lemma addPolls_count (newPolls : list (Z * Poll)) (data data' : Dataset)
    (n n' : nat) :
  addPolls (data, n) newPolls = Some (data', n') ->
  (n <= n' <= n + length newPolls)%nat.
Proof.
  revert data n. induction newPolls as [|entry rest IH]; intros data n H.
  - injection H as _ <-. simpl. lia.
  - rewrite addPolls_cons in H.
    destruct (addPoll (data, n) entry) as [[d1 n1]|] eqn:Ha; [|done].
    apply addPoll_count in Ha. apply IH in H. simpl. lia.
Qed.

(** X2. The merge of a batch that [fetchNewPolls] returned never throws: it
    finds nothing new, finds only duplicates, or saves, and then it has
    added at least one record and at most as many as the batch holds. *)
Theorem merge_of_fetched_batch_never_crashes (web : Web) (data : Dataset)
    (startId maxChecks : Z) :
  mergeNewPolls data (fetchNewPolls web startId maxChecks) = UpToDate
  \/ mergeNewPolls data (fetchNewPolls web startId maxChecks) = AllDuplicates
  \/ exists saved n,
       mergeNewPolls data (fetchNewPolls web startId maxChecks) = Saved saved n
       /\ (0 < n <= length (fetchNewPolls web startId maxChecks))%nat.
Proof.
  pose proof (fetched_records_gen web startId maxChecks) as Hall.
  destruct (fetchNewPolls web startId maxChecks) as [|entry rest] eqn:Hb;
    [by left|].
  rewrite mergeNewPolls_cons.
  destruct (addPolls_known_years (entry :: rest) data O Hall) as [[d1 n1] Ha].
  rewrite Ha.
  destruct (Nat.ltb_spec 0 n1); [|by right; left].
  right. right. exists (PollUpdater.sortPolls <$> d1), n1. split; [done|].
  split; [done|].
  pose proof (addPolls_count _ _ _ _ _ Ha). lia.
Qed.

Lemma kept_in_refl (data : Dataset) : kept_in data data.
Proof. intros year el Hl. by exists el. Qed.

Lemma kept_in_trans (d1 d2 d3 : Dataset) :
  kept_in d1 d2 -> kept_in d2 d3 -> kept_in d1 d3.
Proof.
  intros H12 H23 year el Hl.
  destruct (H12 year el Hl) as (e2 & Hl2 & Hd2 & Ha2 & Hp2).
  destruct (H23 year e2 Hl2) as (e3 & Hl3 & Hd3 & Ha3 & Hp3).
  exists e3. repeat split; [done|congruence|congruence|by etrans].
Qed.

Lemma addPoll_kept (data data' : Dataset) (n n' : nat) (entry : Z * Poll) :
  addPoll (data, n) entry = Some (data', n') -> kept_in data data'.
Proof.
  destruct entry as [year poll]. unfold addPoll, ensureElection. intros H.
  destruct (data !! year) as [e0|] eqn:Hl0.
  - rewrite Hl0 in H. destruct (existsb _ _).
    + injection H as <- _. apply kept_in_refl.
    + injection H as <- _. intros y el Hl.
      destruct (decide (y = year)) as [->|Hne].
      * eexists. rewrite lookup_insert_eq. split; [done|]. simpl.
        replace el with e0 by congruence.
        repeat split. by apply submseteq_inserts_r.
      * exists el. by rewrite lookup_insert_ne.
  - destruct (electionDateOf year) as [ed|]; [|done].
    rewrite lookup_insert_eq in H. simpl in H. injection H as <- _.
    intros y el Hl.
    assert (y <> year) as Hne by (intros ->; congruence).
    exists el. rewrite insert_insert_eq. by rewrite lookup_insert_ne.
Qed.

Lemma addPolls_kept (newPolls : list (Z * Poll)) (data data' : Dataset)
    (n n' : nat) :
  addPolls (data, n) newPolls = Some (data', n') -> kept_in data data'.
Proof.
  revert data n. induction newPolls as [|entry rest IH]; intros data n H.
  - injection H as <- _. apply kept_in_refl.
  - rewrite addPolls_cons in H.
    destruct (addPoll (data, n) entry) as [[d1 n1]|] eqn:Ha; [|done].
    eapply kept_in_trans; [by eapply addPoll_kept | by eapply IH].
Qed.

Lemma sortPolls_kept (data : Dataset) : kept_in data (sortPolls <$> data).
Proof.
  intros year el Hl. exists (sortPolls el). rewrite lookup_fmap, Hl.
  repeat split. simpl. by rewrite sort_by_perm.
Qed.

(** X3. The merge never deletes or changes what the data file holds: every
    election stays, with its date and its result, and every one of its polls
    is still among the polls of that election afterwards. *)
Theorem merge_keeps_existing_records (existingData : Dataset)
    (newPolls : list (Z * Poll)) :
  kept_in existingData (merge existingData newPolls).
Proof.
  unfold merge.
  destruct (mergeNewPolls existingData newPolls) as [|saved n| |] eqn:Hout;
    try apply kept_in_refl.
  destruct newPolls as [|entry rest]; [done|].
  rewrite mergeNewPolls_cons in Hout.
  destruct (addPolls _ _) as [[d1 n1]|] eqn:Ha; [|done].
  destruct (0 <? n1)%nat; [|done]. injection Hout as <- _. simpl.
  eapply kept_in_trans; [by eapply addPolls_kept | apply sortPolls_kept].
Qed.

Lemma existsb_url_false (u : string) (l : list Poll) :
  existsb (fun p => String.eqb (url p) u) l = false -> u ∉ url <$> l.
Proof.
  induction l as [|p l IH]; simpl.
  - intros _ H. by apply elem_of_nil in H.
  - intros H. apply orb_false_iff in H as [Hp Hl].
    intros Hin. apply elem_of_cons in Hin as [->|Hin].
    + by rewrite String.eqb_refl in Hp.
    + by apply IH.
Qed.

Lemma addPoll_urls_unique (data data' : Dataset) (n n' : nat) (entry : Z * Poll) :
  addPoll (data, n) entry = Some (data', n') ->
  urls_unique data -> urls_unique data'.
Proof.
  destruct entry as [year poll]. unfold addPoll, ensureElection. intros H Hu.
  destruct (data !! year) as [e0|] eqn:Hl0.
  - rewrite Hl0 in H. destruct (existsb _ _) eqn:Hex.
    + by injection H as <- _.
    + injection H as <- _. apply map_Forall_insert_2; [|done]. simpl.
      rewrite fmap_app. apply NoDup_app. split; [exact (Hu year e0 Hl0)|].
      split; [|apply NoDup_singleton].
      intros u Hin Hin'. simpl in Hin'. apply list_elem_of_singleton in Hin'.
      subst. by apply existsb_url_false in Hex.
  - destruct (electionDateOf year) as [ed|]; [|done].
    rewrite lookup_insert_eq in H. simpl in H. injection H as <- _.
    rewrite insert_insert_eq. apply map_Forall_insert_2; [|done].
    simpl. apply NoDup_singleton.
Qed.

Lemma addPolls_urls_unique (newPolls : list (Z * Poll)) (data data' : Dataset)
    (n n' : nat) :
  addPolls (data, n) newPolls = Some (data', n') ->
  urls_unique data -> urls_unique data'.
Proof.
  revert data n. induction newPolls as [|entry rest IH]; intros data n H Hu.
  - by injection H as <- _.
  - rewrite addPolls_cons in H.
    destruct (addPoll (data, n) entry) as [[d1 n1]|] eqn:Ha; [|done].
    eapply IH; [exact H|]. by eapply addPoll_urls_unique.
Qed.

(** X4. The merge keeps the urls of every cycle free of repetitions,
    whatever the batch holds (the same url several times, or urls of the
    data file). *)
Theorem merge_keeps_urls_unique (existingData : Dataset)
    (newPolls : list (Z * Poll)) :
  urls_unique existingData -> urls_unique (merge existingData newPolls).
Proof.
  intros Hu. unfold merge.
  destruct (mergeNewPolls existingData newPolls) as [|saved n| |] eqn:Hout;
    try done.
  destruct newPolls as [|entry rest]; [done|].
  rewrite mergeNewPolls_cons in Hout.
  destruct (addPolls _ _) as [[d1 n1]|] eqn:Ha; [|done].
  destruct (0 <? n1)%nat; [|done]. injection Hout as <- _. simpl.
  pose proof (addPolls_urls_unique _ _ _ _ _ Ha Hu) as H1.
  intros year el Hl. rewrite lookup_fmap in Hl.
  destruct (d1 !! year) as [e|] eqn:He; [|done].
  injection Hl as <-. simpl.
  rewrite (sort_by_perm date (polls e)). exact (H1 year e He).
Qed.

Lemma unsortedData_urls_unique : urls_unique unsortedData.
Proof.
  apply map_Forall_singleton. simpl.
  apply (bool_decide_unpack _). vm_compute. reflexivity.
Qed.

Lemma merge_keeps_urls_unique_witness :
  urls_unique (merge unsortedData [(2021, poll5190); (2021, poll5190)]).
Proof.
  apply (merge_keeps_urls_unique unsortedData
           [(2021, poll5190); (2021, poll5190)]).
  exact unsortedData_urls_unique.
Defined.

(** *** The scan of [fetchNewPolls] *)

Lemma pollUrlOf_inj (i j : Z) : pollUrlOf i = pollUrlOf j -> i = j.
Proof.
  unfold pollUrlOf. intros H.
  apply (inj (String.app _)) in H. apply (inj (String.app _)) in H.
  by apply (inj pretty) in H.
Qed.

Lemma fetched_entry_url (web : Web) (id : Z) (details : PollDetails)
    (entry : Z * Poll) :
  fetchPollDetails web (pollUrlOf id) = Some details ->
  acceptPoll details = Some entry ->
  url (snd entry) = pollUrlOf id.
Proof.
  intros Hf Ha.
  apply acceptPoll_date in Ha as (t & _ & ->).
  by apply fetchPollDetails_page in Hf as (page & _ & _ & ->).
Qed.

Lemma fetchLoop_urls (web : Web) (lo : Z) (remaining : nat) :
  forall (id : Z) (consecutive : nat) (newPolls : list (Z * Poll)),
    lo <= id ->
    Forall (fun entry => exists i, lo <= i < id
                                   /\ url (snd entry) = pollUrlOf i) newPolls ->
    NoDup ((fun entry => url (snd entry)) <$> newPolls) ->
    Forall (fun entry => exists i, lo <= i < id + Z.of_nat remaining
                                   /\ url (snd entry) = pollUrlOf i)
           (fetchLoop web remaining id consecutive newPolls)
    /\ NoDup ((fun entry => url (snd entry))
                <$> fetchLoop web remaining id consecutive newPolls).
Proof.
  induction remaining as [|n IH]; intros id c acc Hlo Hacc Hnd.
  - simpl. split; [|done].
    eapply Forall_impl; [exact Hacc|]. intros e (i & Hi & Hu). exists i.
    split; [lia | done].
  - assert (Forall (fun entry => exists i, lo <= i < id + Z.of_nat (S n)
                                  /\ url (snd entry) = pollUrlOf i) acc) as Hweak.
    { eapply Forall_impl; [exact Hacc|]. intros e (i & Hi & Hu). exists i.
      split; [lia | done]. }
    assert (Forall (fun entry => exists i, lo <= i < id + 1
                                  /\ url (snd entry) = pollUrlOf i) acc) as Hnext.
    { eapply Forall_impl; [exact Hacc|]. intros e (i & Hi & Hu). exists i.
      split; [lia | done]. }
    simpl fetchLoop.
    destruct (c <? maxConsecutiveNonExistent)%nat; [|done].
    replace (id + Z.of_nat (S n)) with (id + 1 + Z.of_nat n) by lia.
    destruct (fetchPollDetails web (pollUrlOf id)) as [details|] eqn:Hf;
      [|apply IH; [lia | done | done]].
    destruct (acceptPoll details) as [entry|] eqn:Ha; simpl;
      [|rewrite app_nil_r; apply IH; [lia | done | done]].
    pose proof (fetched_entry_url _ _ _ _ Hf Ha) as Hu.
    apply IH; [lia| |].
    + apply Forall_app. split; [done|]. constructor; [|constructor].
      exists id. split; [lia | done].
    + rewrite fmap_app. apply NoDup_app. split; [done|].
      split; [|apply NoDup_singleton].
      intros u Hin Hin'. simpl in Hin'. apply list_elem_of_singleton in Hin'. subst u.
      apply list_elem_of_fmap in Hin as (e & He & Hin).
      rewrite Forall_forall in Hacc.
      destruct (Hacc e Hin) as (i & Hi & Hui).
      rewrite Hu, Hui in He. apply pollUrlOf_inj in He. lia.
Qed.

(** X5. The urls of a fetched batch are the urls of ids between [startId]
    and [startId + maxChecks], and no url is there twice. *)
Theorem fetched_urls_distinct (web : Web) (startId maxChecks : Z) :
  Forall (fun entry =>
            exists id, startId <= id <= startId + maxChecks
                       /\ url (snd entry) = pollUrlOf id)
         (fetchNewPolls web startId maxChecks)
  /\ NoDup ((fun entry => url (snd entry))
              <$> fetchNewPolls web startId maxChecks).
Proof.
  unfold fetchNewPolls.
  destruct (fetchLoop_urls web startId (Z.to_nat (maxChecks + 1)) startId O [])
    as [Hall Hnd]; [lia | constructor | constructor |].
  split; [|done].
  eapply Forall_impl; [exact Hall|]. intros e (i & Hi & Hu). exists i.
  split; [lia | done].
Qed.

(** Thirty ids in a row without a page end the scan. *)
Lemma fetchLoop_stops (web : Web) (remaining : nat) :
  forall (id : Z) (consecutive : nat) (newPolls : list (Z * Poll)),
    (forall i, id <= i < id + (30 - Z.of_nat consecutive) ->
               fetchPollDetails web (pollUrlOf i) = None) ->
    fetchLoop web remaining id consecutive newPolls = newPolls.
Proof.
  induction remaining as [|n IH]; intros id c acc Hmiss; [done|].
  simpl. unfold maxConsecutiveNonExistent.
  destruct (Nat.ltb_spec c 30) as [Hc|]; [|done].
  rewrite (Hmiss id ltac:(lia)).
  apply IH. intros i Hi. apply Hmiss. lia.
Qed.

Lemma fetchLoop_truncate (web : Web) (n1 : nat) :
  forall (n2 : nat) (id : Z) (consecutive : nat) (newPolls : list (Z * Poll)),
    (n1 <= n2)%nat ->
    (forall i, id + Z.of_nat n1 <= i < id + Z.of_nat n1 + 30 ->
               fetchPollDetails web (pollUrlOf i) = None) ->
    fetchLoop web n2 id consecutive newPolls
    = fetchLoop web n1 id consecutive newPolls.
Proof.
  induction n1 as [|n1 IH]; intros n2 id c acc Hle Hmiss.
  - simpl. apply fetchLoop_stops. intros i Hi. apply Hmiss. lia.
  - destruct n2 as [|n2]; [lia|]. simpl.
    destruct (c <? maxConsecutiveNonExistent)%nat; [|done].
    destruct (fetchPollDetails web (pollUrlOf id)) as [details|].
    + apply IH; [lia|]. intros i Hi. apply Hmiss. lia.
    + apply IH; [lia|]. intros i Hi. apply Hmiss. lia.
Qed.

(** X6. Once thirty ids in a row gave no page, a larger budget changes
    nothing: the scan never looks past a gap of thirty. *)
Theorem scan_stops_after_thirty_misses (web : Web) (startId m1 m2 : Z) :
  -1 <= m1 <= m2 ->
  (forall id, startId + m1 < id <= startId + m1 + 30 ->
              fetchPollDetails web (pollUrlOf id) = None) ->
  fetchNewPolls web startId m2 = fetchNewPolls web startId m1.
Proof.
  intros Hm Hmiss. unfold fetchNewPolls.
  apply fetchLoop_truncate; [lia|].
  intros i Hi. apply Hmiss. lia.
Qed.

Lemma sampleWeb_other (id : Z) :
  id <> 5200 -> id <> 5201 -> fetchPollDetails sampleWeb (pollUrlOf id) = None.
Proof.
  intros H0 H1. unfold fetchPollDetails, sampleWeb.
  destruct (String.eqb_spec (pollUrlOf id) url5200) as [He|_].
  { change url5200 with (pollUrlOf 5200) in He. by apply pollUrlOf_inj in He. }
  destruct (String.eqb_spec (pollUrlOf id) url5201) as [He|_]; [|done].
  change url5201 with (pollUrlOf 5201) in He. by apply pollUrlOf_inj in He.
Qed.

Lemma scan_stops_after_thirty_misses_witness :
  fetchNewPolls sampleWeb 5200 100 = fetchNewPolls sampleWeb 5200 1.
Proof.
  apply (scan_stops_after_thirty_misses sampleWeb 5200 1 100); [lia|].
  intros id Hid. apply sampleWeb_other; lia.
Defined.

(** *** [findHighestPollId] and [run] *)

Lemma highest_fold (l : list Poll) (h : Z) :
  let r := fold_left
             (fun highestId poll =>
                match pollId poll with
                | Some id => if highestId <? id then id else highestId
                | None => highestId
                end) l h in
  h <= r
  /\ (forall poll id, poll ∈ l -> pollId poll = Some id -> id <= r)
  /\ (r = h \/ exists poll, poll ∈ l /\ pollId poll = Some r).
Proof.
  revert h. induction l as [|p l IH]; intros h; simpl.
  - split; [lia|]. split; [|by left]. intros poll id Hin. by apply elem_of_nil in Hin.
  - set (h' := match pollId p with
               | Some id => if h <? id then id else h
               | None => h
               end).
    destruct (IH h') as (Hle & Hub & Hatt).
    assert (h <= h' /\ (forall id, pollId p = Some id -> id <= h')
            /\ (h' = h \/ pollId p = Some h')) as (Hh & Hp & Hcase).
    { unfold h'. destruct (pollId p) as [id|]; [|by repeat split; [lia| |left]].
      destruct (Z.ltb_spec h id).
      - split; [lia|]. split; [intros ? [= <-]; lia | by right].
      - split; [lia|]. split; [intros ? [= <-]; lia | by left]. }
    split; [lia|]. split.
    + intros poll id Hin Hid. apply elem_of_cons in Hin as [->|Hin].
      * specialize (Hp id Hid). lia.
      * by eapply Hub.
    + destruct Hatt as [Hr|(poll & Hin & Hid)].
      * destruct Hcase as [Hc|Hc].
        -- left. lia.
        -- right. exists p. split; [by left|]. by rewrite Hr.
      * right. exists poll. split; [by right | done].
Qed.

Lemma elem_of_all_polls (data : Dataset) (poll : Poll) :
  poll ∈ flat_map (fun e => polls (snd e)) (map_to_list data) <->
  exists year election, data !! year = Some election /\ poll ∈ polls election.
Proof.
  rewrite list_elem_of_In, in_flat_map. split.
  - intros ([year el] & Hin & Hp). exists year, el.
    apply list_elem_of_In, elem_of_map_to_list in Hin.
    split; [done|]. by apply list_elem_of_In.
  - intros (year & el & Hl & Hp). exists (year, el). split.
    + by apply list_elem_of_In, elem_of_map_to_list.
    + by apply list_elem_of_In.
Qed.

(** X7. On a data file whose gallupids are all below 2^53,
    [findHighestPollId] is an upper bound of the gallupid of every poll, is
    never negative and below 2^53, and is 0 or the gallupid of one of the
    polls. *)
Theorem highest_poll_id_is_maximum (existingData : Dataset) :
  exactIds existingData = true ->
  0 <= findHighestPollId existingData < 2 ^ 53
  /\ (forall year election poll id,
        existingData !! year = Some election ->
        poll ∈ polls election ->
        pollId poll = Some id ->
        id <= findHighestPollId existingData)
  /\ (findHighestPollId existingData = 0
      \/ exists year election poll,
           existingData !! year = Some election
           /\ poll ∈ polls election
           /\ pollId poll = Some (findHighestPollId existingData)).
Proof.
  intros Hexact. unfold findHighestPollId.
  destruct (highest_fold
              (flat_map (fun e => polls (snd e)) (map_to_list existingData)) 0)
    as (Hle & Hub & Hatt).
  split; [|split].
  - split; [done|]. destruct Hatt as [->|(poll & Hin & Hid)]; [lia|].
    unfold exactIds in Hexact. rewrite forallb_forall in Hexact.
    specialize (Hexact poll (proj1 (list_elem_of_In _ _) Hin)).
    rewrite Hid in Hexact. lia.
  - intros year el poll id Hl Hin Hid. eapply Hub; [|done].
    apply elem_of_all_polls. by exists year, el.
  - destruct Hatt as [Hr|(poll & Hin & Hid)]; [by left|].
    right. apply elem_of_all_polls in Hin as (year & el & Hl & Hin).
    by exists year, el, poll.
Qed.

Lemma highest_poll_id_is_maximum_witness :
  exactIds sampleData = true
  /\ 0 <= findHighestPollId sampleData < 2 ^ 53
  /\ (forall year election poll id,
        sampleData !! year = Some election ->
        poll ∈ polls election ->
        pollId poll = Some id ->
        id <= findHighestPollId sampleData)
  /\ (findHighestPollId sampleData = 0
      \/ exists year election poll,
           sampleData !! year = Some election
           /\ poll ∈ polls election
           /\ pollId poll = Some (findHighestPollId sampleData)).
Proof.
  split; [vm_compute; reflexivity|].
  apply (highest_poll_id_is_maximum sampleData). vm_compute. reflexivity.
Defined.

Lemma mergeNewPolls_saved (data saved : Dataset) (newPolls : list (Z * Poll))
    (n : nat) :
  mergeNewPolls data newPolls = Saved saved n ->
  exists d1, addPolls (data, O) newPolls = Some (d1, n)
             /\ saved = sortPolls <$> d1.
Proof.
  intros H. destruct newPolls as [|entry rest]; [done|].
  rewrite mergeNewPolls_cons in H.
  destruct (addPolls _ _) as [[d1 n1]|]; [|done].
  destruct (0 <? n1)%nat; [|done]. injection H as <- <-. by exists d1.
Qed.

(** X8. [run] either writes nothing or writes the data file once, and then
    with every cycle in order of date and with everything the file held
    before; without a readable data file it writes nothing. *)
Theorem run_writes_sorted_superset (web : Web) (fs : Fs.state) :
  (run web fs = []
   \/ exists saved,
        run web fs = [Fs.WriteFileSync dataFile saved]
        /\ cycles_sorted saved
        /\ kept_in (loadExistingData fs) saved)
  /\ ((forall d, fs !! dataFile <> Some (Fs.Whole d)) -> run web fs = []).
Proof.
  split.
  - unfold run. destruct (_ =? 0); [by left|].
    destruct (mergeNewPolls _ _) as [|saved n| |] eqn:Hout; try by left.
    right. exists saved. split; [done|].
    apply mergeNewPolls_saved in Hout as (d1 & Ha & ->).
    split; [apply cycles_sorted_after_sort|].
    eapply kept_in_trans; [by eapply addPolls_kept | apply sortPolls_kept].
  - intros Hno. unfold run, loadExistingData.
    destruct (fs !! dataFile) as [[d|d k]|] eqn:Hl; try done.
    by destruct (Hno d).
Qed.

End UpdaterFacts.


(** ** fix-poll-classification.js: the pass and the national-only export *)

Section FixerFacts.
Import PollClassificationFixer.

Lemma filter_all {A : Type} (f : A -> bool) (l : list A) :
  List.filter f (List.filter f l) = List.filter f l.
Proof.
  induction l as [|a l IH]; simpl; [done|].
  destruct (f a) eqn:Hf; simpl; [|done]. by rewrite Hf, IH.
Qed.

Lemma filter_ascending {A : Type} (key : A -> Z) (f : A -> bool) (l : list A) :
  ascending key l -> ascending key (List.filter f l).
Proof.
  induction l as [|a l IH]; simpl; [done|].
  intros Hl. apply ascending_cons in Hl as [Hall Hl].
  destruct (f a); [|by apply IH].
  apply ascending_cons. split; [|by apply IH].
  rewrite Forall_forall in Hall |- *. intros b Hb. apply Hall.
  apply list_elem_of_In, filter_In in Hb as [Hb _]. by apply list_elem_of_In.
Qed.

Lemma nationalOnly_lookup (data : Dataset) (year : Z) :
  nationalOnly data !! year =
  data !! year ≫= fun election =>
    let nationalPolls :=
      List.filter (fun poll => bool_decide (scope poll = Some national))
                  (polls election) in
    if (0 <? length nationalPolls)%nat
    then Some {| electionDate := electionDate election;
                 polls := nationalPolls;
                 actualResult := actualResult election |}
    else None.
Proof. unfold nationalOnly. apply lookup_omap. Qed.

Lemma national_only_export_gen (data : Dataset) (year : Z) (exported : Election) :
  nationalOnly data !! year = Some exported ->
  exists election,
    data !! year = Some election
    /\ (forall poll, poll ∈ polls exported <->
                     poll ∈ polls election /\ scope poll = Some national).
Proof.
  rewrite nationalOnly_lookup. intros H.
  destruct (data !! year) as [el|]; [|done]. simpl in H.
  exists el. split; [done|].
  destruct (0 <? _)%nat; [|done]. injection H as <-. simpl.
  intros poll. rewrite list_elem_of_In, filter_In, bool_decide_eq_true.
  by rewrite <- list_elem_of_In.
Qed.

(** X9. The national-only export: an election is there exactly when it has
    a national poll; it keeps its date and result; its polls are the national
    ones, in the order they had; nothing else is there. *)
Theorem national_only_export (data : Dataset) (year : Z) :
  (forall exported,
     nationalOnly data !! year = Some exported ->
     exists election,
       data !! year = Some election
       /\ electionDate exported = electionDate election
       /\ actualResult exported = actualResult election
       /\ polls exported `sublist_of` polls election
       /\ polls exported <> []
       /\ (forall poll, poll ∈ polls exported <->
                        poll ∈ polls election /\ scope poll = Some national))
  /\ (nationalOnly data !! year = None ->
      forall election,
        data !! year = Some election ->
        Forall (fun poll => scope poll <> Some national) (polls election)).
Proof.
  rewrite nationalOnly_lookup. split.
  - intros exported H. destruct (data !! year) as [el|]; [|done].
    simpl in H. exists el. split; [done|].
    destruct (Nat.ltb_spec 0 (length (List.filter
               (fun poll => bool_decide (scope poll = Some national))
               (polls el)))) as [Hpos|]; [|done].
    injection H as <-. simpl. repeat split.
    + clear. induction (polls el) as [|p l IH]; simpl; [done|].
      destruct (bool_decide _); by constructor.
    + intros Hnil. rewrite Hnil in Hpos. simpl in Hpos. lia.
    + by apply list_elem_of_In, filter_In in H as [H _]; apply list_elem_of_In.
    + apply list_elem_of_In, filter_In in H as [_ H].
      by apply bool_decide_eq_true in H.
    + intros [Hin Hs]. apply list_elem_of_In, filter_In.
      split; [by apply list_elem_of_In | by apply bool_decide_eq_true].
  - intros H el Hl. rewrite Hl in H. simpl in H.
    destruct (Nat.ltb_spec 0 (length (List.filter
               (fun poll => bool_decide (scope poll = Some national))
               (polls el)))) as [|Hzero]; [done|].
    apply Forall_forall. intros p Hp Hs.
    assert (In p (List.filter
                    (fun poll => bool_decide (scope poll = Some national))
                    (polls el))) as Hin.
    { apply filter_In. split; [by apply list_elem_of_In|].
      by apply bool_decide_eq_true. }
    destruct (List.filter _ (polls el)); [done | simpl in Hzero; lia].
Qed.

(** X10. Exporting the export gives the export again, and an export of a
    data file in order of date is in order of date. *)
Theorem national_only_idempotent_and_sorted (data : Dataset) :
  nationalOnly (nationalOnly data) = nationalOnly data
  /\ (cycles_sorted data -> cycles_sorted (nationalOnly data)).
Proof.
  split.
  - apply map_eq. intros year. rewrite !nationalOnly_lookup.
    destruct (data !! year) as [el|]; [|done]. simpl.
    destruct (0 <? length (List.filter _ (polls el)))%nat eqn:Hpos; [|done].
    simpl. by rewrite filter_all, Hpos.
  - intros Hs year el Hl. rewrite nationalOnly_lookup in Hl.
    destruct (data !! year) as [e|] eqn:He; [|done]. simpl in Hl.
    destruct (0 <? _)%nat; [|done]. injection Hl as <-. simpl.
    apply filter_ascending. exact (Hs year e He).
Qed.

Lemma fixPoll_unclassified (web : Web) (poll : Poll) :
  unclassified (fixPoll web poll) = unclassified poll.
Proof. unfold fixPoll. by destruct (scope poll) as [[| |]|]. Qed.

Lemma fixPoll_idempotent (web : Web) (poll : Poll) :
  fixPoll web (fixPoll web poll) = fixPoll web poll.
Proof.
  destruct (decide (scope poll = Some national)) as [Hs|Hs].
  - assert (fixPoll web poll =
            {| date := date poll; mdgPercentage := mdgPercentage poll;
               pollster := pollster poll;
               daysUntilElection := daysUntilElection poll;
               rssTitle := rssTitle poll; url := url poll;
               scope := Some (fst (analyzePollScope web (url poll)));
               region := match snd (analyzePollScope web (url poll)) with
                         | Some r => if Str.truthy r then Some r else None
                         | None => None
                         end |}) as E.
    { unfold fixPoll. by rewrite Hs. }
    destruct (analyzePollScope web (url poll)) as [sc r] eqn:Ha.
    destruct (decide (sc = national)) as [->|Hne].
    + rewrite E. unfold fixPoll. simpl. by rewrite Ha.
    + apply fixPoll_other. rewrite E. simpl. congruence.
  - rewrite (fixPoll_other web poll Hs). by apply fixPoll_other.
Qed.

(** X11. Re-classification touches scope and region only: every election
    keeps its date, its result and, poll by poll and in the same order, everything
    else; so the cycles stay in order of date and the urls stay unique.  A
    second pass over the same pages changes nothing. *)
Theorem reclassification_frame (web : Web) (data : Dataset) :
  (forall year,
     ((fun e => (electionDate e, actualResult e, unclassified <$> polls e))
        <$> fixExistingClassification web data !! year)
     = ((fun e => (electionDate e, actualResult e, unclassified <$> polls e))
          <$> data !! year))
  /\ (cycles_sorted data -> cycles_sorted (fixExistingClassification web data))
  /\ (urls_unique data -> urls_unique (fixExistingClassification web data))
  /\ fixExistingClassification web (fixExistingClassification web data)
     = fixExistingClassification web data.
Proof.
  assert (Hun : forall l : list Poll,
             unclassified <$> (fixPoll web <$> l) = unclassified <$> l).
  { intros l. rewrite <- list_fmap_compose. apply list_fmap_ext.
    intros i p _. apply fixPoll_unclassified. }
  assert (Hdate : forall l : list Poll,
             ascending date l -> ascending date (fixPoll web <$> l)).
  { intros l Hl i j a b Hij Ha Hb.
    rewrite list_lookup_fmap in Ha, Hb.
    destruct (l !! i) as [a0|] eqn:Hi; [|done].
    destruct (l !! j) as [b0|] eqn:Hj; [|done].
    injection Ha as <-. injection Hb as <-.
    pose proof (fixPoll_unclassified web a0) as Ea.
    pose proof (fixPoll_unclassified web b0) as Eb.
    unfold unclassified in Ea, Eb.
    injection Ea as -> _ _ _ _ _. injection Eb as -> _ _ _ _ _.
    by apply (Hl i j). }
  assert (Hurl : forall l : list Poll,
             url <$> (fixPoll web <$> l) = url <$> l).
  { intros l. rewrite <- list_fmap_compose. apply list_fmap_ext.
    intros i p _. simpl.
    pose proof (fixPoll_unclassified web p) as E. unfold unclassified in E.
    by injection E. }
  split; [|split; [|split]].
  - intros year. rewrite fixExistingClassification_lookup.
    destruct (data !! year) as [el|]; [|done]. simpl. by rewrite Hun.
  - intros Hs year el Hl. rewrite fixExistingClassification_lookup in Hl.
    destruct (data !! year) as [e|] eqn:He; [|done].
    injection Hl as <-. simpl. apply Hdate. exact (Hs year e He).
  - intros Hu year el Hl. rewrite fixExistingClassification_lookup in Hl.
    destruct (data !! year) as [e|] eqn:He; [|done].
    injection Hl as <-. simpl. rewrite Hurl. exact (Hu year e He).
  - apply map_eq. intros year. rewrite !fixExistingClassification_lookup.
    destruct (data !! year) as [el|]; [|done]. simpl. f_equal. f_equal.
    rewrite <- list_fmap_compose. apply list_fmap_ext.
    intros i p _. apply fixPoll_idempotent.
Qed.

(** X12. What [run] of the fixer exports: a poll is in the national-only
    data after the pass only if it was stored as national and the free text
    of its page says national too. *)
Theorem exported_after_pass_is_confirmed (web : Web) (data : Dataset)
    (year : Z) (exported : Election) (poll : Poll) :
  nationalOnly (fixExistingClassification web data) !! year = Some exported ->
  poll ∈ polls exported ->
  fst (analyzePollScope web (url poll)) = national
  /\ exists election stored,
       data !! year = Some election
       /\ stored ∈ polls election
       /\ scope stored = Some national
       /\ poll = fixPoll web stored.
Proof.
  intros Hl Hin.
  destruct (national_only_export_gen (fixExistingClassification web data)
              year exported Hl) as (el' & Hl' & Hmem).
  destruct (proj1 (Hmem poll) Hin) as [Hin' Hs]. clear Hmem Hin.
  rewrite fixExistingClassification_lookup in Hl'.
  destruct (data !! year) as [el|] eqn:He; [|done].
  injection Hl' as Heq. rewrite <- Heq in Hin'. simpl in Hin'.
  apply list_elem_of_fmap in Hin' as (stored & -> & Hin).
  destruct (decide (scope stored = Some national)) as [Hst|Hst].
  - split.
    + unfold fixPoll in Hs |- *. rewrite Hst in Hs |- *. simpl in *. congruence.
    + by exists el, stored.
  - rewrite fixPoll_other in Hs by done. done.
Qed.

Lemma exported_after_pass_is_confirmed_witness :
  fst (analyzePollScope confirmedWeb (url stored5202)) = national
  /\ exists election stored,
       confirmedData !! 2021 = Some election
       /\ stored ∈ polls election
       /\ scope stored = Some national
       /\ stored5202 = fixPoll confirmedWeb stored.
Proof.
  apply (exported_after_pass_is_confirmed confirmedWeb confirmedData 2021
           {| electionDate := 18883; polls := [stored5202];
              actualResult := Some 3.9%float |} stored5202).
  - vm_compute. reflexivity.
  - simpl. by left.
Defined.

End FixerFacts.


(** ** calculateRollingAverage: where its points lie *)

Section SmootherShape.
Context {poll num : Type}.
Variable daysOf : poll -> Z.
Variable pctOf : poll -> num.
Variable zero : num.
Variable add div : num -> num -> num.
Variable of_nat : nat -> num.

Lemma fold_min_spec (l : list Z) (d : Z) :
  fold_left Z.min l d ∈ d :: l /\ Forall (fun k => fold_left Z.min l d <= k) (d :: l).
Proof.
  revert d. induction l as [|a l IH]; intros d; simpl.
  - split; [by left | by repeat constructor].
  - destruct (IH (Z.min d a)) as [Hin Hall]. split.
    + apply elem_of_cons in Hin as [Hm|Hin].
      * rewrite Hm. destruct (Z.min_spec d a) as [[_ ->]|[_ ->]];
          [by left | by right; left].
      * by right; right.
    + inversion Hall as [|? ? Hhd Htl]; subst.
      constructor; [lia|]. constructor; [lia | done].
Qed.

Lemma fold_max_spec (l : list Z) (d : Z) :
  fold_left Z.max l d ∈ d :: l /\ Forall (fun k => k <= fold_left Z.max l d) (d :: l).
Proof.
  revert d. induction l as [|a l IH]; intros d; simpl.
  - split; [by left | by repeat constructor].
  - destruct (IH (Z.max d a)) as [Hin Hall]. split.
    + apply elem_of_cons in Hin as [Hm|Hin].
      * rewrite Hm. destruct (Z.max_spec d a) as [[_ ->]|[_ ->]];
          [by right; left | by left].
      * by right; right.
    + inversion Hall as [|? ? Hhd Htl]; subst.
      constructor; [lia|]. constructor; [lia | done].
Qed.

Lemma StronglySorted_weaken {A : Type} (R R' : A -> A -> Prop) (l : list A) :
  (forall a b, R a b -> R' a b) -> StronglySorted R l -> StronglySorted R' l.
Proof.
  intros HR. induction 1 as [|a l _ IH Hall]; constructor; [done|].
  eapply Forall_impl; [exact Hall|]. apply HR.
Qed.

(** The loop makes at most one point per step between [day] and [maxDays],
    all of them at least [step] apart and inside that range. *)
Lemma averagesFrom_shape (fuel : nat) (sortedPolls : list poll)
    (windowDays : float) (maxDays step : Z) :
  1 <= step ->
  forall day,
    let out := averagesFrom daysOf pctOf zero add div of_nat fuel sortedPolls
                            windowDays maxDays step day in
    Forall (fun pt => day <= x pt <= maxDays) out
    /\ StronglySorted (fun a b => x a + step <= x b) out
    /\ (day <= maxDays -> Z.of_nat (length out) <= (maxDays - day) / step + 1)
    /\ (maxDays < day -> out = []).
Proof.
  intros Hstep. induction fuel as [|fuel IH]; intros day; simpl.
  - repeat split; try constructor. intros Hd.
    assert (0 <= (maxDays - day) / step) by (apply Z.div_pos; lia). lia.
  - destruct (Z.leb_spec day maxDays) as [Hd|Hd];
      [|repeat split; try constructor; lia].
    destruct (IH (day + step)) as (Hrange & Hsorted & Hlen & Hempty).
    assert (Z.of_nat (length
              (averagesFrom daysOf pctOf zero add div of_nat fuel sortedPolls
                            windowDays maxDays step (day + step)))
            <= (maxDays - day) / step) as Hrest.
    { destruct (Z.le_gt_cases (day + step) maxDays) as [Hle|Hgt].
      - specialize (Hlen Hle).
        replace (maxDays - (day + step)) with ((maxDays - day) + (-1) * step)
          in Hlen by lia.
        rewrite Z.div_add in Hlen by lia. lia.
      - rewrite (Hempty ltac:(lia)). simpl. apply Z.div_pos; lia. }
    assert (Forall (fun pt => day <= x pt <= maxDays)
              (averagesFrom daysOf pctOf zero add div of_nat fuel sortedPolls
                            windowDays maxDays step (day + step))) as Hrange'.
    { eapply Forall_impl; [exact Hrange|]. simpl. intros; lia. }
    destruct (0 <? length _)%nat.
    + repeat split.
      * constructor; [simpl; lia | done].
      * constructor; [done|].
        eapply Forall_impl; [exact Hrange|]. simpl. intros; lia.
      * intros _. simpl length. lia.
      * lia.
    + repeat split; try done.
      * intros _. lia.
      * lia.
Qed.

Lemma sorted_days_nonempty (polls : list poll) :
  (2 <= length polls)%nat ->
  exists d ds, daysOf <$> sort_by daysOf polls = d :: ds.
Proof.
  intros Hlen.
  destruct (daysOf <$> sort_by daysOf polls) as [|d ds] eqn:E; [|by eauto].
  apply (f_equal length) in E. rewrite length_fmap in E.
  rewrite (Permutation_length (sort_by_perm daysOf polls)) in E.
  simpl in E. lia.
Qed.

(** X13. The output never has more than 134 points; its points lie at
    least three days apart, in ascending order, each on a day between the smallest
    and the largest [daysUntilElection] of the input. *)
Theorem smoother_points_bounded (polls : list poll) (windowDays : float) :
  (length (calculateRollingAverage daysOf pctOf zero add div of_nat
                                   polls windowDays) <= 134)%nat
  /\ StronglySorted (fun a b => x a + 3 <= x b)
       (calculateRollingAverage daysOf pctOf zero add div of_nat
                                polls windowDays)
  /\ Forall (fun pt =>
               (exists p, p ∈ polls /\ daysOf p <= x pt)
               /\ (exists p, p ∈ polls /\ x pt <= daysOf p))
            (calculateRollingAverage daysOf pctOf zero add div of_nat
                                     polls windowDays).
Proof.
  unfold calculateRollingAverage.
  destruct (Nat.ltb_spec (length polls) 2) as [|Hlen];
    [repeat split; try constructor; simpl; lia|].
  destruct (sorted_days_nonempty polls Hlen) as (d & ds & Hds).
  rewrite Hds. simpl minOf. simpl maxOf.
  destruct (fold_min_spec ds d) as [Hmin_in Hmin].
  destruct (fold_max_spec ds d) as [Hmax_in Hmax].
  set (minDays := fold_left Z.min ds d) in *.
  set (maxDays := fold_left Z.max ds d) in *.
  assert (minDays <= maxDays) as Hmm.
  { inversion Hmin; subst. inversion Hmax; subst. lia. }
  set (step := Z.max 3 ((maxDays - minDays) / 100)).
  assert (3 <= step) as Hstep by (unfold step; lia).
  destruct (averagesFrom_shape (Z.to_nat (maxDays - minDays + 1))
              (sort_by daysOf polls) windowDays maxDays step ltac:(lia) minDays)
    as (Hrange & Hsorted & Hlength & _).
  split; [|split].
  - specialize (Hlength Hmm).
    assert ((maxDays - minDays) / step < 134); [|lia].
    apply Z.div_lt_upper_bound; [lia|].
    pose proof (Z.mul_div_le (maxDays - minDays) 100 ltac:(lia)).
    pose proof (Z.mul_succ_div_gt (maxDays - minDays) 100 ltac:(lia)).
    unfold step. lia.
  - eapply StronglySorted_weaken; [|exact Hsorted]. simpl. intros; lia.
  - assert (forall k, k ∈ d :: ds -> exists p, p ∈ polls /\ daysOf p = k) as Hkey.
    { intros k Hk. rewrite <- Hds in Hk.
      apply list_elem_of_fmap in Hk as (p & -> & Hp).
      exists p. split; [|done]. by rewrite <- (sort_by_perm daysOf polls). }
    destruct (Hkey _ Hmin_in) as (pmin & Hpmin & Emin).
    destruct (Hkey _ Hmax_in) as (pmax & Hpmax & Emax).
    eapply Forall_impl; [exact Hrange|]. simpl. intros pt Hpt. split.
    + exists pmin. split; [done | lia].
    + exists pmax. split; [done | lia].
Qed.

Lemma omap_fmap_list {A B C : Type} (f : B -> option C) (g : A -> B)
    (l : list A) :
  omap f (g <$> l) = omap (fun a => f (g a)) l.
Proof.
  induction l as [|a l IH]; [done|].
  rewrite fmap_cons. cbn [omap list_omap]. by rewrite IH.
Qed.

Lemma omap_ext_list {A B : Type} (f g : A -> option B) (l : list A) :
  (forall a, f a = g a) -> omap f l = omap g l.
Proof.
  intros Hfg. induction l as [|a l IH]; [done|].
  cbn [omap list_omap]. by rewrite Hfg, IH.
Qed.

(** The loop visits the days [day], [day + step], [day + 2 step], ... up
    to [maxDays], and makes a point on each of them whose window holds a
    sample. *)
Lemma averagesFrom_grid (sortedPolls : list poll) (windowDays : float)
    (maxDays step : Z) (fuel : nat) :
  1 <= step ->
  forall day,
    (Z.to_nat (maxDays - day + 1) <= fuel)%nat ->
    averagesFrom daysOf pctOf zero add div of_nat fuel sortedPolls windowDays
                 maxDays step day
    = omap (pointOn daysOf pctOf zero add div of_nat sortedPolls windowDays
                    day step)
           (seqZ 0 ((maxDays - day) / step + 1)).
Proof.
  intros Hstep. induction fuel as [|fuel IH]; intros day Hfuel.
  - rewrite seqZ_nil; [done|].
    assert ((maxDays - day) / step < 0); [|lia].
    apply Z.div_lt_upper_bound; lia.
  - cbn [averagesFrom]. destruct (Z.leb_spec day maxDays) as [Hd|Hd].
    + rewrite (IH (day + step)) by lia.
      replace ((maxDays - day) / step + 1)
        with (((maxDays - (day + step)) / step + 1) + 1).
      2:{ replace (maxDays - day) with ((maxDays - (day + step)) + 1 * step)
            by lia.
          rewrite Z.div_add by lia. lia. }
      assert (0 <= (maxDays - (day + step)) / step + 1) as Hn.
      { assert (-1 <= (maxDays - (day + step)) / step); [|lia].
        apply Z.div_le_lower_bound; lia. }
      rewrite (seqZ_cons 0 ((maxDays - (day + step)) / step + 1 + 1)) by lia.
      replace (Z.pred ((maxDays - (day + step)) / step + 1 + 1))
        with ((maxDays - (day + step)) / step + 1) by lia.
      change (Z.succ 0) with (1 + 0). rewrite <- fmap_add_seqZ.
      cbn [omap list_omap]. rewrite omap_fmap_list.
      assert (forall k,
                pointOn daysOf pctOf zero add div of_nat sortedPolls windowDays
                        day step (1 + k)
                = pointOn daysOf pctOf zero add div of_nat sortedPolls
                          windowDays (day + step) step k) as Hshift.
      { intros k. unfold pointOn.
        by replace (day + (1 + k) * step) with (day + step + k * step) by lia. }
      rewrite (omap_ext_list
                 (fun k => pointOn daysOf pctOf zero add div of_nat sortedPolls
                                   windowDays day step (1 + k))
                 (pointOn daysOf pctOf zero add div of_nat sortedPolls
                          windowDays (day + step) step)) by exact Hshift.
      assert (pointOn daysOf pctOf zero add div of_nat sortedPolls windowDays
                      day step 0
              = if (0 <? length (List.filter (inWindow daysOf windowDays day)
                                             sortedPolls))%nat
                then Some {| x := day;
                             y := average pctOf zero add div of_nat
                                    (List.filter (inWindow daysOf windowDays day)
                                                 sortedPolls) |}
                else None) as ->.
      { unfold pointOn. by replace (day + 0 * step) with day by lia. }
      by destruct (0 <? length _)%nat.
    + rewrite seqZ_nil; [done|].
      assert ((maxDays - day) / step < 0); [|lia].
      apply Z.div_lt_upper_bound; lia.
Qed.

(** X14. With at least two samples the output is made on the days
    [minDays], [minDays + step], [minDays + 2 step], ... up to [maxDays],
    where [minDays] and [maxDays] are the smallest and the largest
    [daysUntilElection] of the input and [step] is a hundredth of their
    distance, rounded down, and at least 3: in that order, one point for
    each such day whose window holds a sample, its value the average of the
    samples in that window, and no point for the other days. *)
Theorem smoother_points_on_grid (polls : list poll) (windowDays : float) :
  (2 <= length polls)%nat ->
  exists minDays maxDays,
    (exists p, p ∈ polls /\ daysOf p = minDays)
    /\ Forall (fun p => minDays <= daysOf p) polls
    /\ (exists p, p ∈ polls /\ daysOf p = maxDays)
    /\ Forall (fun p => daysOf p <= maxDays) polls
    /\ calculateRollingAverage daysOf pctOf zero add div of_nat polls windowDays
       = omap (pointOn daysOf pctOf zero add div of_nat (sort_by daysOf polls)
                       windowDays minDays
                       (Z.max 3 ((maxDays - minDays) / 100)))
              (seqZ 0 ((maxDays - minDays)
                       / Z.max 3 ((maxDays - minDays) / 100) + 1)).
Proof.
  intros Hlen. unfold calculateRollingAverage.
  destruct (Nat.ltb_spec (length polls) 2) as [|_]; [lia|].
  destruct (sorted_days_nonempty polls Hlen) as (d & ds & Hds).
  rewrite Hds. simpl minOf. simpl maxOf.
  destruct (fold_min_spec ds d) as [Hmin_in Hmin].
  destruct (fold_max_spec ds d) as [Hmax_in Hmax].
  set (minDays := fold_left Z.min ds d) in *.
  set (maxDays := fold_left Z.max ds d) in *.
  rewrite <- Hds in Hmin_in, Hmin, Hmax_in, Hmax.
  apply list_elem_of_fmap in Hmin_in as (pmin & Emin & Hpmin).
  apply list_elem_of_fmap in Hmax_in as (pmax & Emax & Hpmax).
  rewrite Forall_fmap in Hmin, Hmax.
  rewrite (sort_by_perm daysOf polls) in Hmin, Hmax, Hpmin, Hpmax.
  exists minDays, maxDays. repeat split.
  - by exists pmin.
  - exact Hmin.
  - by exists pmax.
  - exact Hmax.
  - apply averagesFrom_grid; lia.
Qed.

End SmootherShape.

Lemma smoother_points_on_grid_witness :
  exists minDays maxDays,
    (exists p, p ∈ flatPolls /\ daysUntilElection p = minDays)
    /\ Forall (fun p => minDays <= daysUntilElection p) flatPolls
    /\ (exists p, p ∈ flatPolls /\ daysUntilElection p = maxDays)
    /\ Forall (fun p => daysUntilElection p <= maxDays) flatPolls
    /\ calculateRollingAverage_js flatPolls 7%float
       = omap (pointOn daysUntilElection mdgPercentage 0%float PrimFloat.add
                       PrimFloat.div (fun n => Num.of_Z (Z.of_nat n))
                       (sort_by daysUntilElection flatPolls)
                       7%float minDays
                       (Z.max 3 ((maxDays - minDays) / 100)))
              (seqZ 0 ((maxDays - minDays)
                       / Z.max 3 ((maxDays - minDays) / 100) + 1)).
Proof.
  apply (smoother_points_on_grid daysUntilElection mdgPercentage 0%float
           PrimFloat.add PrimFloat.div (fun n => Num.of_Z (Z.of_nat n))
           flatPolls 7%float).
  simpl. lia.
Defined.

(** Three polls 0, 14 and 21 days before the election, window of two days:
    the grid has the days 0, 3, 6, ..., 21 and only the days 0, 15 and 21
    have a sample in their window.  A window of -1e-20 days is lost in the
    rounding of the bounds: the point on day 10 is made. *)
Example smoother_grid_with_gaps :
  x <$> calculateRollingAverage_js
          [ samplePoll 18862 4.0%float "Norstat for NRK" 21 "5190" national;
            samplePoll 18869 5.0%float "Kantar for TV2" 14 "5191" national;
            samplePoll 18883 6.0%float "Opinion for Dagbladet" 0 "5192" national ]
          2%float
  = [0; 15; 21]
  /\ calculateRollingAverage_js flatPolls (-1e-20)%float
     = [ {| x := 10; y := 3.2%float |} ].
Proof. split; vm_compute; reflexivity. Qed.


(** ** poll-fetcher.js: the polls of the feed *)

Section FeedFacts.
Import PollFetcher.

Lemma processItem_record (web : Web) (electionDate : Z) (rssItem : RssItem)
    (poll : Poll) :
  processItem web electionDate rssItem = Some poll ->
  Str.includes "stortingsvalg" (title rssItem) = true
  /\ Str.includes "hele landet" (title rssItem) = true
  /\ is_Some (web (link rssItem))
  /\ url poll = link rssItem
  /\ rssTitle poll = Some (title rssItem)
  /\ 0 <= daysUntilElection poll <= 730
  /\ scope poll = None /\ region poll = None.
Proof.
  unfold processItem, fetchPollDetails. intros H.
  destruct (Str.includes "stortingsvalg" _); [|done].
  destruct (Str.includes "hele landet" _); [|done]. simpl in H.
  destruct (web (link rssItem)) as [page|]; [|done]. simpl in H.
  destruct (PollUpdater.extractPollDate page) as [[t|]|]; try done.
  destruct (PollUpdater.extractPercentage page) as [pct|]; [|done].
  destruct (Z.leb_spec 0 (calculateDaysUntilElection t electionDate)); [|done].
  destruct (Z.leb_spec (calculateDaysUntilElection t electionDate) 730);
    [|done].
  simpl in H. injection H as <-. simpl. repeat split; done.
Qed.

(** X15. The polls that [processPollsForElection] returns are in order of
    date;
    each comes from an item of the feed whose title names both
    "stortingsvalg" and "hele landet", has the item's link as url and its
    title as rss title, lies 0 to 730 days before the election, and has
    neither scope nor region; for a year without a date the result is
    empty. *)
Theorem feed_polls_well_formed (web : Web) (allPolls : list RssItem)
    (electionYear : Z) :
  ascending date (processPollsForElection web allPolls electionYear)
  /\ Forall (fun poll =>
               exists rssItem,
                 rssItem ∈ allPolls
                 /\ Str.includes "stortingsvalg" (title rssItem) = true
                 /\ Str.includes "hele landet" (title rssItem) = true
                 /\ is_Some (web (link rssItem))
                 /\ url poll = link rssItem
                 /\ rssTitle poll = Some (title rssItem)
                 /\ 0 <= daysUntilElection poll <= 730
                 /\ scope poll = None /\ region poll = None)
            (processPollsForElection web allPolls electionYear)
  /\ (electionDateOf electionYear = None ->
      processPollsForElection web allPolls electionYear = []).
Proof.
  unfold processPollsForElection.
  destruct (electionDateOf electionYear) as [e|]; [|by repeat split; try constructor; try apply ascending_nil].
  split; [apply sort_by_ascending|]. split; [|done].
  rewrite (sort_by_perm date). apply Forall_forall. intros poll Hin.
  apply list_elem_of_omap in Hin as (rssItem & Hitem & Hp).
  exists rssItem. split; [done|]. by apply (processItem_record web e).
Qed.

Lemma updateElection_lookup (web : Web) (rssItems : list RssItem)
    (data : Dataset) (electionYear y : Z) :
  updateElection web rssItems data electionYear !! y =
  if decide (y = electionYear) then
    match processPollsForElection web rssItems electionYear,
          electionDateOf electionYear with
    | _ :: _, Some electionDate =>
        Some {| electionDate := JSDate.isoDay electionDate;
                polls := processPollsForElection web rssItems electionYear;
                actualResult := None |}
    | _, _ => data !! y
    end
  else data !! y.
Proof.
  unfold updateElection.
  destruct (processPollsForElection web rssItems electionYear) as [|p l];
    simpl; [by destruct (decide (y = electionYear))|].
  destruct (electionDateOf electionYear) as [e|];
    [|by destruct (decide (y = electionYear))].
  destruct (decide (y = electionYear)) as [->|Hne].
  - by rewrite lookup_insert_eq.
  - by rewrite lookup_insert_ne.
Qed.

Lemma electionDateOf_later (year : Z) : 2025 < year -> electionDateOf year = None.
Proof.
  intros Hy. unfold electionDateOf, ELECTION_DATES. cbn [List.find fst].
  destruct (Z.eqb_spec 2011 year); [lia|].
  destruct (Z.eqb_spec 2013 year); [lia|].
  destruct (Z.eqb_spec 2017 year); [lia|].
  destruct (Z.eqb_spec 2021 year); [lia|].
  destruct (Z.eqb_spec 2025 year); [lia|]. done.
Qed.

Lemma nextElection_later (currentYear : Z) :
  2025 < currentYear -> 2025 < nextElection currentYear.
Proof.
  intros Hc. unfold nextElection.
  pose proof (Z.div_mod (- currentYear) 4 ltac:(lia)) as Hdm.
  pose proof (Z.mod_pos_bound (- currentYear) 4 ltac:(lia)) as Hb.
  lia.
Qed.

Lemma updateElection_later (web : Web) (rssItems : list RssItem)
    (data : Dataset) (year : Z) :
  2025 < year -> updateElection web rssItems data year = data.
Proof.
  intros Hy. unfold updateElection, processPollsForElection.
  by rewrite electionDateOf_later.
Qed.

(** X16. What [run] saves: a cycle other than 2021 and 2025 is as it was;
    so is
    one of these two when the feed gave no poll for it; when the feed gave
    polls, the cycle is replaced by them as a whole (the polls it held and
    its result are gone).  The year of the clock does not matter. *)
Theorem feed_run_replaces_cycles (web : Web) (rssItems : list RssItem)
    (currentYear : Z) (existingData : Dataset) (year : Z) :
  (year <> 2021 -> year <> 2025 ->
   updatedData web rssItems currentYear existingData !! year
   = existingData !! year)
  /\ (year = 2021 \/ year = 2025 ->
      processPollsForElection web rssItems year = [] ->
      updatedData web rssItems currentYear existingData !! year
      = existingData !! year)
  /\ (year = 2021 \/ year = 2025 ->
      processPollsForElection web rssItems year <> [] ->
      exists e,
        electionDateOf year = Some e
        /\ updatedData web rssItems currentYear existingData !! year
           = Some {| electionDate := JSDate.isoDay e;
                     polls := processPollsForElection web rssItems year;
                     actualResult := None |})
  /\ updatedData web rssItems currentYear existingData
     = updatedData web rssItems 2025 existingData.
Proof.
  assert (Hclock : updatedData web rssItems currentYear existingData
                   = updateElection web rssItems
                       (updateElection web rssItems existingData 2021) 2025).
  { unfold updatedData, electionYears.
    destruct (Z.ltb_spec 2025 currentYear); simpl; [|done].
    apply updateElection_later. by apply nextElection_later. }
  rewrite Hclock. repeat split.
  - intros H1 H5. rewrite !updateElection_lookup.
    by rewrite !decide_False.
  - intros Hy Hnil. rewrite !updateElection_lookup.
    destruct Hy as [-> | ->].
    + rewrite decide_False by done. rewrite decide_True by done.
      by rewrite Hnil.
    + rewrite decide_True by done. rewrite Hnil.
      by rewrite decide_False.
  - intros Hy Hne. rewrite !updateElection_lookup.
    destruct (processPollsForElection web rssItems year) as [|p l] eqn:Hp;
      [done|].
    assert (exists e, electionDateOf year = Some e) as [e He].
    { unfold processPollsForElection in Hp.
      destruct (electionDateOf year) as [e|]; [by exists e | done]. }
    exists e. split; [done|].
    destruct Hy as [-> | ->].
    + rewrite decide_False by done. rewrite decide_True by done.
      by rewrite Hp, He.
    + rewrite decide_True by done. by rewrite Hp, He.
Qed.

End FeedFacts.


(** ** What is read from a page *)

Section PageFacts.
Import PollUpdater.

Lemma extractScope_step (rows : list (list string)) (scope0 : Scope) :
  fold_left
    (fun scope cells =>
       match cells with
       | c0 :: c1 :: _ =>
           if bool_decide (Str.trim c0 = "Område") then
             if bool_decide (Str.trim c1 = "Hele landet") then national
             else regional
           else scope
       | _ => scope
       end) rows scope0
  = fold_left (fun scope cells =>
                 if areaRow cells then areaValue cells else scope) rows scope0.
Proof.
  revert scope0. induction rows as [|cells rows IH]; intros scope0; [done|].
  simpl. rewrite IH. f_equal.
  destruct cells as [|c0 [|c1 rest]]; try done.
Qed.

Lemma no_area_rows (rows : list (list string)) (scope0 : Scope) :
  Forall (fun cells => areaRow cells = false) rows ->
  fold_left (fun scope cells =>
               if areaRow cells then areaValue cells else scope) rows scope0
  = scope0.
Proof.
  intros Hall. revert scope0.
  induction Hall as [|cells rows Hc _ IH]; intros scope0; [done|].
  simpl. by rewrite Hc.
Qed.

Lemma areaValue_known (cells : list string) :
  areaRow cells = true -> areaValue cells <> unknown.
Proof.
  destruct cells as [|c0 [|c1 rest]]; try done. simpl. intros _.
  by destruct (bool_decide _).
Qed.

(** X17. The scope that [fetchPollDetails] reads is decided by the last row
    of the facts table that names the area: national when its value is
    "Hele landet", regional otherwise; it is unknown exactly when no row
    names the area. *)
Theorem scope_from_last_area_row (page : Page) :
  (forall before row after,
     factRows page = (before ++ row :: after)%list ->
     areaRow row = true ->
     Forall (fun cells => areaRow cells = false) after ->
     extractScope page = areaValue row)
  /\ (extractScope page = unknown <->
      Forall (fun cells => areaRow cells = false) (factRows page)).
Proof.
  unfold extractScope. rewrite extractScope_step. split.
  - intros before row after -> Hrow Hafter.
    rewrite fold_left_app. simpl. rewrite Hrow. by apply no_area_rows.
  - split; [|apply no_area_rows].
    generalize unknown at 1. induction (factRows page) as [|cells rows IH];
      intros scope0; [constructor|].
    simpl. destruct (areaRow cells) eqn:Hc.
    + intros Hu. exfalso.
      assert (forall s, s <> unknown ->
                fold_left (fun scope cells0 =>
                             if areaRow cells0 then areaValue cells0 else scope)
                          rows s <> unknown) as Hkeep.
      { clear. induction rows as [|r rows IHr]; intros s Hs; [done|].
        simpl. apply IHr. destruct (areaRow r) eqn:Hr; [|done].
        by apply areaValue_known. }
      by apply (Hkeep (areaValue cells) (areaValue_known cells Hc)).
    + intros Hu. constructor; [done|]. by apply (IH scope0).
Qed.

(** *** The pollster *)

Lemma run_without_comma (p : string) :
  Str.includes "," p = false -> run_of (Regex.bytes notComma) p.
Proof.
  induction p as [|c p IH]; [done|]. intros Hp.
  cbn [Str.includes Str.startsWith] in Hp.
  apply orb_false_iff in Hp as [Hc Hp]. rewrite andb_true_r in Hc.
  split; [|by apply IH].
  intros rest. unfold Regex.bytes, notComma. by rewrite Ascii.eqb_sym, Hc.
Qed.

Lemma extractPollster_prefix (page : Page) (c : ascii) (p suffix : string) :
  titleText page = String c p +:+ suffix ->
  Str.includes "," (String c p) = false ->
  Regex.bytes notComma suffix = O ->
  extractPollster page = Str.trim (String c p).
Proof.
  intros Ht Hp Hs. unfold extractPollster. rewrite Ht.
  change Regex.up_to_comma with [Regex.group (Regex.bytes notComma) 1 None].
  by rewrite (match_here_run (Regex.group (Regex.bytes notComma) 1 None) []
                (String c p) suffix []
                (run_without_comma _ Hp) (or_introl Hs)
                ltac:(done) ltac:(simpl; lia) eq_refl).
Qed.

(** X18. The pollster is the title up to its first comma, trimmed; the
    whole title, trimmed, when it has no comma; and "Unknown" when the title
    is empty or starts with a comma. *)
Theorem pollster_is_title_up_to_comma (page : Page) :
  (forall p rest,
     titleText page = p +:+ String "," rest ->
     Str.includes "," p = false ->
     extractPollster page = if Str.truthy p then Str.trim p else "Unknown")
  /\ (Str.includes "," (titleText page) = false ->
      extractPollster page
      = if Str.truthy (titleText page) then Str.trim (titleText page)
        else "Unknown").
Proof.
  split.
  - intros p rest Ht Hp. destruct p as [|c p].
    + unfold extractPollster, Regex.up_to_comma. rewrite Ht.
      by rewrite match_here_stuck.
    + by apply (extractPollster_prefix page c p (String "," rest)).
  - intros Hp. destruct (titleText page) as [|c t] eqn:Ht.
    + unfold extractPollster, Regex.up_to_comma. rewrite Ht.
      by rewrite match_here_stuck.
    + apply (extractPollster_prefix page c t EmptyString); [|done|done].
      rewrite Ht. clear. generalize (String c t). intros s.
      induction s as [|a s IH]; [done|].
      change (String a s = String a (s +:+ EmptyString)). by f_equal.
Qed.

(** *** The percentage *)

Lemma fromMandateLinks_fold (hrefs : list string) (acc : option float) :
  fold_left
    (fun mdgPercentage href =>
       match Regex.search Regex.mdg_value href with
       | Some [v] => if unset mdgPercentage then Some (Num.parseFloat v)
                     else mdgPercentage
       | _ => mdgPercentage
       end) hrefs acc
  = fold_left
      (fun mdgPercentage href =>
         match mdgValueOf href with
         | Some x => if unset mdgPercentage then Some x else mdgPercentage
         | None => mdgPercentage
         end) hrefs acc.
Proof.
  revert acc. induction hrefs as [|h hrefs IH]; intros acc; [done|].
  simpl. rewrite IH. f_equal. unfold mdgValueOf.
  by destruct (Regex.search Regex.mdg_value h) as [[|v [|]]|].
Qed.

Lemma links_keep_set (hrefs : list string) (x : float) :
  Num.falsy x = false ->
  fold_left
    (fun mdgPercentage href =>
       match mdgValueOf href with
       | Some x => if unset mdgPercentage then Some x else mdgPercentage
       | None => mdgPercentage
       end) hrefs (Some x)
  = Some x.
Proof.
  intros Hx. induction hrefs as [|h hrefs IH]; [done|].
  simpl. destruct (mdgValueOf h) as [y|]; [|done].
  by rewrite Hx.
Qed.

Lemma links_falsy (hrefs : list string) (acc : option float) :
  unset acc = true ->
  Forall (fun href => match mdgValueOf href with
                      | Some x => Num.falsy x = true
                      | None => True
                      end) hrefs ->
  unset (fold_left
           (fun mdgPercentage href =>
              match mdgValueOf href with
              | Some x => if unset mdgPercentage then Some x else mdgPercentage
              | None => mdgPercentage
              end) hrefs acc) = true.
Proof.
  intros Hacc Hall. revert acc Hacc.
  induction Hall as [|h hrefs Hh _ IH]; intros acc Hacc; [done|].
  simpl. apply IH. destruct (mdgValueOf h) as [y|]; [|done].
  by rewrite Hacc.
Qed.

Lemma scripts_without_value (l : list string) (acc : option float) :
  Forall (fun scriptContent => Str.includes "MDG=" scriptContent = false) l ->
  fold_left
    (fun mdgPercentage scriptContent =>
       if Str.truthy scriptContent && Str.includes "MDG=" scriptContent then
         match Regex.search Regex.mdg_value scriptContent with
         | Some [v] => Some (Num.parseFloat v)
         | _ => mdgPercentage
         end
       else mdgPercentage) l acc
  = acc.
Proof.
  intros Hall. revert acc.
  induction Hall as [|h l Hh _ IH]; intros acc; [done|].
  simpl. rewrite Hh, andb_false_r. apply IH.
Qed.

(** X19. The percentage of a page is the value of the first mandate link
    whose value is neither zero nor NaN, whatever later links and the
    scripts say; and a page on which neither a link nor a script holds
    "MDG=" has no percentage. *)
Theorem percentage_first_usable_link (page : Page) :
  (forall before href after x,
     List.filter (Str.includes "MDG=") (anchors page)
       = (before ++ href :: after)%list ->
     Forall (fun h => match mdgValueOf h with
                      | Some y => Num.falsy y = true
                      | None => True
                      end) before ->
     mdgValueOf href = Some x ->
     Num.falsy x = false ->
     extractPercentage page = Some x)
  /\ (Forall (fun h => Str.includes "MDG=" h = false) (anchors page) ->
      Forall (fun s => Str.includes "MDG=" s = false) (scripts page) ->
      extractPercentage page = None).
Proof.
  unfold extractPercentage, fromMandateLinks, fromScripts. split.
  - intros before href after x -> Hbefore Hv Hx.
    rewrite fromMandateLinks_fold, fold_left_app. simpl.
    rewrite Hv.
    rewrite (links_falsy before None eq_refl Hbefore).
    rewrite (links_keep_set after x Hx). simpl. by rewrite Hx.
  - intros Hlinks Hscripts.
    assert (List.filter (Str.includes "MDG=") (anchors page) = []) as ->.
    { induction Hlinks as [|h l Hh _ IH]; [done|]. simpl. by rewrite Hh. }
    simpl. by apply scripts_without_value.
Qed.

(** *** The two ways into the data file *)

Lemma feed_table_extends (year e : Z) :
  PollUpdater.electionDateOf year = Some e ->
  PollFetcher.electionDateOf year = Some e.
Proof.
  unfold PollUpdater.electionDateOf, PollFetcher.electionDateOf,
    PollUpdater.ELECTION_DATES, PollFetcher.ELECTION_DATES.
  cbn [List.find fst].
  destruct (Z.eqb_spec 2013 year) as [<-|]; [done|].
  destruct (Z.eqb_spec 2017 year) as [<-|]; [done|].
  destruct (Z.eqb_spec 2021 year) as [<-|]; [done|].
  destruct (Z.eqb_spec 2025 year) as [<-|]; [done|].
  done.
Qed.

(** X20. A page that the scan of update-polls.js takes for an election is
    taken by poll-fetcher.js for the same election, with the same date,
    percentage, pollster, day count and url, whenever the title of its feed
    item names "stortingsvalg" and "hele landet"; the record of the feed
    has the title of the item and no scope. *)
Theorem feed_and_scan_agree (web : Web) (rssItem : PollFetcher.RssItem)
    (details : PollDetails) (year : Z) (poll : Poll) :
  Str.includes "stortingsvalg" (PollFetcher.title rssItem) = true ->
  Str.includes "hele landet" (PollFetcher.title rssItem) = true ->
  fetchPollDetails web (PollFetcher.link rssItem) = Some details ->
  acceptPoll details = Some (year, poll) ->
  exists electionDate,
    PollFetcher.electionDateOf year = Some electionDate
    /\ PollFetcher.processItem web electionDate rssItem
       = Some {| date := date poll;
                 mdgPercentage := mdgPercentage poll;
                 pollster := pollster poll;
                 daysUntilElection := daysUntilElection poll;
                 rssTitle := Some (PollFetcher.title rssItem);
                 url := url poll;
                 scope := None;
                 region := None |}.
Proof.
  intros Ht1 Ht2 Hf Ha.
  apply acceptPoll_record in Ha as (t & e & pct & Hd & Hp & He & Hr & ->).
  exists e. split; [by apply feed_table_extends|].
  unfold fetchPollDetails in Hf.
  destruct (web (PollFetcher.link rssItem)) as [page|] eqn:Hw; [|done].
  destruct (Str.includes notInDatabase (bodyText page)); [done|].
  injection Hf as <-. simpl in *.
  unfold PollFetcher.processItem, PollFetcher.fetchPollDetails.
  rewrite Ht1, Ht2, Hw. simpl. rewrite Hd, Hp.
  change (PollFetcher.calculateDaysUntilElection t e)
    with (calculateDaysUntilElection t e).
  destruct (Z.leb_spec 0 (calculateDaysUntilElection t e)); [|lia].
  destruct (Z.leb_spec (calculateDaysUntilElection t e) 730); [|lia].
  done.
Qed.

Lemma feed_and_scan_agree_witness :
  exists electionDate,
    PollFetcher.electionDateOf 2021 = Some electionDate
    /\ PollFetcher.processItem sampleWeb electionDate sampleItem
       = Some {| date := date stored5200;
                 mdgPercentage := mdgPercentage stored5200;
                 pollster := pollster stored5200;
                 daysUntilElection := daysUntilElection stored5200;
                 rssTitle := Some (PollFetcher.title sampleItem);
                 url := url stored5200;
                 scope := None;
                 region := None |}.
Proof.
  apply (feed_and_scan_agree sampleWeb sampleItem
           {| d_date := extractPollDate nationalPage;
              d_mdgPercentage := extractPercentage nationalPage;
              d_pollster := extractPollster nationalPage;
              d_url := url5200;
              d_scope := extractScope nationalPage |}
           2021 stored5200).
  - vm_compute. reflexivity.
  - vm_compute. reflexivity.
  - vm_compute. reflexivity.
  - vm_compute. reflexivity.
Defined.

End PageFacts.


(** ** calculateRollingAverage: the order of its input *)

Section SmootherOrder.
Context {poll num : Type}.
Variable daysOf : poll -> Z.
Variable pctOf : poll -> num.
Variable zero : num.
Variable add div : num -> num -> num.
Variable of_nat : nat -> num.

Lemma sum_perm (l l' : list poll) :
  (forall s a b, add (add s a) b = add (add s b) a) ->
  l ≡ₚ l' ->
  forall s, fold_left (fun sum p => add sum (pctOf p)) l s
            = fold_left (fun sum p => add sum (pctOf p)) l' s.
Proof.
  intros Hswap.
  induction 1 as [|a l l' _ IH|a b l|l1 l2 l3 _ IH1 _ IH2]; intros s; simpl.
  - done.
  - apply IH.
  - by rewrite Hswap.
  - by rewrite IH1.
Qed.

Lemma averagesFrom_perm (fuel : nat) (l l' : list poll) (windowDays : float)
    (maxDays step : Z) :
  l ≡ₚ l' ->
  forall day,
    x <$> averagesFrom daysOf pctOf zero add div of_nat fuel l windowDays
                       maxDays step day
    = x <$> averagesFrom daysOf pctOf zero add div of_nat fuel l' windowDays
                         maxDays step day
    /\ ((forall s a b, add (add s a) b = add (add s b) a) ->
        averagesFrom daysOf pctOf zero add div of_nat fuel l windowDays
                     maxDays step day
        = averagesFrom daysOf pctOf zero add div of_nat fuel l' windowDays
                       maxDays step day).
Proof.
  intros Hperm. induction fuel as [|fuel IH]; intros day; [done|].
  simpl. destruct (day <=? maxDays); [|done].
  pose proof (filter_perm (inWindow daysOf windowDays day) l l' Hperm) as Hf.
  rewrite <- (Permutation_length Hf).
  destruct (IH (day + step)) as [IHx IHall].
  destruct (0 <? length _)%nat.
  - split.
    + rewrite !fmap_cons. by f_equal.
    + intros Hswap. rewrite (IHall Hswap). f_equal. unfold average.
      rewrite (sum_perm _ _ Hswap Hf). by rewrite (Permutation_length Hf).
  - by split.
Qed.

Lemma minOf_perm (l l' : list Z) : l ≡ₚ l' -> minOf l = minOf l'.
Proof.
  intros Hperm. destruct l as [|d ds].
  { apply Permutation_nil in Hperm. by subst. }
  destruct l' as [|d' ds'].
  { symmetry in Hperm. by apply Permutation_nil in Hperm. }
  simpl. destruct (fold_min_spec ds d) as [Hin Hlow].
  destruct (fold_min_spec ds' d') as [Hin' Hlow'].
  rewrite Forall_forall in Hlow, Hlow'.
  rewrite Hperm in Hin. rewrite <- Hperm in Hin'.
  specialize (Hlow _ Hin'). specialize (Hlow' _ Hin). lia.
Qed.

Lemma maxOf_perm (l l' : list Z) : l ≡ₚ l' -> maxOf l = maxOf l'.
Proof.
  intros Hperm. destruct l as [|d ds].
  { apply Permutation_nil in Hperm. by subst. }
  destruct l' as [|d' ds'].
  { symmetry in Hperm. by apply Permutation_nil in Hperm. }
  simpl. destruct (fold_max_spec ds d) as [Hin Hup].
  destruct (fold_max_spec ds' d') as [Hin' Hup'].
  rewrite Forall_forall in Hup, Hup'.
  rewrite Hperm in Hin. rewrite <- Hperm in Hin'.
  specialize (Hup _ Hin'). specialize (Hup' _ Hin). lia.
Qed.

(** X21. The days of the output points do not depend on the order in which
    the samples are given; the averages do not either when the order of two
    additions does not matter to the sum, as with exact numbers. *)
Theorem smoother_ignores_input_order (polls polls' : list poll)
    (windowDays : float) :
  polls ≡ₚ polls' ->
  x <$> calculateRollingAverage daysOf pctOf zero add div of_nat
                                polls windowDays
  = x <$> calculateRollingAverage daysOf pctOf zero add div of_nat
                                  polls' windowDays
  /\ ((forall s a b, add (add s a) b = add (add s b) a) ->
      calculateRollingAverage daysOf pctOf zero add div of_nat
                              polls windowDays
      = calculateRollingAverage daysOf pctOf zero add div of_nat
                                polls' windowDays).
Proof.
  intros Hperm. unfold calculateRollingAverage.
  rewrite <- (Permutation_length Hperm).
  destruct (length polls <? 2)%nat; [done|].
  assert (sort_by daysOf polls ≡ₚ sort_by daysOf polls') as Hsorted.
  { by rewrite !sort_by_perm. }
  assert (daysOf <$> sort_by daysOf polls ≡ₚ daysOf <$> sort_by daysOf polls')
    as Hdays by (by apply fmap_Permutation).
  rewrite <- (minOf_perm _ _ Hdays), <- (maxOf_perm _ _ Hdays).
  by apply averagesFrom_perm.
Qed.

End SmootherOrder.

Lemma smoother_ignores_input_order_witness :
  x <$> calculateRollingAverage daysUntilElection mdgPercentage
          0%float PrimFloat.add PrimFloat.div (fun n => Num.of_Z (Z.of_nat n))
          [poll5080; poll5180] 7
  = x <$> calculateRollingAverage daysUntilElection mdgPercentage
            0%float PrimFloat.add PrimFloat.div (fun n => Num.of_Z (Z.of_nat n))
            [poll5180; poll5080] 7
  /\ ((forall s a b,
         PrimFloat.add (PrimFloat.add s a) b = PrimFloat.add (PrimFloat.add s b) a) ->
      calculateRollingAverage daysUntilElection mdgPercentage
        0%float PrimFloat.add PrimFloat.div (fun n => Num.of_Z (Z.of_nat n))
        [poll5080; poll5180] 7
      = calculateRollingAverage daysUntilElection mdgPercentage
          0%float PrimFloat.add PrimFloat.div (fun n => Num.of_Z (Z.of_nat n))
          [poll5180; poll5080] 7).
Proof.
  apply (smoother_ignores_input_order daysUntilElection mdgPercentage
           0%float PrimFloat.add PrimFloat.div (fun n => Num.of_Z (Z.of_nat n))
           [poll5080; poll5180] [poll5180; poll5080] 7).
  apply perm_swap.
Defined.


(** ** The historical fetcher *)

Section HistoryFacts.
Import HistoricalFetcher.

Lemma omap_cons_option_list {A B : Type} (f : A -> option B) (a : A)
    (l : list A) :
  omap f (a :: l) = (option_list (f a) ++ omap f l)%list.
Proof. simpl. by destruct (f a). Qed.

Lemma batch_flat (process : Z -> option Poll) (endId : Z) (n : nat) :
  forall batchId polls,
    batch process n batchId endId polls
    = (polls ++ omap process
                 (seqZ batchId (Z.min (Z.of_nat n) (endId - batchId + 1))))%list.
Proof.
  induction n as [|n IH]; intros batchId polls.
  - simpl. rewrite seqZ_nil by lia. by rewrite app_nil_r.
  - cbn [batch]. destruct (Z.leb_spec batchId endId) as [Hle|Hgt].
    + rewrite IH.
      rewrite (seqZ_cons batchId (Z.min (Z.of_nat (S n)) (endId - batchId + 1)))
        by lia.
      rewrite omap_cons_option_list, <- app_assoc.
      do 3 f_equal. f_equal; lia.
    + rewrite seqZ_nil by lia. by rewrite app_nil_r.
Qed.

Lemma batches_flat (process : Z -> option Poll) (endId : Z) (fuel : nat) :
  forall id polls,
    endId - id + 1 <= Z.of_nat fuel * 10 ->
    batches process fuel id endId polls
    = (polls ++ omap process (seqZ id (endId - id + 1)))%list.
Proof.
  induction fuel as [|fuel IH]; intros id polls Hfuel.
  - simpl. rewrite seqZ_nil by lia. by rewrite app_nil_r.
  - cbn [batches]. destruct (Z.leb_spec id endId) as [Hle|Hgt].
    + rewrite IH by (unfold batchSize; lia). rewrite batch_flat.
      rewrite <- app_assoc, <- omap_app. do 2 f_equal.
      unfold batchSize.
      destruct (Z.le_gt_cases (endId - id + 1) 10) as [Hshort|Hlong].
      * rewrite Z.min_r by lia.
        rewrite (seqZ_nil (id + Z.of_nat 10)) by lia. by rewrite app_nil_r.
      * rewrite Z.min_l by lia.
        rewrite <- seqZ_app by lia. f_equal. lia.
    + rewrite seqZ_nil by lia. by rewrite app_nil_r.
Qed.

(** X22. The batches of [fetchHistoricalPolls] ask for every id from
    [startId] to [endId] once, in ascending order: its result is, sorted by
    date, what the ids give one after the other. *)
Theorem historical_scan_is_flat (setMonthBack24 : Z -> Z) (web : Web)
    (electionYear startId endId : Z) :
  fetchHistoricalPolls setMonthBack24 web electionYear startId endId
  = match electionDateOf electionYear with
    | None => []
    | Some electionDate =>
        sort_by date
          (omap (processId web electionDate (setMonthBack24 electionDate))
                (seqZ startId (endId - startId + 1)))
    end.
Proof.
  unfold fetchHistoricalPolls.
  destruct (electionDateOf electionYear) as [e|]; [|done].
  by rewrite batches_flat by lia.
Qed.

Lemma historical_table_days (year e : Z) :
  electionDateOf year = Some e ->
  exists day, e = day * JSDate.msPerDay.
Proof.
  unfold electionDateOf, ELECTION_DATES. cbn [List.find fst].
  destruct (2011 =? year); [intros [= <-]; by eexists|].
  destruct (2013 =? year); [intros [= <-]; by eexists|].
  destruct (2017 =? year); [intros [= <-]; by eexists|].
  destruct (2021 =? year); [intros [= <-]; by eexists|].
  destruct (2025 =? year); [intros [= <-]; by eexists|].
  done.
Qed.

Lemma processId_record (web : Web) (electionDay before id : Z) (poll : Poll) :
  processId web (electionDay * JSDate.msPerDay) before id = Some poll ->
  exists page,
    web (PollUpdater.pollUrlOf id) = Some page
    /\ url poll = PollUpdater.pollUrlOf id
    /\ daysUntilElection poll = electionDay - date poll
    /\ 0 <= daysUntilElection poll <= 730
    /\ before <= date poll * JSDate.msPerDay
    /\ scope poll = Some (PollUpdater.extractScope page)
    /\ region poll = None
    /\ rssTitle poll = None.
Proof.
  unfold processId, fetchPollDetails. intros H.
  destruct (web (PollUpdater.pollUrlOf id)) as [page|]; [|done].
  simpl in H.
  destruct (PollUpdater.extractPollDate page) as [[t|]|] eqn:Hd; try done.
  destruct (PollUpdater.extractPercentage page) as [pct|]; [|done].
  apply extractPollDate_midnight in Hd as [d ->].
  change (calculateDaysUntilElection (d * JSDate.msPerDay)
            (electionDay * JSDate.msPerDay))
    with (PollUpdater.calculateDaysUntilElection (d * JSDate.msPerDay)
            (electionDay * JSDate.msPerDay)) in H.
  rewrite calculateDays_days in H.
  destruct (Z.leb_spec 0 (electionDay - d)); [|done].
  destruct (Z.leb_spec (electionDay - d) 730); [|done].
  destruct (Z.leb_spec before (d * JSDate.msPerDay)); [|done].
  destruct (_ <=? _); [|done].
  simpl in H. injection H as <-. simpl.
  assert (JSDate.isoDay (d * JSDate.msPerDay) = d) as ->.
  { unfold JSDate.isoDay. by rewrite Z.div_mul. }
  exists page. repeat split; try done; lia.
Qed.

Lemma omap_urls_NoDup (process : Z -> option Poll) (ids : list Z) :
  (forall id poll, process id = Some poll ->
                   url poll = PollUpdater.pollUrlOf id) ->
  NoDup ids -> NoDup (url <$> omap process ids).
Proof.
  intros Hurl. induction 1 as [|id ids Hnotin _ IH]; [constructor|].
  simpl. destruct (process id) as [poll|] eqn:Hp; [|done].
  rewrite fmap_cons. constructor; [|done].
  intros Hin. apply list_elem_of_fmap in Hin as (q & Hq & Hin).
  apply list_elem_of_omap in Hin as (id' & Hid' & Hp').
  rewrite (Hurl _ _ Hp), (Hurl _ _ Hp') in Hq.
  apply pollUrlOf_inj in Hq. by subst.
Qed.

(** X23. The polls that [fetchHistoricalPolls] returns are in order of
    date and no url is there twice; each has the url of an id between
    [startId] and [endId] and the scope read from that page, lies on or at
    most 730 days before the election's day and not before the time that
    the date arithmetic gave, has as [daysUntilElection] the election's day
    minus its own, and has neither region nor rss title. *)
Theorem historical_polls_well_formed (setMonthBack24 : Z -> Z) (web : Web)
    (electionYear startId endId : Z) :
  ascending date
    (fetchHistoricalPolls setMonthBack24 web electionYear startId endId)
  /\ NoDup (url <$> fetchHistoricalPolls setMonthBack24 web electionYear
                                          startId endId)
  /\ Forall (fun poll =>
               exists id electionDate page,
                 startId <= id <= endId
                 /\ electionDateOf electionYear = Some electionDate
                 /\ web (PollUpdater.pollUrlOf id) = Some page
                 /\ url poll = PollUpdater.pollUrlOf id
                 /\ daysUntilElection poll
                    = JSDate.isoDay electionDate - date poll
                 /\ 0 <= daysUntilElection poll <= 730
                 /\ setMonthBack24 electionDate
                    <= date poll * JSDate.msPerDay
                 /\ scope poll = Some (PollUpdater.extractScope page)
                 /\ region poll = None
                 /\ rssTitle poll = None)
            (fetchHistoricalPolls setMonthBack24 web electionYear
                                  startId endId).
Proof.
  unfold fetchHistoricalPolls.
  destruct (electionDateOf electionYear) as [e|] eqn:He;
    [|by repeat split; try constructor; try apply ascending_nil].
  rewrite batches_flat by lia. rewrite app_nil_l.
  destruct (historical_table_days _ _ He) as [day ->].
  split; [apply sort_by_ascending|]. split.
  - rewrite (sort_by_perm date). apply omap_urls_NoDup; [|apply NoDup_seqZ].
    intros id poll Hp. by apply processId_record in Hp as (page & _ & Hu & _).
  - rewrite (sort_by_perm date). apply Forall_forall. intros poll Hin.
    apply list_elem_of_omap in Hin as (id & Hid & Hp).
    apply elem_of_seqZ in Hid.
    apply processId_record in Hp
      as (page & Hw & Hu & Hdays & Hr & Hb & Hs & Hreg & Hrss).
    exists id, (day * JSDate.msPerDay), page.
    assert (JSDate.isoDay (day * JSDate.msPerDay) = day) as ->.
    { unfold JSDate.isoDay. by rewrite Z.div_mul. }
    repeat split; try done; lia.
Qed.

(** *** [run] *)

Lemma processElection_frame (setMonthBack24 : Z -> Z) (web : Web)
    (data0 : Dataset) (P : Z -> Prop) (state : Dataset * list Fs.call)
    (entry : Z * (Z * Z)) :
  (forall y, P y ->
     y <> fst entry
     \/ exists election, data0 !! y = Some election
                         /\ (5 < length (polls election))%nat) ->
  (forall y, P y -> fst state !! y = data0 !! y) ->
  Forall (fun c => exists d, c = Fs.WriteFileSync dataFile d
                             /\ forall y, P y -> d !! y = data0 !! y)
         (snd state) ->
  let state' := processElection setMonthBack24 web state entry in
  (forall y, P y -> fst state' !! y = data0 !! y)
  /\ Forall (fun c => exists d, c = Fs.WriteFileSync dataFile d
                                /\ forall y, P y -> d !! y = data0 !! y)
            (snd state')
  /\ (length (snd state') <= S (length (snd state)))%nat.
Proof.
  destruct state as [data calls], entry as [year [startId endId]].
  simpl fst. simpl snd. intros HP Hdata Hcalls. unfold processElection.
  destruct (match data !! year with
            | Some election => (5 <? length (polls election))%nat
            | None => false
            end) eqn:Hskip; [simpl; repeat split; try done; lia|].
  destruct (0 <? length _)%nat; [|simpl; repeat split; try done; lia].
  destruct (electionDateOf year) as [e|]; [|simpl; repeat split; try done; lia].
  assert (forall y, P y -> y <> year) as Hne.
  { intros y Hy ->. destruct (HP year Hy) as [Hn|(el & Hl & Hlen)]; [done|].
    rewrite (Hdata year Hy), Hl in Hskip.
    apply Nat.ltb_ge in Hskip. lia. }
  simpl. repeat split.
  - intros y Hy. rewrite lookup_insert_ne by (intros ->; by apply (Hne y)).
    by apply Hdata.
  - apply Forall_app. split; [done|]. constructor; [|constructor].
    eexists. split; [reflexivity|].
    intros y Hy. rewrite lookup_insert_ne by (intros ->; by apply (Hne y)).
    by apply Hdata.
  - rewrite length_app. simpl. lia.
Qed.

(** X24. [run] of the historical fetcher writes the data file and nothing
    else, at most four times; in everything it writes, an election that the
    data file held with more than five polls is as it was, and so is every
    year other than 2013, 2017, 2021 and 2025. *)
Theorem historical_run_keeps_filled_cycles (setMonthBack24 : Z -> Z)
    (web : Web) (fs : Fs.state) :
  (length (run setMonthBack24 web fs) <= 4)%nat
  /\ Forall (fun c =>
               exists d,
                 c = Fs.WriteFileSync dataFile d
                 /\ forall y,
                      (y <> 2013 /\ y <> 2017 /\ y <> 2021 /\ y <> 2025)
                      \/ (exists election,
                            PollUpdater.loadExistingData fs !! y = Some election
                            /\ (5 < length (polls election))%nat) ->
                      d !! y = PollUpdater.loadExistingData fs !! y)
            (run setMonthBack24 web fs).
Proof.
  unfold run, electionRanges. cbn [fold_left].
  set (data0 := PollUpdater.loadExistingData fs).
  set (P := fun y : Z =>
              (y <> 2013 /\ y <> 2017 /\ y <> 2021 /\ y <> 2025)
              \/ (exists election,
                    data0 !! y = Some election
                    /\ (5 < length (polls election))%nat)).
  assert (HP : forall entry,
             entry ∈ electionRanges ->
             forall y, P y ->
               y <> fst entry
               \/ exists election, data0 !! y = Some election
                                   /\ (5 < length (polls election))%nat).
  { intros entry Hentry y [Hy|Hy]; [left | by right].
    unfold electionRanges in Hentry.
    repeat (apply elem_of_cons in Hentry as [->|Hentry]; [simpl; lia|]).
    by apply elem_of_nil in Hentry. }
  pose proof (processElection_frame setMonthBack24 web data0 P (data0, [])
                (2013, (1614, 2110))
                (HP (2013, (1614, 2110)) ltac:(unfold electionRanges; repeat (first [by left | right])))
                (fun _ _ => eq_refl) (Forall_nil_2 _)) as (H1 & C1 & L1).
  pose proof (processElection_frame setMonthBack24 web data0 P _
                (2017, (2900, 3315))
                (HP (2017, (2900, 3315)) ltac:(unfold electionRanges; repeat (first [by left | right])))
                H1 C1) as (H2 & C2 & L2).
  pose proof (processElection_frame setMonthBack24 web data0 P _
                (2021, (4041, 4532))
                (HP (2021, (4041, 4532)) ltac:(unfold electionRanges; repeat (first [by left | right])))
                H2 C2) as (H3 & C3 & L3).
  pose proof (processElection_frame setMonthBack24 web data0 P _
                (2025, (5240, 5600))
                (HP (2025, (5240, 5600)) ltac:(unfold electionRanges; repeat (first [by left | right])))
                H3 C3) as (H4 & C4 & L4).
  cbn [snd length] in L1. split; [lia | exact C4].
Qed.

End HistoryFacts.


(** ** The donation fetcher: the pages it reads *)

Section DonationFacts.
Import RealApiDonationFetcher.
Context {Entry : Type}.

Lemma pages_spec (api : Z -> option (Response Entry)) (fuel : nat) :
  forall pageNumber donations,
    1 <= pageNumber ->
    Z.of_nat (S fuel) = 21 - pageNumber ->
    exists last,
      pageNumber <= last <= 20
      /\ (forall p, pageNumber <= p < last -> hasMore api p = true)
      /\ (last < 20 -> hasMore api last = false)
      /\ pages api (S fuel) pageNumber donations
         = (donations
            ++ flat_map (entriesOf api)
                        (seqZ pageNumber (last - pageNumber + 1)))%list.
Proof.
  induction fuel as [|fuel IH]; intros p acc Hp Hfuel.
  - assert (p = 20) as -> by lia. exists 20.
    split; [lia|]. split; [intros; lia|]. split; [lia|].
    change (seqZ 20 (20 - 20 + 1)) with [20]. unfold entriesOf. simpl.
    destruct (api 20) as [response|]; [|by rewrite app_nil_r].
    destruct (PageEntries response) as [es|]; simpl;
      [|by rewrite app_nil_r].
    rewrite app_nil_r. by destruct (_ && _).
  - assert (Hstep : pages api (S (S fuel)) p acc
                    = if hasMore api p
                      then pages api (S fuel) (p + 1) (acc ++ entriesOf api p)
                      else (acc ++ entriesOf api p)%list).
    { cbn [pages]. destruct (Z.leb_spec p 20); [|lia].
      unfold hasMore, entriesOf.
      destruct (api p) as [response|]; [|by rewrite app_nil_r].
      destruct (PageEntries response) as [es|]; [done|].
      simpl. by rewrite app_nil_r. }
    rewrite Hstep. destruct (hasMore api p) eqn:Hmore.
    + destruct (IH (p + 1) (acc ++ entriesOf api p)%list ltac:(lia) ltac:(lia))
        as (last & Hlast & Hbefore & Hstop & ->).
      exists last. split; [lia|]. split.
      { intros q Hq. destruct (decide (q = p)) as [->|]; [done|].
        apply Hbefore. lia. }
      split; [done|].
      rewrite (seqZ_cons p (last - p + 1)) by lia. simpl.
      rewrite <- app_assoc. do 3 f_equal. f_equal; lia.
    + exists p. split; [lia|]. split; [intros; lia|]. split; [done|].
      replace (p - p + 1) with 1 by lia.
      change (seqZ p 1) with [p]. simpl. by rewrite app_nil_r.
Qed.

Lemma pages_ext (api api' : Z -> option (Response Entry)) (fuel : nat) :
  (forall p, 1 <= p <= 20 -> api p = api' p) ->
  forall pageNumber donations,
    1 <= pageNumber ->
    pages api fuel pageNumber donations = pages api' fuel pageNumber donations.
Proof.
  intros Hsame. induction fuel as [|fuel IH]; intros p acc Hp; [done|].
  cbn [pages]. destruct (Z.leb_spec p 20); [|done].
  rewrite <- (Hsame p) by lia.
  destruct (api p) as [response|]; [|done].
  destruct (PageEntries response) as [es|]; [|done].
  simpl. destruct (_ && _); [|done]. apply IH. lia.
Qed.

(** X25. [fetchPartyDonations] returns the entries of the pages 1 to
    [last], in order, where [last] is the first page that does not ask for
    a next one (it failed, had no entries, or reached the total), and 20 if
    there is none; no page after the twentieth matters to it. *)
Theorem donation_pages_in_order (api : Z -> option (Response Entry)) :
  (exists last,
     1 <= last <= 20
     /\ (forall p, 1 <= p < last -> hasMore api p = true)
     /\ (last < 20 -> hasMore api last = false)
     /\ fetchPartyDonations api
        = flat_map (entriesOf api) (seqZ 1 last))
  /\ (forall api' : Z -> option (Response Entry),
        (forall p, 1 <= p <= 20 -> api p = api' p) ->
        fetchPartyDonations api = fetchPartyDonations api').
Proof.
  split.
  - destruct (pages_spec api 19 1 [] ltac:(lia) ltac:(lia))
      as (last & Hlast & Hbefore & Hstop & Hpages).
    exists last. repeat split; try done; try lia.
    unfold fetchPartyDonations. rewrite Hpages. simpl app.
    do 2 f_equal. lia.
  - intros api' Hsame. unfold fetchPartyDonations.
    by apply pages_ext.
Qed.

End DonationFacts.
